(** * camelsp: the dirty-table parsers of the pre-processing notebooks

    A shallow embedding of the parsing functions of three notebooks:

    - [scripts/preprocess_de4.ipynb] (Brandenburg): [parse_dirty_dataframe],
      which cuts an Excel sheet into blocks at its empty rows and reads
      metadata and a time series from them;
    - [scripts/preprocess_de2.ipynb] (Bayern): [get_filename_mapping],
      [get_file_from_zip] and [extract_file], with the fallback that drops
      lines with a negative value;
    - [scripts/preprocess_def.ipynb] (Schleswig-Holstein): [extract_file].

    The cells that call these functions are embedded as well: the cell of
    Brandenburg that collects the stations and the one that saves them,
    [read_meta] of Bayern with its scan of the files, and the loops of Bayern
    and Schleswig-Holstein that save the series.

    Python exceptions are the [Raise] outcomes of the [result] monad, the
    warnings a function issues with [warnings.warn] are collected in a list,
    and the library functions whose behaviour is outside the repository
    ([float] on text, [str], [dateparser.parse], [datetime.strptime],
    [pandas.read_csv]) are variables of the sections that use them. *)

From Stdlib Require Import ZArith List String Ascii Bool Lia Floats.
From stdpp Require Import base option list gmap strings pretty.
Import ListNotations.

Set Warnings "-inexact-float".
Local Open Scope string_scope.
Local Open Scope nat_scope.
Local Open Scope list_scope.

(** ** Exceptions and the result monad *)

Inductive exn : Type :=
| IndexError
| KeyError
| ValueError
| TypeError
| AttributeError
| FileNotFoundError
| ParserError
| OtherError (msg : string).

Inductive result (A : Type) : Type :=
| Ok (a : A)
| Raise (e : exn).

Arguments Ok {A} a.
Arguments Raise {A} e.

#[global] Instance result_ret : MRet result := fun A a => Ok a.

#[global] Instance result_bind : MBind result := fun A B f m =>
  match m with
  | Ok a => f a
  | Raise e => Raise e
  end.

Definition returns {A : Type} (m : result A) : Prop := exists a, m = Ok a.

Definition raises {A : Type} (m : result A) : Prop := exists e, m = Raise e.

(** ** Python text

    A [str] is modelled by a [string] whose characters are the code points
    below U+0100 (the texts a latin1-decoded file holds); [lower] and the
    white space of [strip] are Python's on that range. *)

Definition u_uml : ascii := "252"%char.

(** The literal ['geprüft'] of the Brandenburg notebook. *)
Definition geprueft : string :=
  "gepr" +:+ String u_uml "ft".

Definition a_uml : ascii := "228"%char.

(** The literal ['qualitätsgesichert'] of the Schleswig-Holstein notebook. *)
Definition qualitaetsgesichert : string :=
  "qualit" +:+ String a_uml "tsgesichert".

Definition lower_char (c : ascii) : ascii :=
  let n := N_of_ascii c in
  if ((65 <=? n) && (n <=? 90) ||
      (192 <=? n) && (n <=? 222) && negb (n =? 215))%N
  then ascii_of_N (n + 32)
  else c.

Fixpoint lower (s : string) : string :=
  match s with
  | EmptyString => EmptyString
  | String c s' => String (lower_char c) (lower s')
  end.

Definition isspace (c : ascii) : bool :=
  let n := N_of_ascii c in
  ((9 <=? n) && (n <=? 13) || (28 <=? n) && (n <=? 32) ||
   (n =? 133) || (n =? 160))%N.

Fixpoint lstrip (s : string) : string :=
  match s with
  | EmptyString => EmptyString
  | String c s' => if isspace c then lstrip s' else s
  end.

Fixpoint rstrip (s : string) : string :=
  match s with
  | EmptyString => EmptyString
  | String c s' =>
      match rstrip s' with
      | EmptyString => if isspace c then EmptyString else String c EmptyString
      | r => String c r
      end
  end.

Definition strip (s : string) : string := rstrip (lstrip s).

(** [s.split(sep)] for a separator of one character: empty fields are kept,
    and the empty text has the single field [''] . *)
Fixpoint split (sep : ascii) (s : string) : list string :=
  match s with
  | EmptyString => [EmptyString]
  | String c s' =>
      if Ascii.eqb c sep then EmptyString :: split sep s'
      else match split sep s' with
           | w :: ws => String c w :: ws
           | [] => [String c EmptyString]
           end
  end.

Definition is_linebreak (c : ascii) : bool :=
  let n := N_of_ascii c in
  ((10 <=? n) && (n <=? 13) || (28 <=? n) && (n <=? 30) || (n =? 133))%N.

(** [s.splitlines()]: a line ends at a line boundary, CR LF counting as one,
    and no empty last line follows a final boundary. *)
Fixpoint splitlines (s : string) : list string :=
  match s with
  | EmptyString => []
  | String c s' =>
      if is_linebreak c then
        match s' with
        | String d s'' =>
            if (N_of_ascii c =? 13)%N && (N_of_ascii d =? 10)%N
            then EmptyString :: splitlines s''
            else EmptyString :: splitlines s'
        | EmptyString => [EmptyString]
        end
      else match splitlines s' with
           | l :: ls => String c l :: ls
           | [] => [String c EmptyString]
           end
  end.

(** [sep.join(l)]. *)
Fixpoint join (sep : string) (l : list string) : string :=
  match l with
  | [] => EmptyString
  | [x] => x
  | x :: l' => x +:+ sep +:+ join sep l'
  end.

(** [c in s]. *)
Fixpoint contains_char (c : ascii) (s : string) : bool :=
  match s with
  | EmptyString => false
  | String d s' => Ascii.eqb c d || contains_char c s'
  end.

(** [s.replace(c, '')]. *)
Fixpoint remove_char (c : ascii) (s : string) : string :=
  match s with
  | EmptyString => EmptyString
  | String d s' =>
      if Ascii.eqb c d then remove_char c s' else String d (remove_char c s')
  end.

(** [s.startswith(c)] and [s.endswith(c)]. *)
Definition startswith (c : ascii) (s : string) : bool :=
  match s with
  | String d _ => Ascii.eqb c d
  | EmptyString => false
  end.

Fixpoint endswith (c : ascii) (s : string) : bool :=
  match s with
  | EmptyString => false
  | String d EmptyString => Ascii.eqb c d
  | String _ s' => endswith c s'
  end.

(** [s[:n]]. *)
Fixpoint prefix (n : nat) (s : string) : string :=
  match n, s with
  | S n', String c s' => String c (prefix n' s')
  | _, _ => EmptyString
  end.

(** ** Cells, dates and data frames *)

Record date : Type := mkDate { year : Z; month : Z; day : Z }.

Record datetime : Type := mkDateTime { dt_date : date; dt_seconds : Z }.

(** A cell of a sheet read with [header=None]: a number, a text or a
    [datetime]. An [int] cell is the float of its value (what [str] prints
    of a cell is left to the variable [py_str] below), and the empty cell is
    [nan], as pandas reads it. *)
Inductive cell : Type :=
| Number (x : float)
| Text (s : string)
| DateTime (d : datetime).

Definition NaN : cell := Number nan.

(** [pd.isnull] on one cell. *)
Definition isnull (c : cell) : bool :=
  match c with
  | Number x => PrimFloat.is_nan x
  | _ => false
  end.

Definition date_eqb (a b : date) : bool :=
  (year a =? year b)%Z && (month a =? month b)%Z && (day a =? day b)%Z.

(** The test by which a [dict] finds a key: the same object or [==]. Two
    floats are [==] by IEEE comparison, and the empty cell is the one object
    [np.nan]. *)
Definition key_eqb (a b : cell) : bool :=
  match a, b with
  | Number x, Number y =>
      PrimFloat.eqb x y || PrimFloat.is_nan x && PrimFloat.is_nan y
  | Text s, Text t => String.eqb s t
  | DateTime d, DateTime e =>
      date_eqb (dt_date d) (dt_date e) && (dt_seconds d =? dt_seconds e)%Z
  | _, _ => false
  end.

(** A [dict], in insertion order. *)
Definition dict : Type := list (cell * cell).

Fixpoint dict_get (d : dict) (k : cell) : option cell :=
  match d with
  | [] => None
  | (k', v) :: d' => if key_eqb k' k then Some v else dict_get d' k
  end.

(** [d[k] = v]: the value of a present key is replaced where it stands, a
    new key goes to the end. *)
Fixpoint dict_set (d : dict) (k v : cell) : dict :=
  match d with
  | [] => [(k, v)]
  | (k', v') :: d' =>
      if key_eqb k' k then (k', v) :: d' else (k', v') :: dict_set d' k v
  end.

(** [d.update(e)], and [{**d, **e}] when [d] is fresh. *)
Definition dict_update (d e : dict) : dict :=
  fold_left (fun acc kv => dict_set acc (fst kv) (snd kv)) e d.

(** [dict(zip(keys, vals))]. *)
Definition dict_zip (keys vals : list cell) : dict :=
  dict_update [] (combine keys vals).

(** A data frame with column labels of type [L]: every row carries its index
    label and its cells, one per column. *)
Record DataFrame (L : Type) : Type := mkFrame {
  columns : list L;
  rows : list (nat * list cell)
}.

Arguments mkFrame {L} columns rows.
Arguments columns {L} d.
Arguments rows {L} d.

(** A sheet as the rows of its cells; a short row stands for a row padded
    with empty cells. *)
Definition CellGrid : Type := list (list cell).

Definition width (g : CellGrid) : nat :=
  fold_right (fun r w => Nat.max (List.length r) w) 0 g.

Definition pad (w : nat) (r : list cell) : list cell :=
  r ++ repeat NaN (w - List.length r).

(** [xls.parse(sheet, header=None)]: columns [0 .. width-1], a RangeIndex. *)
Definition read_sheet (g : CellGrid) : DataFrame nat :=
  mkFrame (seq 0 (width g)) (combine (seq 0 (List.length g)) (map (pad (width g)) g)).

(** [len(df)]. *)
Definition len {L : Type} (df : DataFrame L) : nat := List.length (rows df).

(** [df[df.isnull().all(axis=1) == True].index.to_list()]. *)
Definition null_rows {L : Type} (df : DataFrame L) : list nat :=
  map fst (List.filter (fun r => forallb isnull (snd r)) (rows df)).

(** [df.iloc[lo:up, :]]. *)
Definition iloc_rows {L : Type} (lo up : nat) (df : DataFrame L) : DataFrame L :=
  mkFrame (columns df) (firstn (up - lo) (skipn lo (rows df))).

(** The cells of the column at position [j]. *)
Definition column_at {L : Type} (j : nat) (df : DataFrame L) : list cell :=
  map (fun r => nth j (snd r) NaN) (rows df).

(** [df.iloc[:, :n]]. *)
Definition iloc_cols_upto {L : Type} (n : nat) (df : DataFrame L) : DataFrame L :=
  mkFrame (firstn n (columns df)) (map (fun r => (fst r, firstn n (snd r))) (rows df)).

(** [df.dropna(axis=0, how='all')]: a row stays when one of its cells is not
    null. *)
Definition dropna_rows {L : Type} (df : DataFrame L) : DataFrame L :=
  mkFrame (columns df) (List.filter (fun r => existsb (fun c => negb (isnull c)) (snd r)) (rows df)).

(** The positions of the columns that hold a cell which is not null. *)
Definition kept_columns {L : Type} (df : DataFrame L) : list nat :=
  List.filter (fun j => existsb (fun c => negb (isnull c)) (column_at j df))
         (seq 0 (List.length (columns df))).

Definition select {A : Type} (js : list nat) (l : list A) (d : A) : list A :=
  map (fun j => nth j l d) js.

(** [df.dropna(axis=1, how='all')]: a column stays when one of its cells is
    not null. *)
Definition dropna_cols (df : DataFrame nat) : DataFrame nat :=
  let js := kept_columns df in
  mkFrame (select js (columns df) 0)
          (map (fun r => (fst r, select js (snd r) NaN)) (rows df)).

(** [df.iloc[0, :]]. *)
Definition iloc_row0 {L : Type} (df : DataFrame L) : result (list cell) :=
  match rows df with
  | [] => Raise IndexError
  | r :: _ => Ok (snd r)
  end.

(** [df.iloc[:, j]]. *)
Definition iloc_col {L : Type} (j : nat) (df : DataFrame L) : result (list cell) :=
  if j <? List.length (columns df) then Ok (column_at j df) else Raise IndexError.

(** [df.iloc[0, 0] = c]. *)
Definition iloc_set00 {L : Type} (c : cell) (df : DataFrame L) : result (DataFrame L) :=
  match columns df, rows df with
  | _ :: _, (i, _ :: r) :: rs => Ok (mkFrame (columns df) ((i, c :: r) :: rs))
  | _, _ => Raise IndexError
  end.

(** [df.columns = labels]. *)
Definition set_columns {L L' : Type} (labels : list L') (df : DataFrame L) : DataFrame L' :=
  mkFrame labels (rows df).

(** [df.drop(df.index[0], axis=0, inplace=True)]: the rows that carry the
    first index label go. *)
Definition drop_first {L : Type} (df : DataFrame L) : result (DataFrame L) :=
  match rows df with
  | [] => Raise IndexError
  | r :: _ => Ok (mkFrame (columns df) (List.filter (fun r' => negb (fst r' =? fst r)) (rows df)))
  end.

(** [df.to_dict(orient='records')]. *)
Definition to_dict_records (df : DataFrame cell) : list dict :=
  map (fun r => dict_zip (columns df) (snd r)) (rows df).

(** The position of the first column labelled [l]. *)
Fixpoint position (l : nat) (labels : list nat) : option nat :=
  match labels with
  | [] => None
  | l' :: ls => if l' =? l then Some 0 else S <$> position l ls
  end.

(** [df.set_index(0).T]: the cells of column [0] become the column labels,
    and every other column becomes a row. *)
Definition set_index0_T (df : DataFrame nat) : result (DataFrame cell) :=
  match position 0 (columns df) with
  | None => Raise KeyError
  | Some j =>
      let others := List.filter (fun k => negb (k =? j)) (seq 0 (List.length (columns df))) in
      Ok (mkFrame (column_at j df)
                  (map (fun k => (nth k (columns df) 0, column_at k df)) others))
  end.

(** ** The value objects handed to the writer *)

Inductive value : Type :=
| VDate (d : date)
| VDateTime (d : datetime)
| VNone
| VFloat (x : float)
| VBool (b : bool)
| VCell (c : cell).

(** A table as its columns, in order. *)
Definition Table : Type := list (string * list value).

Fixpoint table_set (t : Table) (k : string) (v : list value) : Table :=
  match t with
  | [] => [(k, v)]
  | (k', v') :: t' =>
      if String.eqb k' k then (k', v) :: t' else (k', v') :: table_set t' k v
  end.

(** [pd.DataFrame({k1: v1, k2: v2, ...})]. *)
Definition table_of_dict (items : list (string * list value)) : Table :=
  fold_left (fun t kv => table_set t (fst kv) (snd kv)) items [].

(** [pd.DataFrame(columns=names)]. *)
Definition empty_table (names : list string) : Table :=
  map (fun n => (n, [])) names.

Definition column_names (t : Table) : list string := map fst t.

Fixpoint table_get (t : Table) (k : string) : option (list value) :=
  match t with
  | [] => None
  | (k', v) :: t' => if String.eqb k' k then Some v else table_get t' k
  end.

(** The number of records of a table. *)
Definition height (t : Table) : nat :=
  match t with
  | [] => 0
  | (_, v) :: _ => List.length v
  end.

(** ** Diagnostics

    The warnings the notebooks issue themselves, with [warnings.warn]. What
    a library warns of on its own (pandas, of repeated column labels in
    [to_dict]) is not among them. *)

Inductive warning : Type :=
| NoIDFound (block : nat)
    (* Block #n: No ID found. This will skip the data for this station. *)
| WrongShape (block : nat)
    (* Block #n: did not yield the correct shape. Please check the file. Skipping.
       (blocks 1 and 2; block 3 has the same text without the colon) *)
| FaultyRows (nr : string) (positions : list nat)
    (* nr;FormatError;Faulty rows in nr;[positions] *)
| FailedAltogether (nr : string) (e : exn)
    (* nr;ParserError;Nr: nr failed alltogether;e *)
| ThreeColumns (nr : string).
    (* nr;FormatError;Nr: nr raw file has only 3 columns;Assuming ... *)

(** A [for] loop over a list, in the [result] monad. *)
Fixpoint for_each {S A : Type} (body : S -> A -> result S) (l : list A) (st : S) : result S :=
  match l with
  | [] => Ok st
  | x :: l' => st' ← body st x; for_each body l' st'
  end.

(** [enumerate(l)]. *)
Definition enumerate {A : Type} (l : list A) : list (nat * A) :=
  combine (seq 0 (List.length l)) l.

(** One cell of [astype(float)]; [py_float] is [float] on a text, [None]
    being its [ValueError]. *)
Definition astype_float (py_float : string -> option float) (c : cell) : result float :=
  match c with
  | Number x => Ok x
  | Text s => match py_float s with Some x => Ok x | None => Raise ValueError end
  | DateTime _ => Raise TypeError
  end.

(** An identifier as the callers pass it, [Union[int, str]]. *)
Inductive pyid : Type :=
| IntId (n : Z)
| StrId (s : string).

(** [str(nr)]. *)
Definition str_of_id (nr : pyid) : string :=
  match nr with
  | IntId n => pretty n
  | StrId s => s
  end.

(** ** Brandenburg: [parse_dirty_dataframe] *)

Module DE4.

(** [zip([0] + null_idx, null_idx + [len(df)])]. *)
Definition block_bounds (df : DataFrame nat) : list (nat * nat) :=
  combine (0 :: null_rows df) (null_rows df ++ [len df]).

(** The blocks the loop visits, in order. *)
Definition blocks (df : DataFrame nat) : list (DataFrame nat) :=
  map (fun b => iloc_rows (fst b) (snd b) df) (block_bounds df).

Record locals : Type := mkLocals {
  ID : option string;
  base : dict;
  loc : dict;
  co : dict;
  dat : option Table;
  warns : list warning
}.

Definition init : locals := mkLocals None [] [] [] None [].

Definition set_ID (st : locals) (s : string) : locals :=
  mkLocals (Some s) (base st) (loc st) (co st) (dat st) (warns st).

Definition set_base (st : locals) (d : dict) : locals :=
  mkLocals (ID st) d (loc st) (co st) (dat st) (warns st).

Definition set_loc (st : locals) (d : dict) : locals :=
  mkLocals (ID st) (base st) d (co st) (dat st) (warns st).

Definition set_co (st : locals) (d : dict) : locals :=
  mkLocals (ID st) (base st) (loc st) d (dat st) (warns st).

Definition set_dat (st : locals) (t : Table) : locals :=
  mkLocals (ID st) (base st) (loc st) (co st) (Some t) (warns st).

Definition warn (st : locals) (w : warning) : locals :=
  mkLocals (ID st) (base st) (loc st) (co st) (dat st) (warns st ++ [w])%list.

Section Parser.

(** [float(s)] on a text; [None] is its [ValueError]. *)
Variable py_float : string -> option float.

(** [str(c)]. *)
Variable py_str : cell -> string.

(** [dateparser.parse(s)]; [None] is its own [None]. *)
Variable dateparse : string -> option datetime.

(** [d.date() if isinstance(d, dt) else parse(d)]; [parse] accepts a [str]
    only. *)
Definition date_of (c : cell) : result value :=
  match c with
  | DateTime d => Ok (VDate (dt_date d))
  | Text s => Ok (match dateparse s with Some d => VDateTime d | None => VNone end)
  | Number _ => Raise TypeError
  end.

(** [fl.strip().lower() == 'geprüft']; only a [str] has [strip]. *)
Definition flag_of (c : cell) : result value :=
  match c with
  | Text s => Ok (VBool (String.eqb (lower (strip s)) geprueft))
  | _ => Raise AttributeError
  end.

(** The data block, [i == 3]. *)
Definition data_block (variable : string) (block : DataFrame nat) : result Table :=
  let block := dropna_cols (dropna_rows block) in
  header ← iloc_row0 block;
  let block := set_columns header block in
  block ← drop_first block;
  c0 ← iloc_col 0 block;
  dates ← mapM date_of c0;
  c1 ← iloc_col 1 block;
  vals ← mapM (astype_float py_float) c1;
  c3 ← iloc_col 3 block;
  flags ← mapM flag_of c3;
  Ok (table_of_dict [("date", dates); (lower variable, VFloat <$> vals); ("flag", flags)]).

(** The base data and the location, [i == 0 or i == 1]:
    [block.iloc[:, :2].dropna(axis=1, how='all').dropna(axis=0, how='all')]
    and then [block.set_index(0).T.to_dict(orient='records')]. *)
Definition keyvalue_records (block : DataFrame nat) : result (list dict) :=
  let block := dropna_rows (dropna_cols (iloc_cols_upto 2 block)) in
  t ← set_index0_T block;
  Ok (to_dict_records t).

(** The coordinates, [i == 2]. *)
Definition coordinates_records (block : DataFrame nat) : result (list dict) :=
  let block := dropna_rows (dropna_cols block) in
  block ← iloc_set00 (Text "CRS") block;
  header ← iloc_row0 block;
  let block := set_columns header block in
  block ← drop_first block;
  Ok (to_dict_records block).

(** The [if i == 0 or i == 1: ... elif i == 2: ...] of the loop body. *)
Definition metadata_branch (i : nat) (block : DataFrame nat) (st : locals) : result locals :=
  if (i =? 0) || (i =? 1) then
    recs ← keyvalue_records block;
    match recs with
    | d :: _ =>
        if i =? 0 then
          let st := match dict_get d (Text "ID") with
                    | Some v => set_ID st (py_str v)
                    | None => warn st (NoIDFound (i + 1))
                    end in
          Ok (set_base st d)
        else Ok (set_loc st d)
    | [] => Ok (warn st (WrongShape (i + 1)))
    end
  else if i =? 2 then
    recs ← coordinates_records block;
    match recs with
    | d :: _ => Ok (set_co st d)
    | [] => Ok (warn st (WrongShape (i + 1)))
    end
  else Ok st.

(** One turn of the loop on block [i], the rows [lo .. up-1]. *)
Definition loop_body (df : DataFrame nat) (variable : string) (skip_data : bool)
    (st : locals) (it : nat * (nat * nat)) : result locals :=
  let i := fst it in
  let block := iloc_rows (fst (snd it)) (snd (snd it)) df in
  if (i =? 3) && negb skip_data then
    match ID st with
    | None => Ok st
    | Some _ =>
        t ← data_block variable block;
        metadata_branch i block (set_dat st t)
    end
  else metadata_branch i block st.

Definition parse_dirty_dataframe (df : DataFrame nat) (variable : string) (skip_data : bool)
    : result (option dict * option Table * list warning) :=
  st ← for_each (loop_body df variable skip_data) (enumerate (block_bounds df)) init;
  let meta := dict_update (dict_update (dict_update [] (base st)) (loc st)) (co st) in
  let meta := if List.length meta =? 0 then None else Some meta in
  Ok (meta, dat st, warns st).

End Parser.

End DE4.

(** ** Bayern: [get_file_from_zip] and [extract_file] *)

Module DE2.

(** A zip archive: its members in order, each a file name and a content. *)
Definition ZipFile : Type := list (string * string).

(** [[f.filename for f in z.filelist]]. *)
Definition filenames (z : ZipFile) : list string := map fst z.

(** [z.open(fname)]: a name that occurs twice opens its last member. *)
Fixpoint zip_open (z : ZipFile) (fname : string) : option string :=
  match z with
  | [] => None
  | (n, c) :: z' =>
      match zip_open z' fname with
      | Some c' => Some c'
      | None => if String.eqb n fname then Some c else None
      end
  end.

(** [os.path.basename(p)]. *)
Definition basename (p : string) : string := List.last (split "/" p) "".

(** [os.path.basename(f.filename).split('.')[0]]. *)
Definition id_only (filename : string) : string :=
  hd "" (split "." (basename filename)).

Definition get_filename_mapping (z : ZipFile) : gmap string string :=
  fold_left (fun m f => <[id_only f := f]> m) (filenames z) ∅.

(** [m.values()]. *)
Definition dict_values (m : gmap string string) : list string :=
  snd <$> map_to_list m.

(** The default of the parameter [not_exists]. *)
Definition not_exists_default : string := "raise".

(** [not_exists] is [None] when the caller leaves the argument out. *)
Definition get_file_from_zip (nr : pyid) (z : ZipFile) (not_exists : option string)
    : result (option string) :=
  let not_exists := default not_exists_default not_exists in
  let fmap := get_filename_mapping z in
  let fname := str_of_id nr in
  let fname :=
    if bool_decide (fname ∈ dict_values fmap) then fname
    else match fmap !! fname with
         | Some f => f
         | None => fname
         end in
  if bool_decide (fname ∈ filenames z) then
    match zip_open z fname with
    | Some content => Ok (Some content)
    | None => Raise KeyError
    end
  else if String.eqb not_exists "raise" then Raise FileNotFoundError
  else Ok None.

(** The labels of a frame that [read_csv] returns with [header=None], and
    the names the notebook gives. *)
Inductive label : Type :=
| Pos (n : nat)
| Name (s : string).

(** The two ways the notebook calls [read_csv]. *)
Inductive csv_call : Type :=
| Strict    (* encoding='latin1', skiprows=8, sep=' ', decimal=',', header=None *)
| Buffered. (* sep=' ', decimal=',', header=None, on the in-memory buffer *)

Section Extract.

Variable py_float : string -> option float.

Variable py_str : cell -> string.

(** [dt.strptime(s, '%Y%m%d')]; [None] is its [ValueError]. *)
Variable strptime : string -> option datetime.

(** [pd.read_csv] on a text. *)
Variable read_csv : csv_call -> string -> result (DataFrame nat).

(** [float(row.split(' ')[1]) < 0]. *)
Definition faulty (row : string) : result bool :=
  match nth_error (split " " row) 1 with
  | None => Raise IndexError
  | Some field =>
      match py_float field with
      | None => Raise ValueError
      | Some x => Ok (PrimFloat.ltb x 0)
      end
  end.

(** [[row for row, faulty in zip(rows, faulty_rows) if not faulty]]. *)
Definition keep_rows (rows : list string) (faulty_rows : list bool) : list string :=
  map fst (List.filter (fun rf => negb (snd rf)) (combine rows faulty_rows)).

(** [[i + 8 for i, fault in enumerate(faulty_rows) if fault]]. *)
Definition faulty_positions (faulty_rows : list bool) : list nat :=
  map (fun ib => fst ib + 8) (List.filter (fun ib => snd ib) (enumerate faulty_rows)).

Definition relabel {L L' : Type} (f : L -> L') (df : DataFrame L) : DataFrame L' :=
  mkFrame (map f (columns df)) (rows df).

(** The [try ... except ParserError ...] of [extract_file]: the frame and
    the warnings of the fallback. *)
Definition read_raw (nr : pyid) (content : string)
    : result (DataFrame label * list warning) :=
  match read_csv Strict content with
  | Ok raw => Ok (relabel Pos raw, [])
  | Raise ParserError =>
      let raw := splitlines content in
      faulty_rows ← mapM faulty (skipn 8 raw);
      let raw := keep_rows (skipn 8 raw) faulty_rows in
      let buffer := join (String "010"%char "") raw in
      match read_csv Buffered buffer with
      | Ok raw =>
          Ok (relabel Pos raw, [FaultyRows (str_of_id nr) (faulty_positions faulty_rows)])
      | Raise e =>
          Ok (mkFrame [Name "x1"; Name "x2"; Name "x3"; Name "x4"] [],
              [FailedAltogether (str_of_id nr) e])
      end
  | Raise e => Raise e
  end.

(** [raw.columns = names]. *)
Definition rename_columns {L : Type} (names : list string) (df : DataFrame L)
    : result (DataFrame label) :=
  if List.length names =? List.length (columns df)
  then Ok (mkFrame (map Name names) (rows df))
  else Raise ValueError.

(** [dt.strptime(str(t)[:8], '%Y%m%d')]. *)
Definition timestamp_date (t : cell) : result value :=
  match strptime (prefix 8 (py_str t)) with
  | Some d => Ok (VDateTime d)
  | None => Raise ValueError
  end.

Definition extract_file (nr : pyid) (variable : string) (z : ZipFile)
    (not_exists : option string) : result (Table * list warning) :=
  enc_content ← get_file_from_zip nr z not_exists;
  match enc_content with
  | None => Ok (empty_table ["date"; lower variable; "flag"], [])
  | Some content =>
      rw ← read_raw nr content;
      let raw := fst rw in
      let warns := snd rw in
      rw ← (if List.length (columns raw) =? 3 then
              raw ← rename_columns ["timestamp"; "value"; "status"] raw;
              Ok (raw, (warns ++ [ThreeColumns (str_of_id nr)])%list)
            else
              raw ← rename_columns ["timestamp"; "value"; "status"; "releaselevel"] raw;
              Ok (raw, warns));
      let raw := fst rw in
      let warns := snd rw in
      dates ← mapM timestamp_date (column_at 0 raw);
      Ok (table_of_dict [("date", dates);
                         (lower variable, VCell <$> column_at 1 raw);
                         ("flag", (fun _ => VNone) <$> column_at 2 raw)],
          warns)
  end.

End Extract.

End DE2.

(** ** Schleswig-Holstein: [extract_file] *)

Module DEF.

(** [os.path.join(a, b)]. *)
Definition path_join2 (a b : string) : string :=
  if startswith "/" b then b
  else if String.eqb a "" || endswith "/" a then a +:+ b
  else a +:+ "/" +:+ b.

(** [os.path.join(a, *p)]. *)
Definition path_join (a : string) (p : list string) : string :=
  fold_left path_join2 p a.

Section Extract.

Variable py_float : string -> option float.

(** [os.path.exists(path)]. *)
Variable path_exists : string -> bool.

(** [pd.read_csv(path, encoding="latin1", sep=";", decimal=",",
    parse_dates=[0], dayfirst=True)]. *)
Variable read_csv : string -> result (DataFrame string).

(** [df.columns = names]. *)
Definition rename_columns (names : list string) (df : DataFrame string)
    : result (DataFrame string) :=
  if List.length names =? List.length (columns df)
  then Ok (mkFrame names (rows df))
  else Raise ValueError.

(** [f.lower() == 'qualitätsgesichert']; only a [str] has [lower]. *)
Definition flag_of (f : cell) : result value :=
  match f with
  | Text s => Ok (VBool (String.eqb (lower s) qualitaetsgesichert))
  | _ => Raise AttributeError
  end.

Definition extract_file (nr : pyid) (base_path : string) : result Table :=
  let nr := str_of_id nr in
  let nr := if contains_char "." nr then remove_char "." nr else nr in
  let path := path_join base_path ["Q"; nr +:+ ".csv"] in
  if negb (path_exists path) then Ok (empty_table ["date"; "q"; "flag"])
  else
    df ← read_csv path;
    df ← rename_columns ["date"; "q"; "flag"] df;
    q ← mapM (astype_float py_float) (column_at 1 df);
    if forallb PrimFloat.is_nan q then Ok (empty_table ["date"; "q"; "flag"])
    else
      flag ← mapM flag_of (column_at 2 df);
      Ok [("date", VCell <$> column_at 0 df); ("q", VFloat <$> q); ("flag", flag)].

End Extract.

End DEF.

(** ** Brandenburg: the cells that collect and save the stations *)

Module DE4_cells.

(** A workbook as [xls.parse(sheet_name, header=None, usecols=[0,1,2,3])]
    reads its sheets, in the order of [xls.sheet_names]. *)
Definition workbook : Type := list (DataFrame nat).

(** The lists [metadata] and [data] of the notebook. *)
Record collected : Type := mkCollected {
  metadata : list dict;
  data : list (option Table)
}.

Section Cells.

Variable py_float : string -> option float.

Variable py_str : cell -> string.

Variable dateparse : string -> option datetime.

(** The body of the loop over the sheets of one workbook. *)
Definition collect_sheet (variable : string) (st : collected) (df : DataFrame nat)
    : result collected :=
  r ← DE4.parse_dirty_dataframe py_float py_str dateparse df variable false;
  match fst (fst r) with
  | Some meta => Ok (mkCollected (metadata st ++ [meta]) (data st ++ [snd (fst r)]))
  | None => Ok st
  end.

(** [for variable, xls in zip(('q', 'q', 'w', 'w'), (q1, q2, w1, w2)): ...]. *)
Definition collect (q1 q2 w1 w2 : workbook) : result collected :=
  for_each (fun st vx => for_each (collect_sheet (fst vx)) (snd vx) st)
           (combine ["q"; "q"; "w"; "w"] [q1; q2; w1; w2])
           (mkCollected [] []).

End Cells.

(** [all(['Messstellennummer' in m for m in metadata])]. *)
Definition all_have_id (metadata : list dict) : bool :=
  forallb (fun m => match dict_get m (Text "Messstellennummer") with
                    | Some _ => true
                    | None => false
                    end) metadata.

(** The loop that saves the stations; [bl.save_timeseries] is the context's,
    and the loop is modelled by the calls it makes, in order. *)
Definition save_station (saved : list (option Table * cell)) (sd : dict * option Table)
    : result (list (option Table * cell)) :=
  match dict_get (fst sd) (Text "Messstellennummer") with
  | Some provider_id => Ok (saved ++ [(snd sd, provider_id)])
  | None => Raise KeyError
  end.

Definition save_all (metadata : list dict) (data : list (option Table))
    : result (list (option Table * cell)) :=
  for_each save_station (combine metadata data) [].

End DE4_cells.

(** ** Bayern: [read_meta] and the cell that saves the stations *)

Module DE2_cells.

(** The literals ['Abflüsse.zip'] and ['Wasserstände.zip']. *)
Definition abfluesse_zip : string := "Abfl" +:+ String u_uml "sse.zip".

Definition wasserstaende_zip : string := "Wasserst" +:+ String a_uml "nde.zip".

(** The lists [extras[0]] and [extras[1]], each a pair of lists. *)
Definition extras : Type :=
  (list (option string) * list (option string))
  * (list (option string) * list (option string)).

(** [extras[i][0].append(a); extras[i][1].append(b)]; [i] is 0 or 1. *)
Definition append_at (i : nat) (ex : extras) (a b : option string) : extras :=
  match i with
  | 0 => ((fst (fst ex) ++ [a], snd (fst ex) ++ [b]), snd ex)
  | _ => (fst ex, (fst (snd ex) ++ [a], snd (snd ex) ++ [b]))
  end.

(** [l[i]] on a list. *)
Definition index {A : Type} (l : list A) (i : nat) : result A :=
  match nth_error l i with
  | Some x => Ok x
  | None => Raise IndexError
  end.

(** The [tup] of one file, as the two appends read it: [(None, None)]
    without a file, the lines 5 and 6 of the file otherwise. *)
Definition header_lines (f : option string) : result (option string * option string) :=
  match f with
  | None => Ok (None, None)
  | Some content =>
      let tup := firstn 2 (skipn 5 (splitlines content)) in
      a ← index tup 0;
      b ← index tup 1;
      Ok (Some a, Some b)
  end.

Section Meta.

(** The frame of [pd.read_excel], with [read_excel] itself and the
    assignment [meta[name] = values]. *)
Variable Frame : Type.

Variable read_excel : string -> result Frame.

Variable set_column : Frame -> string -> list (option string) -> result Frame.

(** [zipfile.ZipFile(zippath)]. *)
Variable zip_at : string -> result DE2.ZipFile.

(** [metadata.Stationsnummer], of the frame the notebook has read before. *)
Variable Stationsnummer : list pyid.

(** [get_file_from_zip] on the path of an archive. *)
Definition get_file_from_zip (nr : pyid) (zippath : string) (not_exists : option string)
    : result (option string) :=
  z ← zip_at zippath;
  DE2.get_file_from_zip nr z not_exists.

(** The body of the loop over the stations. *)
Definition scan_station (base_path : string) (ex : extras) (nr : pyid) : result extras :=
  for_each (fun ex iz =>
              f ← get_file_from_zip nr (DEF.path_join2 base_path abfluesse_zip)
                                    (Some "return_none");
              tup ← header_lines f;
              Ok (append_at (fst iz) ex (fst tup) (snd tup)))
           (enumerate [abfluesse_zip; wasserstaende_zip]) ex.

Definition read_meta (base_path : string) (scan_files : bool) : result Frame :=
  let path := DEF.path_join2 base_path "Stammdaten_Bayern.xlsx" in
  meta ← read_excel path;
  if negb scan_files then Ok meta
  else
    ex ← for_each (scan_station base_path) Stationsnummer (([], []), ([], []));
    meta ← set_column meta "timezone_q" (fst (fst ex));
    meta ← set_column meta "unit_q" (snd (fst ex));
    meta ← set_column meta "timezone_w" (fst (snd ex));
    set_column meta "unit_w" (snd (snd ex)).

End Meta.

Section Run.

Variable py_float : string -> option float.

Variable py_str : cell -> string.

Variable strptime : string -> option datetime.

Variable read_csv : DE2.csv_call -> string -> result (DataFrame nat).

Variable zip_at : string -> result DE2.ZipFile.

(** [extract_file] on the path of an archive; the table it returns. *)
Definition extract_file (nr : pyid) (variable : string) (zippath : string)
    (not_exists : option string) : result Table :=
  z ← zip_at zippath;
  tw ← DE2.extract_file py_float py_str strptime read_csv nr variable z not_exists;
  Ok (fst tw).

(** The two calls in the [try] of the loop. *)
Definition extract_station (input_path : string) (provider_id : pyid)
    : result (Table * Table) :=
  q_df ← extract_file provider_id "q" (DEF.path_join2 input_path abfluesse_zip)
                      (Some "fill_nan");
  w_df ← extract_file provider_id "w" (DEF.path_join2 input_path wasserstaende_zip)
                      (Some "fill_nan");
  Ok (q_df, w_df).

(** The loop over [nuts_map.provider_id]: the calls of [bl.save_timeseries]
    it makes, in order, and the id it prints when it breaks. The warnings
    are left out. *)
Fixpoint save_stations (input_path : string) (provider_ids : list pyid)
    (saved : list (Table * pyid)) : list (Table * pyid) * option pyid :=
  match provider_ids with
  | [] => (saved, None)
  | provider_id :: rest =>
      match extract_station input_path provider_id with
      | Ok (q_df, w_df) =>
          save_stations input_path rest
                        (saved ++ [(q_df, provider_id); (w_df, provider_id)])
      | Raise _ => (saved, Some provider_id)
      end
  end.

End Run.

End DE2_cells.

(** ** Schleswig-Holstein: the cell that saves the stations *)

Module DEF_cells.

Section Run.

Variable py_float : string -> option float.

Variable path_exists : string -> bool.

Variable read_csv : string -> result (DataFrame string).

(** The loop over [metadata[id_column].values]: the calls of
    [bl.save_timeseries] it makes, in order, and the exception that ends it,
    if one does. *)
Fixpoint save_stations (input_path : string) (ids : list pyid)
    (saved : list (Table * string)) : list (Table * string) * option exn :=
  match ids with
  | [] => (saved, None)
  | _id :: rest =>
      let provider_id := str_of_id _id in
      match DEF.extract_file py_float path_exists read_csv (StrId provider_id) input_path with
      | Ok q_df =>
          let w_df := empty_table ["date"; "w"; "flag"] in
          save_stations input_path rest (saved ++ [(q_df, provider_id); (w_df, provider_id)])
      | Raise e => (saved, Some e)
      end
  end.

End Run.

End DEF_cells.

(** ** Reference definitions

    What the statements below compare the code with. *)

(** A row all of whose cells are empty. *)
Definition empty_row (r : nat * list cell) : bool := forallb isnull (snd r).

(** A list cut in front of every element that satisfies [P]: the first piece
    is what precedes the first such element, every later piece begins with
    one. *)
Fixpoint cut_before {A : Type} (P : A -> bool) (l : list A) : list (list A) :=
  match l with
  | [] => [[]]
  | x :: l' =>
      match cut_before P l' with
      | seg :: segs => if P x then [] :: (x :: seg) :: segs else (x :: seg) :: segs
      | [] => [[x]]
      end
  end.

(** The row ranges [lo, up) of a list of rows. *)
Definition slices {A : Type} (all : list A) (bounds : list (nat * nat)) : list (list A) :=
  map (fun b => firstn (snd b - fst b) (skipn (fst b) all)) bounds.

(** The labels of the null rows of a frame whose index counts from [k]. *)
Definition null_labels (k : nat) (cs : list (list cell)) : list nat :=
  map fst (List.filter empty_row (combine (seq k (List.length cs)) cs)).

(** A block as the loop leaves it after the first one: its separator row
    first, and no other empty row. *)
Definition starts_at_separator (b : list (nat * list cell)) : bool :=
  match b with
  | r :: rs => empty_row r && forallb (fun r' => negb (empty_row r')) rs
  | [] => false
  end.

(** The sheet with the rows [a], an empty row, and [b]. *)
Definition two_runs : CellGrid := [[Text "a"]; []; [Text "b"]].

(** The class of a cell under [key_eqb]: the two zeros are one key. *)
Inductive key_class : Type :=
| KNumber (f : spec_float)
| KText (s : string)
| KDateTime (y m d t : Z).

Definition float_class (f : spec_float) : spec_float :=
  match f with
  | S754_zero _ => S754_zero false
  | _ => f
  end.

Definition key_of (c : cell) : key_class :=
  match c with
  | Number x => KNumber (float_class (Prim2SF x))
  | Text s => KText s
  | DateTime d => KDateTime (year (dt_date d)) (month (dt_date d)) (day (dt_date d)) (dt_seconds d)
  end.

(** A [dict] holds a key once. *)
Fixpoint unique_keys (d : dict) : Prop :=
  match d with
  | [] => True
  | (k, _) :: d' => dict_get d' k = None /\ unique_keys d'
  end.

(** One turn of a loop over [enumerate(l)], when [l] has an item [i]. *)
Definition visit {S A : Type} (body : S -> nat * A -> result S) (l : list A)
    (i : nat) (st : S) : result S :=
  match nth_error l i with
  | Some b => body st (i, b)
  | None => Ok st
  end.

(** The mapping that block [i] of a sheet yields: the first record of the
    key and value blocks [0] and [1] and of the coordinates block [2], and
    the empty mapping when the block is missing or yields no record. *)
Definition recovered (i : nat) (df : DataFrame nat) : dict :=
  match nth_error (DE4.blocks df) i with
  | Some b =>
      match (if i <? 2 then DE4.keyvalue_records b else DE4.coordinates_records b) with
      | Ok (d :: _) => d
      | _ => []
      end
  | None => []
  end.

(** The diagnostic of block [i] when it yields no record. *)
Definition shape_warning (i : nat) (df : DataFrame nat) : list warning :=
  match nth_error (DE4.blocks df) i with
  | Some b =>
      match (if i <? 2 then DE4.keyvalue_records b else DE4.coordinates_records b) with
      | Ok [] => [WrongShape (i + 1)]
      | _ => []
      end
  | None => []
  end.

(** The diagnostic of block [0] when its record has no key ['ID']. *)
Definition id_warning (df : DataFrame nat) : list warning :=
  match nth_error (DE4.blocks df) 0 with
  | Some b =>
      match DE4.keyvalue_records b with
      | Ok (d :: _) =>
          match dict_get d (Text "ID") with
          | None => [NoIDFound 1]
          | Some _ => []
          end
      | _ => []
      end
  | None => []
  end.

Definition diagnostics (df : DataFrame nat) : list warning :=
  shape_warning 0 df ++ id_warning df ++ shape_warning 1 df ++ shape_warning 2 df.

(** *** A station sheet for the examples

    Four blocks between empty rows: the base data with the key ['ID'], the
    location, the coordinates under their header, and a data block with the
    header [date, value, status, extra] and one row. *)

Definition new_year_2020 : datetime := mkDateTime (mkDate 2020 1 1) 0.

Definition station_sheet_with (header row : list cell) : CellGrid :=
  [ [Text "ID"; Number 4711];
    [Text "Name"; Text "Spree"];
    [];
    [Text "Ort"; Text "Cottbus"];
    [];
    [Text "System"; Text "Rechtswert"; Text "Hochwert"];
    [Text "ETRS89"; Number 453000; Number 5734000];
    [];
    header;
    row ].

Definition station_sheet (status extra : cell) : CellGrid :=
  station_sheet_with [Text "date"; Text "value"; Text "status"; Text "extra"]
                     [DateTime new_year_2020; Number 1.23; status; extra].

(** The station sheet with a location block that has keys and no values. *)
Definition location_without_values : CellGrid :=
  [ [Text "ID"; Number 4711];
    [];
    [Text "Ort"];
    [];
    [Text "System"; Text "Rechtswert"];
    [Text "ETRS89"; Number 453000] ].

Definition station_meta : dict :=
  [ (Text "ID", Number 4711); (Text "Name", Text "Spree");
    (Text "Ort", Text "Cottbus"); (Text "CRS", Text "ETRS89");
    (Text "Rechtswert", Number 453000); (Text "Hochwert", Number 5734000) ].

(** Stand-ins for [float], [str] and [dateparser.parse] in the closed
    examples: each has Python's value on the texts and cells the examples
    hold, which is all the examples evaluate. *)
Definition example_float (s : string) : option float :=
  if String.eqb s "5" then Some 5%float
  else if String.eqb s "-5" then Some (-5)%float
  else if String.eqb s "1.23" then Some 1.23%float
  else None.

Definition example_str (c : cell) : string :=
  match c with
  | Text s => s
  | Number x => if PrimFloat.eqb x 4711 then "4711" else "nan"
  | DateTime _ => "2020-01-01 00:00:00"
  end.

Definition example_dateparse (s : string) : option datetime :=
  if String.eqb s "2020-01-01" then Some new_year_2020 else None.

(** An archive for the examples: two stations under a folder. *)
Definition example_zip : DE2.ZipFile :=
  [("Abfluss/14106504.txt", "a"); ("Abfluss/16005701.txt", "b")].

(** A line of the data region whose value field [float] reads below zero. *)
Definition negative (py_float : string -> option float) (row : string) : bool :=
  match DE2.faulty py_float row with
  | Ok b => b
  | Raise _ => false
  end.

Definition is_faulty_rows (w : warning) : bool :=
  match w with
  | FaultyRows _ _ => true
  | _ => false
  end.

Definition newline : string := String "010"%char "".

(** A stand-in for [read_csv] in the closed examples. The first line tells
    the number of fields, a shorter line is filled with empty cells, and a
    line with more fields raises [ParserError], as the tokenizer of pandas
    does; the cells stay texts. *)
Definition example_read_csv (call : DE2.csv_call) (text : string) : result (DataFrame nat) :=
  let lines := match call with
               | DE2.Strict => skipn 8 (splitlines text)
               | DE2.Buffered => splitlines text
               end in
  let fields := map (split " ") lines in
  match fields with
  | [] => Raise (OtherError "EmptyDataError")
  | first :: _ =>
      let w := List.length first in
      if forallb (fun r => List.length r <=? w) fields
      then Ok (mkFrame (seq 0 w)
                 (combine (seq 0 (List.length fields))
                          (map (fun r => pad w (map Text r)) fields)))
      else Raise ParserError
  end.

Definition example_strptime (s : string) : option datetime :=
  if String.eqb s "20200101" then Some new_year_2020
  else if String.eqb s "20200102" then Some (mkDateTime (mkDate 2020 1 2) 0)
  else None.

Definition example_header : list string :=
  ["#1"; "#2"; "#3"; "#4"; "#5"; "#6"; "#7"; "#8"].

(** A file whose second data line has a negative value and one field more
    than the first. *)
Definition negative_level : string :=
  join newline (example_header ++ ["20200101000000 5 x r"; "20200102000000 -5 x r y"]).

(** A file whose second data line has one field more than the first, and no
    negative value. *)
Definition more_fields : string :=
  join newline (example_header ++ ["20200101000000 5 x r"; "20200102000000 5 x r y"]).

(** A file whose second data line has a negative value, and whose third
    has one field more than the first. *)
Definition negative_and_more_fields : string :=
  join newline (example_header
                  ++ ["20200101000000 5 x r"; "20200102000000 -5 x r";
                      "20200103000000 5 x r y"]).

(** A file with a decimal comma in a value, which [read_csv] reads with
    [decimal=','] and [float] rejects, and a second data line with one field
    more than the first. *)
Definition decimal_comma : string :=
  join newline (example_header ++ ["20200101000000 1,5 x r"; "20200102000000 -5 x r y"]).

(** The path [extract_file] of the Schleswig-Holstein notebook reads. *)
Definition station_path (nr : pyid) (base_path : string) : string :=
  let nr := str_of_id nr in
  let nr := if contains_char "." nr then remove_char "." nr else nr in
  DEF.path_join base_path ["Q"; nr +:+ ".csv"].

(** A file of comments: two rows without a value and without a flag. *)
Definition comments_only : DataFrame string :=
  mkFrame ["Datum"; "Abfluss"; "Status"]
    [(0, [DateTime new_year_2020; NaN; NaN]);
     (1, [DateTime (mkDateTime (mkDate 2020 1 2) 0); NaN; NaN])].

(** A file with one value and an empty flag cell. *)
Definition value_without_flag : DataFrame string :=
  mkFrame ["Datum"; "Abfluss"; "Status"]
    [(0, [DateTime new_year_2020; Number 1.23; NaN])].

(** *** The shapes under which every step of the parser succeeds *)

(** A frame as [read_sheet] gives it: columns [0 .. w-1], rows of [w] cells. *)
Definition regular (w : nat) (b : DataFrame nat) : Prop :=
  columns b = seq 0 w /\ Forall (fun r => List.length (snd r) = w) (rows b).

(** A block with a cell in column 0: its key column is left. *)
Definition keyed (b : DataFrame nat) : bool :=
  existsb (fun c => negb (isnull c)) (column_at 0 b).

(** A block with a cell. *)
Definition has_cell (b : DataFrame nat) : bool :=
  existsb (fun r => existsb (fun c => negb (isnull c)) (snd r)) (rows b).

(** A data block that keeps a header row and four columns, and under the
    header dates or texts in column 0, numbers or texts that [float] reads in
    column 1, and texts in column 3. *)
Definition data_shaped (py_float : string -> option float) (b : DataFrame nat) : bool :=
  let b := dropna_cols (dropna_rows b) in
  match rows b with
  | [] => false
  | r :: _ =>
      let data := mkFrame (snd r) (List.filter (fun r' => negb (fst r' =? fst r)) (rows b)) in
      (4 <=? List.length (snd r)) &&
      forallb (fun c => match c with Number _ => false | _ => true end) (column_at 0 data) &&
      forallb (fun c => match astype_float py_float c with Ok _ => true | Raise _ => false end)
              (column_at 1 data) &&
      forallb (fun c => match c with Text _ => true | _ => false end) (column_at 3 data)
  end.

(** [P] holds of block [i], if there is one. *)
Definition block_ok (P : DataFrame nat -> bool) (i : nat) (df : DataFrame nat) : bool :=
  match nth_error (DE4.blocks df) i with
  | Some b => P b
  | None => true
  end.

Definition has_id (df : DataFrame nat) : bool :=
  match dict_get (recovered 0 df) (Text "ID") with
  | Some _ => true
  | None => false
  end.

Definition well_shaped (py_float : string -> option float) (skip_data : bool)
    (df : DataFrame nat) : bool :=
  block_ok keyed 0 df && block_ok keyed 1 df && block_ok has_cell 2 df &&
  (skip_data || negb (has_id df) || block_ok (data_shaped py_float) 3 df).

(** The flag of a data row, from its cell in column 3. *)
Definition flag_value (c : cell) : value :=
  VBool match c with
        | Text s => String.eqb (lower (strip s)) geprueft
        | _ => false
        end.

(** *** Further reference definitions *)

(** The warnings [parse_dirty_dataframe] issues itself. *)
Definition is_block_warning (w : warning) : bool :=
  match w with
  | WrongShape _ | NoIDFound _ => true
  | _ => false
  end.

(** The value of the last pair whose key matches [k]. *)
Definition last_value (pairs : list (cell * cell)) (k : cell) : option cell :=
  fold_left (fun acc kv => if key_eqb (fst kv) k then Some (snd kv) else acc) pairs None.

(** A text of white space only. *)
Fixpoint blank (s : string) : bool :=
  match s with
  | EmptyString => true
  | String c s' => isspace c && blank s'
  end.


(** The station sheet followed by a fifth block. *)
Definition station_sheet_with_note : CellGrid :=
  station_sheet (Text geprueft) (Text "x") ++ [[]; [Text "see the remarks"]].

(** A frame with the label ['a'] on two columns. *)
Definition repeated_label : DataFrame cell :=
  mkFrame [Text "a"; Text "a"] [(0, [Number 1; Number 2])].

(** The kinds of value in the columns of a series. *)
Definition is_date_value (v : value) : bool :=
  match v with
  | VDate _ | VDateTime _ | VNone => true
  | _ => false
  end.

Definition is_float_value (v : value) : bool :=
  match v with
  | VFloat _ => true
  | _ => false
  end.

Definition is_bool_value (v : value) : bool :=
  match v with
  | VBool _ => true
  | _ => false
  end.

(** A table all of whose columns have [n] records. *)
Definition rectangular (n : nat) (t : Table) : Prop :=
  Forall (fun kv => List.length (snd kv) = n) t.

(** The data block of the station sheet. *)
Definition station_data_block : DataFrame nat :=
  iloc_rows 7 10 (read_sheet (station_sheet (Text geprueft) (Text "x"))).

(** The sheets of the four workbooks in the order the notebook reads them,
    each with its variable. *)
Definition tagged_sheets (q1 q2 w1 w2 : DE4_cells.workbook) : list (string * DataFrame nat) :=
  map (pair "q") q1 ++ map (pair "q") q2 ++ map (pair "w") w1 ++ map (pair "w") w2.

(** The station of a sheet: its metadata and its series, when the parser
    returns metadata. *)
Definition station_of (py_float : string -> option float) (py_str : cell -> string)
    (dateparse : string -> option datetime) (vdf : string * DataFrame nat)
    : option (dict * option Table) :=
  match DE4.parse_dirty_dataframe py_float py_str dateparse (snd vdf) (fst vdf) false with
  | Ok (Some meta, dat, _) => Some (meta, dat)
  | _ => None
  end.

(** A sheet with a key and no value. *)
Definition key_without_value : CellGrid := [[Text "ID"]].

(** A file with one data line of five fields. *)
Definition five_fields : string :=
  join newline (example_header ++ ["20200101000000 5 x r y"]).

(** A list of numbers that grows strictly. *)
Fixpoint increasing (l : list nat) : Prop :=
  match l with
  | [] => True
  | a :: t => match t with
              | [] => True
              | b :: _ => a < b
              end /\ increasing t
  end.

(** A file whose second data line has one field more than the first, and
    whose last line has no blank. *)
Definition line_without_blank : string :=
  join newline (example_header
                  ++ ["20200101000000 5 x r"; "20200102000000 5 x r y"; "EOF"]).

(** The time zone and the unit of a station, read from lines 5 and 6 of its
    file in the archive of the discharges. *)
Definition station_header (zip_at : string -> result DE2.ZipFile) (base_path : string)
    (nr : pyid) : result (option string * option string) :=
  f ← DE2_cells.get_file_from_zip zip_at nr
         (DEF.path_join2 base_path DE2_cells.abfluesse_zip) (Some "return_none");
  DE2_cells.header_lines f.

(** [read_meta] with one pass over the stations. *)
Definition read_meta_once {Frame : Type} (read_excel : string -> result Frame)
    (set_column : Frame -> string -> list (option string) -> result Frame)
    (zip_at : string -> result DE2.ZipFile) (Stationsnummer : list pyid)
    (base_path : string) : result Frame :=
  meta ← read_excel (DEF.path_join2 base_path "Stammdaten_Bayern.xlsx");
  tups ← mapM (station_header zip_at base_path) Stationsnummer;
  meta ← set_column meta "timezone_q" (map fst tups);
  meta ← set_column meta "unit_q" (map snd tups);
  meta ← set_column meta "timezone_w" (map fst tups);
  set_column meta "unit_w" (map snd tups).

(** Stand-ins for the closed examples: a frame as its added columns, and an
    archive with a file of two lines at every path. *)
Definition example_set_column (meta : list (string * list (option string)))
    (name : string) (values : list (option string))
    : result (list (string * list (option string))) :=
  Ok (meta ++ [(name, values)]).

Definition short_file_zip (path : string) : result DE2.ZipFile :=
  Ok [("Q/1.txt", join newline ["a"; "b"])].

Definition is_text (c : cell) : bool :=
  match c with
  | Text _ => true
  | _ => false
  end.

(** A file with one value and the flag of a checked value. *)
Definition checked_value : DataFrame string :=
  mkFrame ["Datum"; "Abfluss"; "Status"]
    [(0, [DateTime new_year_2020; Number 1.23; Text qualitaetsgesichert])].
(** * Properties *)

(** ** The block loop *)

Lemma blocks_rows (df : DataFrame nat) :
  map rows (DE4.blocks df) = slices (rows df) (DE4.block_bounds df).
Proof.
  unfold DE4.blocks, slices. rewrite map_map. reflexivity.
Qed.

Lemma cut_before_nonempty {A : Type} (P : A -> bool) (l : list A) :
  cut_before P l <> [].
Proof.
  destruct l as [|x l]; simpl; [discriminate|].
  destruct (cut_before P l); [discriminate|]. destruct (P x); discriminate.
Qed.

Lemma concat_cut_before {A : Type} (P : A -> bool) (l : list A) :
  concat (cut_before P l) = l.
Proof.
  induction l as [|x l IH]; simpl; [reflexivity|].
  destruct (cut_before P l) as [|seg segs] eqn:E.
  - now apply cut_before_nonempty in E.
  - simpl in IH. destruct (P x); simpl; now rewrite IH.
Qed.

Lemma length_cut_before {A : Type} (P : A -> bool) (l : list A) :
  List.length (cut_before P l) = S (List.length (List.filter P l)).
Proof.
  induction l as [|x l IH]; simpl; [reflexivity|].
  destruct (cut_before P l) as [|seg segs] eqn:E.
  - now apply cut_before_nonempty in E.
  - destruct (P x); simpl in *; lia.
Qed.

Lemma null_labels_cons (k : nat) (c : list cell) (cs : list (list cell)) :
  null_labels k (c :: cs)
  = if empty_row (k, c) then k :: null_labels (S k) cs else null_labels (S k) cs.
Proof.
  unfold null_labels. simpl. now destruct (empty_row (k, c)).
Qed.

Lemma slices_cons {A : Type} (all : list A) (lo up : nat) (bs : list (nat * nat)) :
  slices all ((lo, up) :: bs) = firstn (up - lo) (skipn lo all) :: slices all bs.
Proof. reflexivity. Qed.

Lemma slices_cut (cs : list (list cell)) :
  forall (k lo : nat) (pre : list (nat * list cell)),
    List.length pre = k -> lo <= k ->
    slices (pre ++ combine (seq k (List.length cs)) cs)
           (combine (lo :: null_labels k cs) (null_labels k cs ++ [k + List.length cs]))
    = match cut_before empty_row (combine (seq k (List.length cs)) cs) with
      | seg :: segs => (skipn lo pre ++ seg) :: segs
      | [] => []
      end.
Proof.
  induction cs as [|c cs IH]; intros k lo pre Hk Hlo.
  - simpl. unfold slices. simpl. rewrite !app_nil_r, Nat.add_0_r.
    rewrite firstn_all2; [reflexivity|]. rewrite length_skipn. lia.
  - rewrite null_labels_cons.
    change (combine (seq k (List.length (c :: cs))) (c :: cs))
      with ((k, c) :: combine (seq (S k) (List.length cs)) cs).
    change (cut_before empty_row ((k, c) :: combine (seq (S k) (List.length cs)) cs))
      with (match cut_before empty_row (combine (seq (S k) (List.length cs)) cs) with
            | seg :: segs =>
                if empty_row (k, c) then [] :: ((k, c) :: seg) :: segs
                else ((k, c) :: seg) :: segs
            | [] => [[(k, c)]]
            end).
    assert (Hpre : List.length (pre ++ [(k, c)]) = S k)
      by (rewrite length_app; simpl; lia).
    replace (k + List.length (c :: cs)) with (S k + List.length cs) by (simpl; lia).
    replace (pre ++ (k, c) :: combine (seq (S k) (List.length cs)) cs)
      with ((pre ++ [(k, c)]) ++ combine (seq (S k) (List.length cs)) cs)
      by (now rewrite <- app_assoc).
    destruct (cut_before empty_row (combine (seq (S k) (List.length cs)) cs))
      as [|seg segs] eqn:Ec; [now apply cut_before_nonempty in Ec|].
    destruct (empty_row (k, c)) eqn:E.
    + change (combine (lo :: k :: null_labels (S k) cs)
                      ((k :: null_labels (S k) cs) ++ [S k + List.length cs]))
        with ((lo, k) :: combine (k :: null_labels (S k) cs)
                                 (null_labels (S k) cs ++ [S k + List.length cs])).
      rewrite slices_cons, (IH (S k) k (pre ++ [(k, c)]) Hpre) by lia.
      rewrite Ec. f_equal.
      * rewrite app_nil_r, <- app_assoc, skipn_app.
        rewrite firstn_app, firstn_all2 by (rewrite length_skipn; lia).
        rewrite length_skipn.
        replace (k - lo - (List.length pre - lo)) with 0 by lia.
        now rewrite firstn_O, app_nil_r.
      * f_equal. rewrite skipn_app, skipn_all2 by lia.
        replace (k - List.length pre) with 0 by lia. reflexivity.
    + rewrite (IH (S k) lo (pre ++ [(k, c)]) Hpre) by lia.
      rewrite Ec. f_equal. rewrite skipn_app.
      replace (lo - List.length pre) with 0 by lia.
      now rewrite <- app_assoc.
Qed.

Lemma rows_read_sheet (g : CellGrid) :
  rows (read_sheet g)
  = combine (seq 0 (List.length (map (pad (width g)) g))) (map (pad (width g)) g).
Proof.
  unfold read_sheet. simpl. now rewrite length_map.
Qed.

Lemma blocks_cut (g : CellGrid) :
  map rows (DE4.blocks (read_sheet g)) = cut_before empty_row (rows (read_sheet g)).
Proof.
  rewrite blocks_rows. unfold DE4.block_bounds, null_rows, len.
  rewrite rows_read_sheet.
  set (cs := map (pad (width g)) g).
  rewrite length_combine, length_seq, Nat.min_id.
  etransitivity; [exact (slices_cut cs 0 0 [] eq_refl (le_n 0))|].
  destruct (cut_before _ _); reflexivity.
Qed.

Lemma cut_before_shape {A : Type} (P : A -> bool) (l : list A) :
  match cut_before P l with
  | seg :: segs =>
      forallb (fun x => negb (P x)) seg = true /\
      forallb (fun s => match s with
                        | x :: r => P x && forallb (fun y => negb (P y)) r
                        | [] => false
                        end) segs = true
  | [] => False
  end.
Proof.
  induction l as [|x l IH]; simpl; [auto|].
  destruct (cut_before P l) as [|seg segs]; [contradiction|].
  destruct IH as [H1 H2]. destruct (P x) eqn:E; simpl; rewrite ?E, ?H1, ?H2; auto.
Qed.

(** C1, as the code has it: for every frame with zero rows the block loop
    visits exactly one block, the row range [0, 0), which is the frame itself
    with its zero rows. *)
Theorem empty_grid_one_block (df : DataFrame nat) :
  len df = 0 ->
  DE4.block_bounds df = [(0, 0)] /\ DE4.blocks df = [df] /\
  List.length (DE4.blocks df) = 1.
Proof.
  destruct df as [cols rs]. unfold len. simpl. intros H.
  apply length_zero_iff_nil in H. subst rs. repeat split.
Qed.

Lemma empty_grid_one_block_witness :
  len (read_sheet []) = 0 /\
  (DE4.block_bounds (read_sheet []) = [(0, 0)] /\
   DE4.blocks (read_sheet []) = [read_sheet []] /\
   List.length (DE4.blocks (read_sheet [])) = 1).
Proof.
  split; [reflexivity|]. apply (empty_grid_one_block (read_sheet [])). reflexivity.
Defined.

(** C1 fails as stated: on the sheet with zero rows the block loop does not
    return an empty sequence, it visits one block. *)
Lemma empty_grid_blocks_not_empty :
  DE4.blocks (read_sheet []) = [mkFrame [] []] /\ DE4.blocks (read_sheet []) <> [].
Proof. split; [reflexivity|discriminate]. Qed.

(** C2, as the code has it: the blocks are the rows of the sheet cut in front
    of every empty row, in order. The first block is the run before the first
    empty row; every later block begins with its separator row and holds no
    other empty row. The rows of the blocks, put one after the other, are the
    rows of the sheet: nothing is to be put back, and there is one block more
    than there are empty rows. *)
Theorem blocks_cut_before_empty_rows (g : CellGrid) :
  map rows (DE4.blocks (read_sheet g)) = cut_before empty_row (rows (read_sheet g)) /\
  concat (map rows (DE4.blocks (read_sheet g))) = rows (read_sheet g) /\
  list_sum (map len (DE4.blocks (read_sheet g))) = List.length g /\
  List.length (DE4.blocks (read_sheet g)) = S (List.length (null_rows (read_sheet g))) /\
  match map rows (DE4.blocks (read_sheet g)) with
  | b :: bs =>
      forallb (fun r => negb (empty_row r)) b = true /\
      forallb starts_at_separator bs = true
  | [] => False
  end.
Proof.
  pose proof (blocks_cut g) as H.
  assert (Hc : concat (map rows (DE4.blocks (read_sheet g))) = rows (read_sheet g))
    by (rewrite H; apply concat_cut_before).
  split; [exact H|]. split; [exact Hc|]. split; [|split].
  - apply (f_equal (@List.length _)) in Hc.
    rewrite length_concat, map_map in Hc. unfold len. rewrite Hc.
    rewrite rows_read_sheet, length_combine, length_seq, Nat.min_id.
    apply length_map.
  - rewrite <- (length_map rows), H, length_cut_before.
    unfold null_rows. now rewrite length_map.
  - rewrite H. exact (cut_before_shape empty_row (rows (read_sheet g))).
Qed.

(** C2 fails as stated: on the sheet [a], empty row, [b] the second block
    holds the separator row (row 1), and the blocks already have the three
    rows of the sheet, so that putting the separator back gives four. *)
Lemma separator_rows_stay_in_blocks :
  map rows (DE4.blocks (read_sheet two_runs))
  = [[(0, [Text "a"])]; [(1, [NaN]); (2, [Text "b"])]] /\
  existsb (existsb empty_row) (map rows (DE4.blocks (read_sheet two_runs))) = true /\
  list_sum (map len (DE4.blocks (read_sheet two_runs)))
  + List.length (null_rows (read_sheet two_runs)) = 4 /\
  len (read_sheet two_runs) = 3.
Proof. repeat split. Qed.

(** ** Dictionaries *)

Lemma SFeqb_refl_nonnan (a : spec_float) : a <> S754_nan -> SFeqb a a = true.
Proof.
  unfold SFeqb. destruct a as [s|s| |s m e]; simpl; intros H; try reflexivity.
  - destruct s; reflexivity.
  - congruence.
  - fold (Pos.compare m m). rewrite Z.compare_refl, Pos.compare_refl. destruct s; reflexivity.
Qed.
Lemma SFeqb_true (a b : spec_float) :
  SFeqb a b = true <-> a <> S754_nan /\ b <> S754_nan /\ float_class a = float_class b.
Proof.
  unfold SFeqb.
  destruct a as [s|s| |s m e]; destruct b as [s'|s'| |s' m' e']; simpl.
  all: try (split; [discriminate | intros (H1 & H2 & H3); congruence]).
  all: try (split; [intros _; repeat split; discriminate | reflexivity]).
  - destruct s'; (split; [discriminate | intros (H1 & H2 & H3); congruence]).
  - destruct s'; (split; [discriminate | intros (H1 & H2 & H3); congruence]).
  - destruct s; (split; [discriminate | intros (H1 & H2 & H3); congruence]).
  - destruct s, s'; simpl; (split; [try discriminate; intros _; repeat split; discriminate | intros (H1 & H2 & H3); congruence]).
  - destruct s; (split; [discriminate | intros (H1 & H2 & H3); congruence]).
  - destruct s; (split; [discriminate | intros (H1 & H2 & H3); congruence]).
  - destruct s'; (split; [discriminate | intros (H1 & H2 & H3); congruence]).
  - fold (Pos.compare m m').
    destruct s, s'; simpl; try (split; [discriminate | intros (H1 & H2 & H3); congruence]).
    + destruct (Z.compare_spec e e') as [He|He|He];
        [destruct (Pos.compare_spec m m') as [Hm|Hm|Hm]|..]; simpl;
        (split; [try discriminate; intros _; repeat split; try discriminate; congruence
                | intros (H1 & H2 & H3); try reflexivity; injection H3 as -> ->; lia]).
    + destruct (Z.compare_spec e e') as [He|He|He];
        [destruct (Pos.compare_spec m m') as [Hm|Hm|Hm]|..]; simpl;
        (split; [try discriminate; intros _; repeat split; try discriminate; congruence
                | intros (H1 & H2 & H3); try reflexivity; injection H3 as -> ->; lia]).
Qed.
Lemma SFeqb_class (a b : spec_float) :
  SFeqb a b || negb (SFeqb a a) && negb (SFeqb b b) = true
  <-> float_class a = float_class b.
Proof.
  destruct (SFeqb a b) eqn:E; simpl.
  - apply SFeqb_true in E. tauto.
  - split.
    + intros H. apply andb_true_iff in H as [Ha Hb].
      assert (a = S754_nan).
      { destruct a; try reflexivity; rewrite SFeqb_refl_nonnan in Ha; discriminate. }
      assert (b = S754_nan).
      { destruct b; try reflexivity; rewrite SFeqb_refl_nonnan in Hb; discriminate. }
      subst. reflexivity.
    + intros H.
      assert (Hn : a = S754_nan \/ b = S754_nan).
      { destruct a; [right|right|left; reflexivity|right].
        all: destruct b; try reflexivity; exfalso.
        all: match type of E with SFeqb ?x ?y = false =>
               assert (SFeqb x y = true) by (apply SFeqb_true; repeat split; try discriminate; exact H) end;
             congruence. }
      assert (a = S754_nan /\ b = S754_nan) as [-> ->].
      { destruct Hn as [-> | ->]; split; try reflexivity.
        - destruct b; simpl in H; try discriminate; reflexivity.
        - destruct a; simpl in H; try discriminate; reflexivity. }
      reflexivity.
Qed.

Lemma key_eqb_class (a b : cell) : key_eqb a b = true <-> key_of a = key_of b.
Proof.
  destruct a as [x|s|d], b as [y|t|e]; simpl; try (split; discriminate).
  - unfold PrimFloat.is_nan. rewrite !FloatAxioms.eqb_spec, SFeqb_class.
    split; congruence.
  - rewrite String.eqb_eq. split; congruence.
  - unfold date_eqb. rewrite !andb_true_iff, !Z.eqb_eq.
    split; [intros [[[-> ->] ->] ->]; reflexivity|intros H; injection H; auto].
Qed.

Lemma key_eqb_sym (a b : cell) : key_eqb a b = key_eqb b a.
Proof.
  apply eq_true_iff_eq. rewrite !key_eqb_class. split; congruence.
Qed.

Lemma key_eqb_trans (a b c : cell) :
  key_eqb a b = true -> key_eqb b c = true -> key_eqb a c = true.
Proof. rewrite !key_eqb_class. congruence. Qed.

Lemma key_eqb_right (a b c : cell) :
  key_eqb a b = true -> key_eqb a c = key_eqb b c.
Proof.
  intros H. apply eq_true_iff_eq. rewrite key_eqb_class in H.
  rewrite !key_eqb_class, H. reflexivity.
Qed.

Lemma dict_get_set (d : dict) (k v k' : cell) :
  dict_get (dict_set d k v) k' = if key_eqb k k' then Some v else dict_get d k'.
Proof.
  induction d as [|[k1 v1] d IH]; simpl; [reflexivity|].
  destruct (key_eqb k1 k) eqn:E; simpl.
  - rewrite (key_eqb_right k1 k k' E). now destruct (key_eqb k k').
  - rewrite IH. destruct (key_eqb k1 k') eqn:E1; [|reflexivity].
    destruct (key_eqb k k') eqn:E2; [|reflexivity].
    rewrite key_eqb_sym in E2. rewrite (key_eqb_trans _ _ _ E1 E2) in E. discriminate.
Qed.

Lemma dict_get_key (d : dict) (k k' : cell) :
  key_eqb k k' = true -> dict_get d k = dict_get d k'.
Proof.
  intros H. induction d as [|[k1 v1] d IH]; simpl; [reflexivity|].
  rewrite IH. rewrite (key_eqb_sym k1 k), (key_eqb_sym k1 k'), (key_eqb_right _ _ _ H).
  reflexivity.
Qed.

Lemma unique_keys_set (d : dict) (k v : cell) :
  unique_keys d -> unique_keys (dict_set d k v).
Proof.
  induction d as [|[k1 v1] d IH]; simpl; [auto|]. intros [H1 H2].
  destruct (key_eqb k1 k) eqn:E; simpl; [auto|]. split; [|auto].
  rewrite dict_get_set, key_eqb_sym, E. exact H1.
Qed.

Lemma unique_keys_update (e d : dict) :
  unique_keys d -> unique_keys (dict_update d e).
Proof.
  unfold dict_update. revert d.
  induction e as [|[k v] e IH]; simpl; intros d H; [exact H|].
  apply IH, unique_keys_set, H.
Qed.

Lemma unique_keys_zip (keys vals : list cell) : unique_keys (dict_zip keys vals).
Proof. apply unique_keys_update. exact I. Qed.

(** [{**d, **e}] looks a key up in [e] first. *)
Lemma dict_get_update (e d : dict) (k : cell) :
  unique_keys e ->
  dict_get (dict_update d e) k
  = match dict_get e k with
    | Some v => Some v
    | None => dict_get d k
    end.
Proof.
  unfold dict_update. revert d.
  induction e as [|[k1 v1] e IH]; simpl; intros d H; [reflexivity|].
  destruct H as [H1 H2]. rewrite (IH _ H2), dict_get_set.
  destruct (key_eqb k1 k) eqn:E; [|reflexivity].
  now rewrite <- (dict_get_key e k1 k E), H1.
Qed.

Lemma dict_set_not_nil (d : dict) (k v : cell) : dict_set d k v <> [].
Proof.
  destruct d as [|[k1 v1] d]; simpl; [discriminate|].
  destruct (key_eqb k1 k); discriminate.
Qed.

Lemma dict_update_nil (e d : dict) : dict_update d e = [] <-> d = [] /\ e = [].
Proof.
  unfold dict_update. revert d.
  induction e as [|[k v] e IH]; simpl; intros d; [tauto|].
  rewrite IH. split; [intros [H _]; now apply dict_set_not_nil in H|intros [_ H]; discriminate].
Qed.

(** ** The loop of [parse_dirty_dataframe] *)

Lemma bind_Ok {A B : Type} (a : A) (f : A -> result B) : (Ok a ≫= f) = f a.
Proof. reflexivity. Qed.

Lemma bind_Raise {A B : Type} (e : exn) (f : A -> result B) : (Raise e ≫= f) = Raise e.
Proof. reflexivity. Qed.

Lemma bind_returns {A B : Type} (m : result A) (f : A -> result B) (b : B) :
  (m ≫= f) = Ok b -> exists a, m = Ok a /\ f a = Ok b.
Proof. destruct m as [a|e]; [eauto|discriminate]. Qed.

Section Brandenburg.

Variable py_float : string -> option float.
Variable py_str : cell -> string.
Variable dateparse : string -> option datetime.
Variable df : DataFrame nat.
Variable variable : string.
Variable skip_data : bool.

Abbreviation body := (DE4.loop_body py_float py_str dateparse df variable skip_data).

Lemma loop_rest (l : list (nat * nat)) :
  forall (k : nat) (st : DE4.locals),
    4 <= k -> for_each body (combine (seq k (List.length l)) l) st = Ok st.
Proof.
  induction l as [|b l IH]; intros k st Hk; [reflexivity|].
  cbn [List.length seq combine for_each].
  assert (E : body st (k, b) = Ok st).
  { unfold DE4.loop_body, DE4.metadata_branch. cbn [fst snd].
    destruct k as [|[|[|[|k]]]]; try lia. reflexivity. }
  rewrite E, bind_Ok. apply IH. lia.
Qed.

Lemma loop_unroll (l : list (nat * nat)) (st : DE4.locals) :
  for_each body (enumerate l) st
  = (s0 ← visit body l 0 st; s1 ← visit body l 1 s0; s2 ← visit body l 2 s1;
     visit body l 3 s2).
Proof.
  unfold enumerate, visit.
  destruct l as [|b0 [|b1 [|b2 [|b3 l]]]]; cbn [List.length seq combine for_each nth_error].
  - reflexivity.
  - destruct (body st (0, b0)); reflexivity.
  - destruct (body st (0, b0)) as [s0|]; [|reflexivity]. rewrite !bind_Ok.
    destruct (body s0 (1, b1)); reflexivity.
  - destruct (body st (0, b0)) as [s0|]; [|reflexivity]. rewrite !bind_Ok.
    destruct (body s0 (1, b1)) as [s1|]; [|reflexivity]. rewrite !bind_Ok.
    destruct (body s1 (2, b2)); reflexivity.
  - destruct (body st (0, b0)) as [s0|]; [|reflexivity]. rewrite !bind_Ok.
    destruct (body s0 (1, b1)) as [s1|]; [|reflexivity]. rewrite !bind_Ok.
    destruct (body s1 (2, b2)) as [s2|]; [|reflexivity]. rewrite !bind_Ok.
    destruct (body s2 (3, b3)) as [s3|]; [|reflexivity]. rewrite !bind_Ok.
    apply (loop_rest l 4 s3). lia.
Qed.

Abbreviation bounds := (DE4.block_bounds df).

Lemma recovered_unfold (i lo up : nat) :
  nth_error bounds i = Some (lo, up) ->
  recovered i df
  = match (if i <? 2 then DE4.keyvalue_records (iloc_rows lo up df)
           else DE4.coordinates_records (iloc_rows lo up df)) with
    | Ok (d :: _) => d
    | _ => []
    end.
Proof.
  intros H. unfold recovered, DE4.blocks. rewrite nth_error_map, H. reflexivity.
Qed.

Lemma recovered_missing (i : nat) : nth_error bounds i = None -> recovered i df = [].
Proof.
  intros H. unfold recovered, DE4.blocks. rewrite nth_error_map, H. reflexivity.
Qed.

Lemma shape_warning_unfold (i lo up : nat) :
  nth_error bounds i = Some (lo, up) ->
  shape_warning i df
  = match (if i <? 2 then DE4.keyvalue_records (iloc_rows lo up df)
           else DE4.coordinates_records (iloc_rows lo up df)) with
    | Ok [] => [WrongShape (i + 1)]
    | _ => []
    end.
Proof.
  intros H. unfold shape_warning, DE4.blocks. rewrite nth_error_map, H. reflexivity.
Qed.

Lemma shape_warning_missing (i : nat) :
  nth_error bounds i = None -> shape_warning i df = [].
Proof.
  intros H. unfold shape_warning, DE4.blocks. rewrite nth_error_map, H. reflexivity.
Qed.

Lemma visit0 (st' : DE4.locals) :
  visit body bounds 0 DE4.init = Ok st' ->
  DE4.base st' = recovered 0 df /\ DE4.loc st' = [] /\ DE4.co st' = [] /\
  DE4.dat st' = None /\
  DE4.ID st' = py_str <$> dict_get (recovered 0 df) (Text "ID") /\
  DE4.warns st' = shape_warning 0 df ++ id_warning df.
Proof.
  unfold visit. destruct (nth_error bounds 0) as [[lo up]|] eqn:E.
  - rewrite (recovered_unfold 0 lo up E), (shape_warning_unfold 0 lo up E).
    unfold id_warning, DE4.blocks. rewrite nth_error_map, E.
    unfold DE4.loop_body, DE4.metadata_branch.
    cbn [fst snd Nat.eqb Nat.ltb Nat.leb andb orb option_map].
    destruct (DE4.keyvalue_records (iloc_rows lo up df)) as [[|d recs]|e];
      rewrite ?bind_Ok, ?bind_Raise; intros H; [| |discriminate];
      injection H as <-; [repeat split|].
    destruct (dict_get d (Text "ID")); repeat split.
  - rewrite (recovered_missing 0 E), (shape_warning_missing 0 E).
    unfold id_warning, DE4.blocks. rewrite nth_error_map, E.
    intros H. injection H as <-. repeat split.
Qed.

Lemma visit1 (st st' : DE4.locals) :
  visit body bounds 1 st = Ok st' -> DE4.loc st = [] ->
  DE4.loc st' = recovered 1 df /\ DE4.base st' = DE4.base st /\
  DE4.co st' = DE4.co st /\ DE4.dat st' = DE4.dat st /\ DE4.ID st' = DE4.ID st /\
  DE4.warns st' = DE4.warns st ++ shape_warning 1 df.
Proof.
  unfold visit. destruct (nth_error bounds 1) as [[lo up]|] eqn:E.
  - rewrite (recovered_unfold 1 lo up E), (shape_warning_unfold 1 lo up E).
    unfold DE4.loop_body, DE4.metadata_branch.
    cbn [fst snd Nat.eqb Nat.ltb Nat.leb andb orb].
    destruct (DE4.keyvalue_records (iloc_rows lo up df)) as [[|d recs]|e];
      rewrite ?bind_Ok, ?bind_Raise; intros H Hl; [| |discriminate];
      injection H as <-; simpl; rewrite ?app_nil_r; repeat split; assumption.
  - rewrite (recovered_missing 1 E), (shape_warning_missing 1 E).
    intros H Hl. injection H as <-. rewrite app_nil_r. repeat split; assumption.
Qed.

Lemma visit2 (st st' : DE4.locals) :
  visit body bounds 2 st = Ok st' -> DE4.co st = [] ->
  DE4.co st' = recovered 2 df /\ DE4.base st' = DE4.base st /\
  DE4.loc st' = DE4.loc st /\ DE4.dat st' = DE4.dat st /\ DE4.ID st' = DE4.ID st /\
  DE4.warns st' = DE4.warns st ++ shape_warning 2 df.
Proof.
  unfold visit. destruct (nth_error bounds 2) as [[lo up]|] eqn:E.
  - rewrite (recovered_unfold 2 lo up E), (shape_warning_unfold 2 lo up E).
    unfold DE4.loop_body, DE4.metadata_branch.
    cbn [fst snd Nat.eqb Nat.ltb Nat.leb andb orb].
    destruct (DE4.coordinates_records (iloc_rows lo up df)) as [[|d recs]|e];
      rewrite ?bind_Ok, ?bind_Raise; intros H Hl; [| |discriminate];
      injection H as <-; simpl; rewrite ?app_nil_r; repeat split; assumption.
  - rewrite (recovered_missing 2 E), (shape_warning_missing 2 E).
    intros H Hl. injection H as <-. rewrite app_nil_r. repeat split; assumption.
Qed.

Lemma visit3 (st st' : DE4.locals) :
  visit body bounds 3 st = Ok st' -> DE4.dat st = None ->
  DE4.base st' = DE4.base st /\ DE4.loc st' = DE4.loc st /\
  DE4.co st' = DE4.co st /\ DE4.ID st' = DE4.ID st /\
  DE4.warns st' = DE4.warns st /\
  (is_Some (DE4.dat st') <->
   skip_data = false /\ is_Some (DE4.ID st) /\ 3 < List.length bounds).
Proof.
  unfold visit. destruct (nth_error bounds 3) as [[lo up]|] eqn:E.
  - assert (Hlen : 3 < List.length bounds)
      by (apply nth_error_Some; rewrite E; discriminate).
    unfold DE4.loop_body, DE4.metadata_branch.
    cbn [fst snd Nat.eqb Nat.ltb Nat.leb andb orb].
    destruct skip_data; cbn [negb].
    + intros H Hd. injection H as <-. rewrite Hd.
      do 5 (split; [reflexivity|]).
      split; [intros [x Hx]; discriminate|intros [Hx _]; discriminate].
    + destruct (DE4.ID st) as [i|] eqn:EI.
      * destruct (DE4.data_block py_float dateparse variable (iloc_rows lo up df)) as [t|e];
          rewrite ?bind_Ok, ?bind_Raise; intros H Hd; [|discriminate].
        injection H as <-. simpl. rewrite EI.
        do 5 (split; [reflexivity|]). split; eauto.
      * intros H Hd. injection H as <-. rewrite Hd, EI.
        do 5 (split; [reflexivity|]).
        split; [intros [x Hx]; discriminate|intros (_ & [x Hx] & _); discriminate].
  - assert (Hlen : List.length bounds <= 3) by (now apply nth_error_None).
    intros H Hd. injection H as <-. rewrite Hd.
    do 5 (split; [reflexivity|]).
    split; [intros [x Hx]; discriminate|intros (_ & _ & Hx); lia].
Qed.

(** What the loop leaves in its variables, whenever it ends. *)
Lemma final_state (st : DE4.locals) :
  for_each body (enumerate bounds) DE4.init = Ok st ->
  DE4.base st = recovered 0 df /\ DE4.loc st = recovered 1 df /\
  DE4.co st = recovered 2 df /\
  DE4.ID st = py_str <$> dict_get (recovered 0 df) (Text "ID") /\
  DE4.warns st = diagnostics df /\
  (is_Some (DE4.dat st) <->
   skip_data = false /\ is_Some (dict_get (recovered 0 df) (Text "ID")) /\
   3 < List.length (DE4.blocks df)).
Proof.
  rewrite loop_unroll. intros H.
  apply bind_returns in H as (s0 & H0 & H).
  apply bind_returns in H as (s1 & H1 & H).
  apply bind_returns in H as (s2 & H2 & H3).
  apply visit0 in H0 as (B0 & L0 & C0 & D0 & I0 & W0).
  apply visit1 in H1 as (L1 & B1 & C1 & D1 & I1 & W1); [|exact L0].
  apply visit2 in H2 as (C2 & B2 & L2 & D2 & I2 & W2); [|now rewrite C1].
  apply visit3 in H3 as (B3 & L3 & C3 & I3 & W3 & D3); [|now rewrite D2, D1].
  split; [congruence|]. split; [congruence|]. split; [congruence|].
  split; [congruence|]. split.
  - rewrite W3, W2, W1, W0. unfold diagnostics. now rewrite <- !app_assoc.
  - rewrite D3, I2, I1, I0, fmap_is_Some. unfold DE4.blocks. rewrite length_map.
    reflexivity.
Qed.

End Brandenburg.

(** ** The results of [parse_dirty_dataframe] *)

Lemma unique_keys_records (df : DataFrame cell) :
  Forall unique_keys (to_dict_records df).
Proof.
  unfold to_dict_records. apply Forall_map, Forall_forall. intros r _.
  apply unique_keys_zip.
Qed.

Lemma unique_keys_recovered (i : nat) (df : DataFrame nat) :
  unique_keys (recovered i df).
Proof.
  unfold recovered. destruct (nth_error (DE4.blocks df) i) as [b|]; [|exact I].
  destruct (i <? 2).
  - unfold DE4.keyvalue_records.
    destruct (set_index0_T _) as [t|]; simpl; [|exact I].
    pose proof (unique_keys_records t) as H.
    destruct (to_dict_records t); [exact I|]. now inversion H.
  - unfold DE4.coordinates_records.
    destruct (iloc_set00 _ _) as [b1|]; simpl; [|exact I].
    destruct (iloc_row0 b1) as [h|]; simpl; [|exact I].
    destruct (drop_first _) as [b2|]; simpl; [|exact I].
    pose proof (unique_keys_records b2) as H.
    destruct (to_dict_records b2); [exact I|]. now inversion H.
Qed.

(** C4: whenever [parse_dirty_dataframe] returns, its metadata is the merge
    of the mappings of the blocks 0 (base data), 1 (location) and 2
    (coordinates) in that order: a key is looked up in the coordinates first,
    then in the location, then in the base data, so that the later block wins.
    The metadata is [None] exactly when the three mappings are all empty. *)
Theorem metadata_is_merge
    (py_float : string -> option float) (py_str : cell -> string)
    (dateparse : string -> option datetime)
    (df : DataFrame nat) (variable : string) (skip_data : bool)
    (meta : option dict) (dat : option Table) (w : list warning) :
  DE4.parse_dirty_dataframe py_float py_str dateparse df variable skip_data
  = Ok (meta, dat, w) ->
  (forall k : cell,
      dict_get (dict_update (dict_update (dict_update [] (recovered 0 df)) (recovered 1 df))
                            (recovered 2 df)) k
      = match dict_get (recovered 2 df) k with
        | Some v => Some v
        | None =>
            match dict_get (recovered 1 df) k with
            | Some v => Some v
            | None => dict_get (recovered 0 df) k
            end
        end) /\
  (recovered 0 df = [] /\ recovered 1 df = [] /\ recovered 2 df = [] -> meta = None) /\
  (~ (recovered 0 df = [] /\ recovered 1 df = [] /\ recovered 2 df = []) ->
   meta = Some (dict_update (dict_update (dict_update [] (recovered 0 df)) (recovered 1 df))
                            (recovered 2 df))).
Proof.
  unfold DE4.parse_dirty_dataframe. intros H.
  apply bind_returns in H as (st & Hst & H).
  apply final_state in Hst as (B & L & C & _).
  rewrite B, L, C in H. injection H as <- _ _.
  split; [|split].
  - intros k. rewrite !dict_get_update by apply unique_keys_recovered.
    now destruct (dict_get (recovered 2 df) k), (dict_get (recovered 1 df) k),
      (dict_get (recovered 0 df) k).
  - intros (-> & -> & ->). reflexivity.
  - intros Hne.
    destruct (dict_update _ (recovered 2 df)) as [|kv m] eqn:E; [|reflexivity].
    exfalso. apply Hne.
    apply dict_update_nil in E as [E ->].
    apply dict_update_nil in E as [E ->].
    apply dict_update_nil in E as [_ ->]. auto.
Qed.

Lemma metadata_is_merge_witness :
  DE4.parse_dirty_dataframe example_float example_str example_dateparse
    (read_sheet (station_sheet (Text geprueft) (Text "x"))) "q" false
  = Ok (Some station_meta,
        Some [("date", [VDate (mkDate 2020 1 1)]); ("q", [VFloat 1.23]);
              ("flag", [VBool false])],
        []) /\
  Some station_meta
  = Some (dict_update
            (dict_update
               (dict_update [] (recovered 0 (read_sheet (station_sheet (Text geprueft) (Text "x")))))
               (recovered 1 (read_sheet (station_sheet (Text geprueft) (Text "x")))))
            (recovered 2 (read_sheet (station_sheet (Text geprueft) (Text "x"))))).
Proof.
  split; [reflexivity|].
  apply (metadata_is_merge example_float example_str example_dateparse
           (read_sheet (station_sheet (Text geprueft) (Text "x"))) "q" false
           (Some station_meta)
           (Some [("date", [VDate (mkDate 2020 1 1)]); ("q", [VFloat 1.23]);
                  ("flag", [VBool false])])
           []); [reflexivity|].
  intros (H & _). discriminate H.
Defined.

(** C5: whenever [parse_dirty_dataframe] returns, it returns a time series
    exactly when the data are asked for ([skip_data] is false), block 0 has
    yielded the key ['ID'], and there is a fourth block. Without the key, or
    without the data block, the series is [None]. *)
Theorem series_needs_identifier
    (py_float : string -> option float) (py_str : cell -> string)
    (dateparse : string -> option datetime)
    (df : DataFrame nat) (variable : string) (skip_data : bool)
    (meta : option dict) (dat : option Table) (w : list warning) :
  DE4.parse_dirty_dataframe py_float py_str dateparse df variable skip_data
  = Ok (meta, dat, w) ->
  (is_Some dat <->
   skip_data = false /\ is_Some (dict_get (recovered 0 df) (Text "ID")) /\
   3 < List.length (DE4.blocks df)) /\
  (dict_get (recovered 0 df) (Text "ID") = None -> dat = None) /\
  (List.length (DE4.blocks df) <= 3 -> dat = None) /\
  (skip_data = true -> dat = None).
Proof.
  unfold DE4.parse_dirty_dataframe. intros H.
  apply bind_returns in H as (st & Hst & H).
  apply final_state in Hst as (_ & _ & _ & _ & _ & D).
  injection H as _ <- _.
  split; [exact D|].
  split; [|split]; intros Hx; destruct (DE4.dat st) as [t|]; try reflexivity; exfalso;
    destruct D as [D _]; destruct (D (ex_intro _ t eq_refl)) as (Hs & [v Hv] & Hl).
  - congruence.
  - lia.
  - congruence.
Qed.

Lemma series_needs_identifier_witness :
  DE4.parse_dirty_dataframe example_float example_str example_dateparse
    (read_sheet (station_sheet (Text geprueft) (Text "x"))) "q" false
  = Ok (Some station_meta,
        Some [("date", [VDate (mkDate 2020 1 1)]); ("q", [VFloat 1.23]);
              ("flag", [VBool false])],
        []) /\
  3 < List.length (DE4.blocks (read_sheet (station_sheet (Text geprueft) (Text "x")))).
Proof.
  split; [reflexivity|].
  apply (series_needs_identifier example_float example_str example_dateparse
           (read_sheet (station_sheet (Text geprueft) (Text "x"))) "q" false
           (Some station_meta)
           (Some [("date", [VDate (mkDate 2020 1 1)]); ("q", [VFloat 1.23]);
                  ("flag", [VBool false])])
           []); [reflexivity|].
  eexists. reflexivity.
Defined.

Lemma mapM_flag_of (l : list cell) :
  forall flags : list value, mapM DE4.flag_of l = Ok flags -> flags = map flag_value l.
Proof.
  induction l as [|c l IH]; intros flags; simpl.
  - intros H. now injection H as <-.
  - destruct c as [x|s|d]; simpl; try discriminate. rewrite ?bind_Ok.
    destruct (mapM DE4.flag_of l) as [fs|e]; [|discriminate].
    rewrite ?bind_Ok. intros H. injection H as <-. now rewrite (IH fs eq_refl).
Qed.

Lemma table_get_set (t : Table) (k : string) (v : list value) :
  table_get (table_set t k v) k = Some v.
Proof.
  induction t as [|[k' v'] t IH]; simpl; [now rewrite String.eqb_refl|].
  destruct (k' =? k)%string eqn:E; simpl; now rewrite E.
Qed.

(** C3, as the code has it: the flags of a series are read from column 3 of
    the data block, the fourth column under the header row, each as the
    comparison of the cell with ['geprüft'] after [strip] and [lower]. So on
    the station sheet whose data block has the header [date, value, status,
    extra] and the one row 2020-01-01, 1.23, [status], [extra], the series has
    exactly one record, and its flag is that comparison for the cell [extra];
    the cell [status] of column 2 plays no part. *)
Theorem flag_from_column_3
    (py_float : string -> option float) (py_str : cell -> string)
    (dateparse : string -> option datetime) :
  (forall (variable : string) (b : DataFrame nat) (t : Table),
      DE4.data_block py_float dateparse variable b = Ok t ->
      exists (r : nat * list cell) (rs : list (nat * list cell)),
        rows (dropna_cols (dropna_rows b)) = r :: rs /\
        table_get t "flag"
        = Some (map flag_value
                  (column_at 3 (mkFrame (snd r)
                     (List.filter (fun r' => negb (fst r' =? fst r)) (r :: rs)))))) /\
  (forall status extra : string,
      DE4.parse_dirty_dataframe py_float py_str dateparse
        (read_sheet (station_sheet (Text status) (Text extra))) "q" false
      = Ok (Some station_meta,
            Some [("date", [VDate (mkDate 2020 1 1)]); ("q", [VFloat 1.23]);
                  ("flag", [VBool (String.eqb (lower (strip extra)) geprueft)])],
            [])).
Proof.
  split; [|reflexivity].
  intros variable b t. unfold DE4.data_block. cbv zeta.
  unfold iloc_row0, drop_first, set_columns. cbn [rows columns].
  destruct (rows (dropna_cols (dropna_rows b))) as [|r rs]; [discriminate|].
  rewrite !bind_Ok. cbn [rows columns]. intros H. exists r, rs. split; [reflexivity|].
  apply bind_returns in H as (c0 & _ & H).
  apply bind_returns in H as (dates & _ & H).
  apply bind_returns in H as (c1 & _ & H).
  apply bind_returns in H as (vals & _ & H).
  apply bind_returns in H as (c3 & H3 & H).
  apply bind_returns in H as (flags & Hf & H).
  injection H as <-. apply mapM_flag_of in Hf as ->.
  unfold iloc_col in H3. destruct (3 <? _); [|discriminate]. injection H3 as <-.
  unfold table_of_dict. cbn [fold_left fst snd]. apply table_get_set.
Qed.

(** C3 fails as stated: with [geprüft] in the status column and [x] in
    column 3 the one record has the flag [False]. *)
Lemma verified_status_flag_false :
  DE4.parse_dirty_dataframe example_float example_str example_dateparse
    (read_sheet (station_sheet (Text geprueft) (Text "x"))) "q" false
  = Ok (Some station_meta,
        Some [("date", [VDate (mkDate 2020 1 1)]); ("q", [VFloat 1.23]);
              ("flag", [VBool false])],
        []).
Proof. reflexivity. Qed.

(** ** Bayern: identifier resolution *)

Lemma mapping_values_in (all names : list string) :
  forall m : gmap string string,
    (forall k f, m !! k = Some f -> In f all) ->
    incl names all ->
    forall k f,
      fold_left (fun m f => <[DE2.id_only f := f]> m) names m !! k = Some f -> In f all.
Proof.
  induction names as [|n names IH]; intros m Hm Hin k f; simpl; [apply Hm|].
  apply IH.
  - intros k' f'. rewrite lookup_insert. case_decide.
    + intros [= <-]. apply Hin. now left.
    + apply Hm.
  - intros x Hx. apply Hin. now right.
Qed.

Lemma mapping_in_filenames (z : DE2.ZipFile) (k f : string) :
  DE2.get_filename_mapping z !! k = Some f -> In f (DE2.filenames z).
Proof.
  unfold DE2.get_filename_mapping.
  apply mapping_values_in; [intros k' f'; now rewrite lookup_empty|apply incl_refl].
Qed.

Lemma values_in_filenames (z : DE2.ZipFile) (f : string) :
  f ∈ DE2.dict_values (DE2.get_filename_mapping z) -> In f (DE2.filenames z).
Proof.
  unfold DE2.dict_values. intros H.
  apply list_elem_of_fmap in H as ([k f'] & -> & H).
  apply elem_of_map_to_list in H. now apply mapping_in_filenames in H.
Qed.

Lemma zip_open_member (z : DE2.ZipFile) (f : string) :
  In f (DE2.filenames z) -> is_Some (DE2.zip_open z f).
Proof.
  induction z as [|[n c] z IH]; simpl; [contradiction|].
  intros [->|H].
  - destruct (DE2.zip_open z f); [eauto|]. rewrite String.eqb_refl. eauto.
  - destruct (IH H) as [c' ->]. eauto.
Qed.

Lemma get_file_found (nr : pyid) (z : DE2.ZipFile) (p : option string) (f : string) :
  In f (DE2.filenames z) ->
  (if bool_decide (str_of_id nr ∈ DE2.dict_values (DE2.get_filename_mapping z))
   then str_of_id nr
   else match DE2.get_filename_mapping z !! str_of_id nr with
        | Some f' => f'
        | None => str_of_id nr
        end) = f ->
  exists content,
    DE2.zip_open z f = Some content /\ DE2.get_file_from_zip nr z p = Ok (Some content).
Proof.
  intros Hin Hf. destruct (zip_open_member z f Hin) as [c Hc].
  exists c. split; [exact Hc|].
  unfold DE2.get_file_from_zip. cbv zeta. rewrite Hf.
  rewrite bool_decide_eq_true_2 by (now apply list_elem_of_In).
  now rewrite Hc.
Qed.

(** The station 14106504 is found by its number, by the text of its number
    and by its file name; an unknown number raises unless another policy is
    given. *)
Example resolve_by_number :
  DE2.get_file_from_zip (IntId 14106504) example_zip None = Ok (Some "a") /\
  DE2.get_file_from_zip (StrId "14106504") example_zip None = Ok (Some "a") /\
  DE2.get_file_from_zip (StrId "Abfluss/14106504.txt") example_zip None = Ok (Some "a") /\
  DE2.get_file_from_zip (IntId 42) example_zip None = Raise FileNotFoundError /\
  DE2.get_file_from_zip (IntId 42) example_zip (Some "fill_nan") = Ok None.
Proof. vm_compute. repeat split. Qed.

(** ** Bayern: the fallback of [extract_file] *)

Lemma mapM_faulty (py_float : string -> option float) (l : list string) :
  forall flags : list bool,
    mapM (DE2.faulty py_float) l = Ok flags -> flags = map (negative py_float) l.
Proof.
  induction l as [|row l IH]; intros flags; simpl.
  - intros H. now injection H as <-.
  - unfold negative at 1. destruct (DE2.faulty py_float row) as [b|e]; [|discriminate].
    rewrite bind_Ok. destruct (mapM (DE2.faulty py_float) l) as [bs|e]; [|discriminate].
    rewrite bind_Ok. intros H. injection H as <-. now rewrite (IH bs eq_refl).
Qed.

Lemma keep_rows_filter (py_float : string -> option float) (l : list string) :
  DE2.keep_rows l (map (negative py_float) l)
  = List.filter (fun row => negb (negative py_float row)) l.
Proof.
  unfold DE2.keep_rows. induction l as [|row l IH]; simpl; [reflexivity|].
  destruct (negative py_float row); simpl; now rewrite IH.
Qed.

Lemma in_combine_seq {A : Type} (l : list A) :
  forall (k i : nat) (x : A),
    In (i, x) (combine (seq k (List.length l)) l) <-> k <= i /\ nth_error l (i - k) = Some x.
Proof.
  induction l as [|y l IH]; intros k i x; simpl.
  - split; [contradiction|]. intros [_ H]. now destruct (i - k).
  - rewrite IH. split.
    + intros [[= <- <-]|[Hk H]].
      * split; [lia|]. now rewrite Nat.sub_diag.
      * split; [lia|]. now replace (i - k) with (S (i - S k)) by lia.
    + intros [Hk H]. destruct (i - k) as [|j] eqn:E.
      * left. injection H as <-. f_equal. lia.
      * right. split; [lia|]. now replace (i - S k) with j by lia.
Qed.

Lemma faulty_positions_spec (py_float : string -> option float) (lines : list string) (p : nat) :
  In p (DE2.faulty_positions (map (negative py_float) (skipn 8 lines)))
  <-> 8 <= p /\ exists row, nth_error lines p = Some row /\ negative py_float row = true.
Proof.
  unfold DE2.faulty_positions, enumerate. rewrite in_map_iff. split.
  - intros ([i b] & <- & H). apply filter_In in H as [H Hb]. simpl in Hb. subst b.
    apply in_combine_seq in H as [_ H]. rewrite Nat.sub_0_r, nth_error_map in H.
    simpl. split; [lia|].
    destruct (nth_error (skipn 8 lines) i) as [row|] eqn:E; [|discriminate].
    injection H as H. exists row. split; [|exact H].
    rewrite nth_error_skipn in E. now replace (i + 8) with (8 + i) by lia.
  - intros (Hp & row & Hrow & Hneg). exists (p - 8, true). split; [simpl; lia|].
    apply filter_In. split; [|reflexivity]. apply in_combine_seq. split; [lia|].
    rewrite Nat.sub_0_r, nth_error_map, nth_error_skipn.
    replace (8 + (p - 8)) with p by lia. now rewrite Hrow, <- Hneg.
Qed.

Lemma table_set_no_records (t : Table) (k : string) :
  Forall (fun kv => snd kv = []) t -> Forall (fun kv => snd kv = []) (table_set t k []).
Proof.
  induction t as [|[k' v'] t IH]; simpl; intros H.
  - now constructor.
  - inversion H as [|? ? Hv Ht]; subst. destruct (k' =? k)%string; constructor; auto.
Qed.

Lemma height_no_records (t : Table) : Forall (fun kv => snd kv = []) t -> height t = 0.
Proof.
  destruct t as [|[k v] t]; [reflexivity|]. intros H. inversion H as [|? ? Hv Ht]; subst.
  simpl in Hv. now subst.
Qed.

Section Bayern.

Variable py_float : string -> option float.
Variable py_str : cell -> string.
Variable strptime : string -> option datetime.
Variable read_csv : DE2.csv_call -> string -> result (DataFrame nat).

(** What [extract_file] does once the file is open and read. *)
Lemma extract_file_after (nr : pyid) (variable : string) (z : DE2.ZipFile)
    (p : option string) (content : string) (raw : DataFrame DE2.label)
    (ws : list warning) :
  DE2.get_file_from_zip nr z p = Ok (Some content) ->
  DE2.read_raw py_float read_csv nr content = Ok (raw, ws) ->
  DE2.extract_file py_float py_str strptime read_csv nr variable z p
  = (rw ← (if List.length (columns raw) =? 3 then
             raw ← DE2.rename_columns ["timestamp"; "value"; "status"] raw;
             Ok (raw, ws ++ [ThreeColumns (str_of_id nr)])
           else
             raw ← DE2.rename_columns ["timestamp"; "value"; "status"; "releaselevel"] raw;
             Ok (raw, ws));
     dates ← mapM (DE2.timestamp_date py_str strptime) (column_at 0 (fst rw));
     Ok (table_of_dict [("date", dates);
                        (lower variable, VCell <$> column_at 1 (fst rw));
                        ("flag", (fun _ => VNone) <$> column_at 2 (fst rw))],
         snd rw)).
Proof.
  intros Hf Hr. unfold DE2.extract_file. rewrite Hf, bind_Ok, Hr, bind_Ok. reflexivity.
Qed.

Lemma extract_file_warnings (nr : pyid) (variable : string) (z : DE2.ZipFile)
    (p : option string) (content : string) (raw : DataFrame DE2.label)
    (ws : list warning) (t : Table) (w : list warning) :
  DE2.get_file_from_zip nr z p = Ok (Some content) ->
  DE2.read_raw py_float read_csv nr content = Ok (raw, ws) ->
  DE2.extract_file py_float py_str strptime read_csv nr variable z p = Ok (t, w) ->
  w = ws \/ w = ws ++ [ThreeColumns (str_of_id nr)].
Proof.
  intros Hf Hr. rewrite (extract_file_after nr variable z p content raw ws Hf Hr).
  intros H. apply bind_returns in H as ([raw' w'] & H1 & H2).
  apply bind_returns in H2 as (dates & _ & H2). injection H2 as _ <-.
  destruct (List.length (columns raw) =? 3);
    apply bind_returns in H1 as (r & _ & H1); injection H1 as _ <-; auto.
Qed.

(** C6, as the code has it: in the fallback (the strict parse has raised
    [ParserError]), when [float] reads the value field of every data line and
    the remaining lines parse, the frame is the parse of exactly the data lines whose value field
    is not below zero, in their order. The one warning of the fallback names
    the positions [i + 8] of the dropped lines, which are their 0-based line
    numbers in the file; and whatever [extract_file] then returns has this
    warning as its only one that names positions. *)
Theorem lenient_excludes_negative_lines (nr : pyid) (content : string)
    (raw : DataFrame nat) :
  read_csv DE2.Strict content = Raise ParserError ->
  returns (mapM (DE2.faulty py_float) (skipn 8 (splitlines content))) ->
  read_csv DE2.Buffered
    (join newline (List.filter (fun row => negb (negative py_float row))
                               (skipn 8 (splitlines content)))) = Ok raw ->
  DE2.read_raw py_float read_csv nr content
  = Ok (DE2.relabel DE2.Pos raw,
        [FaultyRows (str_of_id nr)
           (DE2.faulty_positions (map (negative py_float) (skipn 8 (splitlines content))))]) /\
  (forall p : nat,
      In p (DE2.faulty_positions (map (negative py_float) (skipn 8 (splitlines content))))
      <-> 8 <= p /\
          exists row, nth_error (splitlines content) p = Some row /\
                      negative py_float row = true) /\
  (forall (variable : string) (z : DE2.ZipFile) (p : option string)
          (t : Table) (w : list warning),
      DE2.get_file_from_zip nr z p = Ok (Some content) ->
      DE2.extract_file py_float py_str strptime read_csv nr variable z p = Ok (t, w) ->
      List.filter is_faulty_rows w
      = [FaultyRows (str_of_id nr)
           (DE2.faulty_positions (map (negative py_float) (skipn 8 (splitlines content))))]).
Proof.
  intros Hs [flags Hm] Hb.
  pose proof (mapM_faulty py_float _ flags Hm) as ->.
  assert (Hr : DE2.read_raw py_float read_csv nr content
               = Ok (DE2.relabel DE2.Pos raw,
                     [FaultyRows (str_of_id nr)
                        (DE2.faulty_positions
                           (map (negative py_float) (skipn 8 (splitlines content))))])).
  { unfold DE2.read_raw. rewrite Hs, Hm, bind_Ok. cbv zeta.
    rewrite keep_rows_filter. fold newline. now rewrite Hb. }
  split; [exact Hr|]. split; [intros p; apply faulty_positions_spec|].
  intros variable z p t w Hf He.
  destruct (extract_file_warnings nr variable z p content _ _ t w Hf Hr He) as [-> | ->];
    reflexivity.
Qed.

(** X26: in the fallback, when [float] reads the value field of every data
    line and the parse of the remaining lines fails with [e], [extract_file]
    does not raise: it warns with the station and [e], and returns a table
    without records whose columns are [date], the variable and [flag]. *)
Theorem fallback_failure_gives_empty_series (nr : pyid) (variable : string)
    (z : DE2.ZipFile) (p : option string) (content : string) (e : exn) :
  DE2.get_file_from_zip nr z p = Ok (Some content) ->
  read_csv DE2.Strict content = Raise ParserError ->
  returns (mapM (DE2.faulty py_float) (skipn 8 (splitlines content))) ->
  read_csv DE2.Buffered
    (join newline (List.filter (fun row => negb (negative py_float row))
                               (skipn 8 (splitlines content)))) = Raise e ->
  DE2.extract_file py_float py_str strptime read_csv nr variable z p
  = Ok (table_of_dict [("date", []); (lower variable, []); ("flag", [])],
        [FailedAltogether (str_of_id nr) e]) /\
  height (table_of_dict [("date", []); (lower variable, []); ("flag", [])]) = 0 /\
  (lower variable <> "date" -> lower variable <> "flag" ->
   table_of_dict [("date", []); (lower variable, []); ("flag", [])]
   = empty_table ["date"; lower variable; "flag"]).
Proof.
  intros Hf Hs [flags Hm] Hb.
  pose proof (mapM_faulty py_float _ flags Hm) as ->.
  assert (Hr : DE2.read_raw py_float read_csv nr content
               = Ok (mkFrame [DE2.Name "x1"; DE2.Name "x2"; DE2.Name "x3"; DE2.Name "x4"] [],
                     [FailedAltogether (str_of_id nr) e])).
  { unfold DE2.read_raw. rewrite Hs, Hm, bind_Ok. cbv zeta.
    rewrite keep_rows_filter. fold newline. now rewrite Hb. }
  split; [|split].
  - rewrite (extract_file_after nr variable z p content _ _ Hf Hr). reflexivity.
  - apply height_no_records. unfold table_of_dict. cbn [fold_left fst snd].
    repeat apply table_set_no_records. constructor.
  - intros H1 H2. unfold table_of_dict, empty_table. cbn [fold_left fst snd table_set map].
    apply not_eq_sym in H1. apply String.eqb_neq in H1, H2. rewrite H1.
    cbn [table_set]. rewrite H2.
    replace ("date" =? "flag")%string with false by reflexivity. reflexivity.
Qed.

End Bayern.

Lemma lenient_excludes_negative_lines_witness :
  example_read_csv DE2.Strict negative_level = Raise ParserError /\
  DE2.extract_file example_float example_str example_strptime example_read_csv
    (IntId 1) "W" [("W/1.txt", negative_level)] None
  = Ok ([("date", [VDateTime new_year_2020]); ("w", [VCell (Text "5")]); ("flag", [VNone])],
        [FaultyRows "1" [9]]) /\
  List.filter is_faulty_rows [FaultyRows "1" [9]] = [FaultyRows "1" [9]].
Proof.
  split; [reflexivity|]. split; [reflexivity|].
  refine (proj2 (proj2 (lenient_excludes_negative_lines
            example_float example_str example_strptime example_read_csv
            (IntId 1) negative_level
            (mkFrame [0; 1; 2; 3]
               [(0, [Text "20200101000000"; Text "5"; Text "x"; Text "r"])])
            eq_refl (ex_intro _ [false; true] eq_refl) eq_refl))
          "W" [("W/1.txt", negative_level)] None
          [("date", [VDateTime new_year_2020]); ("w", [VCell (Text "5")]); ("flag", [VNone])]
          [FaultyRows "1" [9]] eq_refl eq_refl).
Defined.

(** C6 fails as stated: the second data line of this file has the value
    [-5], and the strict parse raises [ParserError]; without that line the
    third line still has a field too many, so that the second parse fails
    as well. [extract_file] then returns the table without records and the
    one warning of the failure: no warning names the position of the line. *)
Lemma negative_line_without_positions :
  example_read_csv DE2.Strict negative_and_more_fields = Raise ParserError /\
  nth_error (splitlines negative_and_more_fields) 9 = Some "20200102000000 -5 x r" /\
  negative example_float "20200102000000 -5 x r" = true /\
  DE2.extract_file example_float example_str example_strptime example_read_csv
    (IntId 1) "W" [("W/1.txt", negative_and_more_fields)] None
  = Ok (table_of_dict [("date", []); ("w", []); ("flag", [])],
        [FailedAltogether "1" ParserError]) /\
  List.filter is_faulty_rows [FailedAltogether "1" ParserError] = [].
Proof. repeat split. Qed.

Lemma fallback_failure_gives_empty_series_witness :
  example_read_csv DE2.Strict more_fields = Raise ParserError /\
  DE2.extract_file example_float example_str example_strptime example_read_csv
    (IntId 1) "W" [("W/1.txt", more_fields)] None
  = Ok (table_of_dict [("date", []); ("w", []); ("flag", [])],
        [FailedAltogether "1" ParserError]).
Proof.
  split; [reflexivity|].
  refine (proj1 (fallback_failure_gives_empty_series
            example_float example_str example_strptime example_read_csv
            (IntId 1) "W" [("W/1.txt", more_fields)] None more_fields ParserError
            eq_refl eq_refl (ex_intro _ [false; false] eq_refl) eq_refl)).
Defined.

(** C7: the code at the input on which it leaves the claim. The strict
    parse of this file raises [ParserError]; in the handler the test
    [float(row.split(' ')[1]) < 0] runs on every data line before the second
    parse and outside of its [try], and [float] rejects the value [1,5] of
    the first data line, which [read_csv] reads with [decimal=',']. So
    [extract_file] raises [ValueError], where the claim has a diagnostic and
    an empty series. *)
Lemma fallback_raises_on_decimal_comma :
  example_read_csv DE2.Strict decimal_comma = Raise ParserError /\
  DE2.extract_file example_float example_str example_strptime example_read_csv
    (IntId 1) "W" [("W/1.txt", decimal_comma)] None
  = Raise ValueError.
Proof. split; reflexivity. Qed.

(** ** Schleswig-Holstein: a file without values *)

(** C10: when the file of the station exists, is read into three columns,
    and every cell of its value column becomes NaN under [astype(float)],
    [extract_file] returns the table without records whose columns are [date],
    [q] and [flag]. Nothing is asked of the flag column: the flags are not
    derived, so that flag cells which are not texts raise nothing. *)
Theorem all_nan_gives_empty_series
    (py_float : string -> option float) (path_exists : string -> bool)
    (read_csv : string -> result (DataFrame string))
    (nr : pyid) (base_path : string) (df : DataFrame string) (q : list float) :
  path_exists (station_path nr base_path) = true ->
  read_csv (station_path nr base_path) = Ok df ->
  List.length (columns df) = 3 ->
  mapM (astype_float py_float) (column_at 1 df) = Ok q ->
  forallb PrimFloat.is_nan q = true ->
  DEF.extract_file py_float path_exists read_csv nr base_path
  = Ok (empty_table ["date"; "q"; "flag"]) /\
  height (empty_table ["date"; "q"; "flag"]) = 0 /\
  column_names (empty_table ["date"; "q"; "flag"]) = ["date"; "q"; "flag"].
Proof.
  intros He Hr Hc Hq Hn. split; [|split; reflexivity].
  unfold DEF.extract_file. fold (station_path nr base_path).
  rewrite He, Hr. cbn [negb]. rewrite bind_Ok.
  unfold DEF.rename_columns. rewrite Hc. cbn [List.length Nat.eqb]. rewrite bind_Ok.
  change (column_at 1 (mkFrame ["date"; "q"; "flag"] (rows df))) with (column_at 1 df).
  rewrite Hq, bind_Ok, Hn. reflexivity.
Qed.

Lemma all_nan_gives_empty_series_witness :
  mapM DEF.flag_of (column_at 2 comments_only) = Raise AttributeError /\
  DEF.extract_file example_float (fun _ => true) (fun _ => Ok comments_only)
    (IntId 114614) "/data"
  = Ok (empty_table ["date"; "q"; "flag"]).
Proof.
  split; [reflexivity|].
  refine (proj1 (all_nan_gives_empty_series example_float (fun _ => true)
                   (fun _ => Ok comments_only) (IntId 114614) "/data"
                   comments_only [nan; nan] eq_refl eq_refl eq_refl eq_refl eq_refl)).
Defined.

(** With a value in the file the flags are derived, and the empty flag cell
    raises. *)
Example flag_step_reached :
  DEF.extract_file example_float (fun _ => true) (fun _ => Ok value_without_flag)
    (IntId 114614) "/data"
  = Raise AttributeError.
Proof. reflexivity. Qed.

(** ** When [parse_dirty_dataframe] returns *)

Lemma isnull_NaN : isnull NaN = true.
Proof. reflexivity. Qed.

Lemma keyed_width (b : DataFrame nat) (w : nat) :
  regular w b -> keyed b = true -> w <> 0.
Proof.
  intros [_ Hr] Hk ->. unfold keyed, column_at in Hk.
  apply existsb_exists in Hk as (c & Hc & Hn).
  apply in_map_iff in Hc as (r & <- & Hin).
  rewrite Forall_forall in Hr. apply list_elem_of_In in Hin. specialize (Hr r Hin).
  apply length_zero_iff_nil in Hr. rewrite Hr in Hn. discriminate.
Qed.

Lemma column_at_0_upto {L : Type} (b : DataFrame L) :
  column_at 0 (iloc_cols_upto 2 b) = column_at 0 b.
Proof.
  unfold column_at, iloc_cols_upto. simpl. rewrite map_map. apply map_ext.
  intros [i [|c r]]; reflexivity.
Qed.

Lemma keyvalue_returns (b : DataFrame nat) (w : nat) :
  regular w b -> keyed b = true -> returns (DE4.keyvalue_records b).
Proof.
  intros Hr Hk. pose proof (keyed_width b w Hr Hk) as Hw. destruct Hr as [Hc _].
  unfold DE4.keyvalue_records, set_index0_T.
  assert (E : exists js cols,
             kept_columns (iloc_cols_upto 2 b) = 0 :: js /\
             columns (iloc_cols_upto 2 b) = 0 :: cols).
  { assert (Ec : exists cols, columns (iloc_cols_upto 2 b) = 0 :: cols).
    { unfold iloc_cols_upto. cbn [columns]. rewrite Hc.
      destruct w as [|w]; [contradiction|]. cbn [seq firstn]. eauto. }
    destruct Ec as [cols Ec]. unfold kept_columns. rewrite Ec.
    cbn [List.length seq List.filter].
    rewrite column_at_0_upto. fold (keyed b). rewrite Hk. eauto. }
  destruct E as (js & cols & Ej & Ec).
  unfold dropna_rows, dropna_cols. cbn [columns rows]. rewrite Ej, Ec.
  cbn [select map nth position Nat.eqb]. eexists. reflexivity.
Qed.

Lemma length_select {A : Type} (js : list nat) (l : list A) (d : A) :
  List.length (select js l d) = List.length js.
Proof. unfold select. apply length_map. Qed.

Lemma kept_column (b : DataFrame nat) (w j : nat) (r : nat * list cell) :
  regular w b -> In r (rows b) -> j < w -> isnull (nth j (snd r) NaN) = false ->
  In j (kept_columns b).
Proof.
  intros [Hc _] Hr Hj Hn. unfold kept_columns. apply filter_In. split.
  - rewrite Hc, length_seq. apply in_seq. lia.
  - apply existsb_exists. exists (nth j (snd r) NaN). split; [|now rewrite Hn].
    unfold column_at. apply in_map_iff. eauto.
Qed.

Lemma coordinates_returns (b : DataFrame nat) (w : nat) :
  regular w b -> has_cell b = true -> returns (DE4.coordinates_records b).
Proof.
  intros Hr Hh. unfold has_cell in Hh.
  apply existsb_exists in Hh as (r & Hin & Hh).
  apply existsb_exists in Hh as (c & Hc & Hn).
  apply (In_nth _ _ NaN) in Hc as (j & Hj & <-).
  assert (Hw : List.length (snd r) = w).
  { destruct Hr as [_ Hr]. rewrite Forall_forall in Hr. apply Hr. now apply list_elem_of_In. }
  apply negb_true_iff in Hn.
  assert (Hk : In j (kept_columns b)) by (apply (kept_column b w j r); auto; lia).
  unfold DE4.coordinates_records.
  set (y := dropna_rows (dropna_cols b)).
  assert (Hrow : In (fst r, select (kept_columns b) (snd r) NaN) (rows y)).
  { unfold y, dropna_rows, dropna_cols. cbn [rows columns]. apply filter_In. split.
    - apply in_map_iff. exists r. auto.
    - cbn [snd]. apply existsb_exists. exists (nth j (snd r) NaN). split; [|now rewrite Hn].
      unfold select. apply in_map_iff. eauto. }
  assert (Hcells : forall r', In r' (rows y) -> List.length (snd r') = List.length (kept_columns b)).
  { intros r' H. unfold y, dropna_rows, dropna_cols in H. cbn [rows columns] in H.
    apply filter_In in H as [H _]. apply in_map_iff in H as (r0 & <- & _).
    apply length_select. }
  assert (Hcols : List.length (columns y) = List.length (kept_columns b)).
  { unfold y, dropna_rows, dropna_cols. cbn [rows columns]. apply length_select. }
  assert (Hpos : List.length (kept_columns b) <> 0).
  { intros E. apply length_zero_iff_nil in E. now rewrite E in Hk. }
  unfold iloc_set00.
  destruct (columns y) as [|l ls] eqn:Ecols; [simpl in Hcols; lia|].
  destruct (rows y) as [|[i cells] rs] eqn:Erows; [contradiction|].
  specialize (Hcells (i, cells) (or_introl eq_refl)). cbn [snd] in Hcells.
  destruct cells as [|c0 cells]; [simpl in Hcells; lia|].
  rewrite bind_Ok. unfold iloc_row0 at 1. cbn [rows]. rewrite bind_Ok.
  unfold drop_first, set_columns. cbn [rows columns]. rewrite bind_Ok.
  eexists. reflexivity.
Qed.

Lemma mapM_returns {A B : Type} (f : A -> result B) (l : list A) :
  forallb (fun x => match f x with Ok _ => true | Raise _ => false end) l = true ->
  returns (mapM f l).
Proof.
  induction l as [|x l IH]; simpl; [intros _; eexists; reflexivity|].
  intros H. apply andb_true_iff in H as [Hx Hl].
  destruct (f x) as [y|e]; [|discriminate]. destruct (IH Hl) as [ys ->].
  eexists. reflexivity.
Qed.

Lemma forallb_impl {A : Type} (P Q : A -> bool) (l : list A) :
  (forall x, P x = true -> Q x = true) -> forallb P l = true -> forallb Q l = true.
Proof.
  intros H. rewrite !forallb_forall. auto.
Qed.

Lemma data_returns (py_float : string -> option float) (dateparse : string -> option datetime)
    (variable : string) (b : DataFrame nat) :
  data_shaped py_float b = true ->
  returns (DE4.data_block py_float dateparse variable b).
Proof.
  unfold data_shaped, DE4.data_block. cbv zeta.
  set (y := dropna_cols (dropna_rows b)).
  unfold iloc_row0, drop_first, set_columns. cbn [rows columns].
  destruct (rows y) as [|r rs] eqn:E; [discriminate|].
  rewrite !bind_Ok. cbn [rows columns].
  intros H. apply andb_true_iff in H as [H H3]. apply andb_true_iff in H as [H H1].
  apply andb_true_iff in H as [Hw H0]. apply Nat.leb_le in Hw.
  unfold iloc_col. cbn [columns].
  replace (0 <? List.length (snd r)) with true by (symmetry; apply Nat.ltb_lt; lia).
  replace (1 <? List.length (snd r)) with true by (symmetry; apply Nat.ltb_lt; lia).
  replace (3 <? List.length (snd r)) with true by (symmetry; apply Nat.ltb_lt; lia).
  rewrite !bind_Ok.
  assert (Hd : returns (mapM (DE4.date_of dateparse)
            (column_at 0 (mkFrame (snd r)
               (List.filter (fun r' => negb (fst r' =? fst r)) (r :: rs)))))).
  { apply mapM_returns. revert H0. apply forallb_impl. now intros [x|s|d]. }
  assert (Hv : returns (mapM (astype_float py_float)
            (column_at 1 (mkFrame (snd r)
               (List.filter (fun r' => negb (fst r' =? fst r)) (r :: rs)))))).
  { apply mapM_returns. exact H1. }
  assert (Hf : returns (mapM DE4.flag_of
            (column_at 3 (mkFrame (snd r)
               (List.filter (fun r' => negb (fst r' =? fst r)) (r :: rs)))))).
  { apply mapM_returns. revert H3. apply forallb_impl. now intros [x|s|d]. }
  destruct Hd as [dates ->]. rewrite !bind_Ok.
  destruct Hv as [vals ->]. rewrite !bind_Ok.
  destruct Hf as [flags ->]. rewrite !bind_Ok. eexists. reflexivity.
Qed.

Lemma width_ge (g : CellGrid) (r : list cell) : In r g -> List.length r <= width g.
Proof.
  induction g as [|r' g IH]; [contradiction|].
  unfold width. cbn [fold_right]. fold (width g).
  intros [->|H]; [lia|]. specialize (IH H). lia.
Qed.

Lemma read_sheet_regular (g : CellGrid) : regular (width g) (read_sheet g).
Proof.
  split; [reflexivity|]. unfold read_sheet. cbn [rows].
  apply Forall_forall. intros [i cells] H. apply list_elem_of_In, in_combine_r in H.
  apply in_map_iff in H as (r & <- & H). apply width_ge in H.
  unfold pad. cbn [snd]. rewrite length_app, repeat_length. lia.
Qed.

Lemma block_regular (w : nat) (df b : DataFrame nat) (i : nat) :
  regular w df -> nth_error (DE4.blocks df) i = Some b -> regular w b.
Proof.
  intros [Hc Hr] H. unfold DE4.blocks in H. rewrite nth_error_map in H.
  destruct (nth_error (DE4.block_bounds df) i) as [[lo up]|]; [|discriminate].
  injection H as <-. split; [exact Hc|]. unfold iloc_rows. cbn [rows fst snd].
  apply Forall_take, Forall_drop, Hr.
Qed.

Section Totality.

Variable py_float : string -> option float.
Variable py_str : cell -> string.
Variable dateparse : string -> option datetime.
Variable df : DataFrame nat.
Variable w : nat.
Variable variable : string.
Variable skip_data : bool.
Hypothesis df_regular : regular w df.

Abbreviation body := (DE4.loop_body py_float py_str dateparse df variable skip_data).
Abbreviation bounds := (DE4.block_bounds df).

Lemma block_of_bounds (i lo up : nat) :
  nth_error bounds i = Some (lo, up) ->
  nth_error (DE4.blocks df) i = Some (iloc_rows lo up df).
Proof.
  intros H. unfold DE4.blocks. now rewrite nth_error_map, H.
Qed.

Lemma keyvalue_turn_returns (i : nat) (st : DE4.locals) :
  i < 2 -> block_ok keyed i df = true -> returns (visit body bounds i st).
Proof.
  intros Hi Hk. unfold visit.
  destruct (nth_error bounds i) as [[lo up]|] eqn:E; [|eexists; reflexivity].
  apply block_of_bounds in E. unfold block_ok in Hk. rewrite E in Hk.
  destruct (keyvalue_returns _ w (block_regular w df _ i df_regular E) Hk) as [recs Hr].
  unfold DE4.loop_body, DE4.metadata_branch. cbn [fst snd].
  destruct i as [|[|i]]; [| |lia]; cbn [Nat.eqb andb orb]; rewrite Hr, bind_Ok;
    destruct recs; eexists; reflexivity.
Qed.

Lemma coordinates_turn_returns (st : DE4.locals) :
  block_ok has_cell 2 df = true -> returns (visit body bounds 2 st).
Proof.
  intros Hk. unfold visit.
  destruct (nth_error bounds 2) as [[lo up]|] eqn:E; [|eexists; reflexivity].
  apply block_of_bounds in E. unfold block_ok in Hk. rewrite E in Hk.
  destruct (coordinates_returns _ w (block_regular w df _ 2 df_regular E) Hk) as [recs Hr].
  unfold DE4.loop_body, DE4.metadata_branch. cbn [fst snd Nat.eqb andb orb].
  rewrite Hr, bind_Ok. destruct recs; eexists; reflexivity.
Qed.

Lemma data_turn_returns (st : DE4.locals) :
  skip_data = true \/ DE4.ID st = None \/ block_ok (data_shaped py_float) 3 df = true ->
  returns (visit body bounds 3 st).
Proof.
  intros H. unfold visit.
  destruct (nth_error bounds 3) as [[lo up]|] eqn:E; [|eexists; reflexivity].
  apply block_of_bounds in E.
  unfold DE4.loop_body, DE4.metadata_branch. cbn [fst snd Nat.eqb andb orb].
  destruct skip_data; cbn [negb]; [eexists; reflexivity|].
  destruct (DE4.ID st) as [i|]; [|eexists; reflexivity].
  destruct H as [H|[H|H]]; [discriminate..|].
  unfold block_ok in H. rewrite E in H.
  destruct (data_returns py_float dateparse variable _ H) as [t ->].
  rewrite bind_Ok. eexists. reflexivity.
Qed.

Lemma loop_returns :
  well_shaped py_float skip_data df = true ->
  returns (for_each body (enumerate bounds) DE4.init).
Proof.
  unfold well_shaped. intros H.
  apply andb_true_iff in H as [H H3]. apply andb_true_iff in H as [H H2].
  apply andb_true_iff in H as [H0 H1].
  rewrite loop_unroll.
  destruct (keyvalue_turn_returns 0 DE4.init (Nat.lt_0_succ 1) H0) as [s0 E0].
  rewrite E0, bind_Ok.
  destruct (keyvalue_turn_returns 1 s0 (Nat.lt_succ_diag_r 1) H1) as [s1 E1].
  rewrite E1, bind_Ok.
  destruct (coordinates_turn_returns s1 H2) as [s2 E2].
  rewrite E2, bind_Ok.
  apply data_turn_returns.
  apply visit0 in E0 as (_ & L0 & C0 & _ & I0 & _).
  apply visit1 in E1 as (_ & _ & C1 & _ & I1 & _); [|exact L0].
  apply visit2 in E2 as (_ & _ & _ & _ & I2 & _); [|now rewrite C1].
  apply orb_true_iff in H3 as [H3|H3]; [apply orb_true_iff in H3 as [H3|H3]|]; auto.
  right. left. rewrite I2, I1, I0. unfold has_id in H3.
  now destruct (dict_get (recovered 0 df) (Text "ID")).
Qed.

End Totality.



(** A location block with keys and no values yields no record: the block is
    skipped with the warning of block 2, and the rest is returned. *)
Example location_block_skipped :
  DE4.parse_dirty_dataframe example_float example_str example_dateparse
    (read_sheet location_without_values) "q" false
  = Ok (Some [(Text "ID", Number 4711); (Text "CRS", Text "ETRS89");
              (Text "Rechtswert", Number 453000)],
        None, [WrongShape 2]).
Proof. reflexivity. Qed.


(** * Further properties *)

(** ** Brandenburg: the warnings, and what the result depends on *)

Lemma in_shape_warning (j : nat) (df : DataFrame nat) (w : warning) :
  In w (shape_warning j df)
  <-> w = WrongShape (j + 1) /\
      exists b, nth_error (DE4.blocks df) j = Some b /\
                (if j <? 2 then DE4.keyvalue_records b else DE4.coordinates_records b) = Ok [].
Proof.
  unfold shape_warning. destruct (nth_error (DE4.blocks df) j) as [b|].
  - destruct (if j <? 2 then _ else _) as [[|d recs]|e] eqn:E; simpl.
    + split; [intros [<-|[]]; eauto|intros [-> _]; auto].
    + split; [contradiction|intros [_ (b' & [= <-] & H)]; congruence].
    + split; [contradiction|intros [_ (b' & [= <-] & H)]; congruence].
  - simpl. split; [contradiction|intros [_ (b' & H & _)]; discriminate].
Qed.

Lemma in_id_warning (df : DataFrame nat) (w : warning) :
  In w (id_warning df)
  <-> w = NoIDFound 1 /\
      exists b d recs, nth_error (DE4.blocks df) 0 = Some b /\
                       DE4.keyvalue_records b = Ok (d :: recs) /\
                       dict_get d (Text "ID") = None.
Proof.
  unfold id_warning. destruct (nth_error (DE4.blocks df) 0) as [b|].
  - destruct (DE4.keyvalue_records b) as [[|d recs]|e] eqn:E; simpl.
    + split; [contradiction|intros [_ (b' & d' & recs' & [= <-] & H & _)]; congruence].
    + destruct (dict_get d (Text "ID")) eqn:E'; simpl.
      * split; [contradiction|].
        intros [_ (b' & d' & recs' & [= <-] & H1 & H)]. congruence.
      * split; [intros [<-|[]]; split; eauto 6|intros [-> _]; auto].
    + split; [contradiction|intros [_ (b' & d' & recs' & [= <-] & H & _)]; congruence].
  - simpl. split; [contradiction|intros [_ (b' & d & recs & H & _)]; discriminate].
Qed.

Lemma length_shape_warning (j : nat) (df : DataFrame nat) :
  List.length (shape_warning j df) <= 1.
Proof.
  unfold shape_warning. destruct (nth_error _ _) as [b|]; [|simpl; lia].
  destruct (if j <? 2 then _ else _) as [[|d recs]|e]; simpl; lia.
Qed.

Lemma length_first_warnings (df : DataFrame nat) :
  List.length (shape_warning 0 df ++ id_warning df) <= 1.
Proof.
  unfold shape_warning, id_warning. cbn [Nat.ltb Nat.leb].
  destruct (nth_error (DE4.blocks df) 0) as [b|]; [|simpl; lia].
  destruct (DE4.keyvalue_records b) as [[|d recs]|e]; simpl; try lia.
  destruct (dict_get d (Text "ID")); simpl; lia.
Qed.

(** X1: whenever [parse_dirty_dataframe] returns, the warnings it has
    issued itself (a wrong shape, no ID), whatever else stands among the
    warnings, are those of the first three blocks, in the order of the blocks
    and at most three: block [i] (of the blocks 0, 1, 2) warns of a wrong
    shape exactly when it is there and yields no record, and block 0 warns of
    a missing ID exactly when its record has no key ['ID']. The branch of the
    data block issues none. *)
Theorem warnings_of_the_blocks
    (py_float : string -> option float) (py_str : cell -> string)
    (dateparse : string -> option datetime)
    (df : DataFrame nat) (variable : string) (skip_data : bool)
    (meta : option dict) (dat : option Table) (w : list warning) :
  DE4.parse_dirty_dataframe py_float py_str dateparse df variable skip_data
  = Ok (meta, dat, w) ->
  List.filter is_block_warning w
  = shape_warning 0 df ++ id_warning df ++ shape_warning 1 df ++ shape_warning 2 df /\
  List.length (List.filter is_block_warning w) <= 3 /\
  (forall n : nat,
      In (WrongShape n) w
      <-> exists i b, n = i + 1 /\ i < 3 /\ nth_error (DE4.blocks df) i = Some b /\
                      (if i <? 2 then DE4.keyvalue_records b
                       else DE4.coordinates_records b) = Ok []) /\
  (forall n : nat,
      In (NoIDFound n) w
      <-> n = 1 /\
          exists b d recs, nth_error (DE4.blocks df) 0 = Some b /\
                           DE4.keyvalue_records b = Ok (d :: recs) /\
                           dict_get d (Text "ID") = None).
Proof.
  unfold DE4.parse_dirty_dataframe. intros H.
  apply bind_returns in H as (st & Hst & H).
  apply final_state in Hst as (_ & _ & _ & _ & W & _).
  injection H as _ _ <-. rewrite W. unfold diagnostics.
  assert (F : List.filter is_block_warning
                (shape_warning 0 df ++ id_warning df ++ shape_warning 1 df
                 ++ shape_warning 2 df)
              = shape_warning 0 df ++ id_warning df ++ shape_warning 1 df
                ++ shape_warning 2 df).
  { apply forallb_filter_id, forallb_forall. intros x.
    rewrite !in_app_iff, !in_shape_warning, in_id_warning.
    intros [[-> _]|[[-> _]|[[-> _]|[-> _]]]]; reflexivity. }
  rewrite F.
  split; [reflexivity|]. split; [|split].
  - pose proof (length_first_warnings df) as H1. rewrite length_app in H1.
    pose proof (length_shape_warning 1 df). pose proof (length_shape_warning 2 df).
    rewrite !length_app. lia.
  - intros n. rewrite !in_app_iff, !in_shape_warning, in_id_warning. split.
    + intros [(E & b & Hb & Hr)|[[E _]|[(E & b & Hb & Hr)|(E & b & Hb & Hr)]]];
        try discriminate; injection E as ->;
        [exists 0, b|exists 1, b|exists 2, b]; (split; [reflexivity|split; [lia|auto]]).
    + intros (i & b & -> & Hi & Hb & Hr).
      destruct i as [|[|[|i]]]; [| | |lia].
      * left. eauto.
      * right. right. left. eauto.
      * right. right. right. eauto.
  - intros n. rewrite !in_app_iff, !in_shape_warning, in_id_warning. split.
    + intros [[E _]|[[E H]|[[E _]|[E _]]]]; try discriminate.
      injection E as ->. auto.
    + intros [-> H]. auto.
Qed.

Lemma warnings_of_the_blocks_witness :
  DE4.parse_dirty_dataframe example_float example_str example_dateparse
    (read_sheet location_without_values) "q" false
  = Ok (Some [(Text "ID", Number 4711); (Text "CRS", Text "ETRS89");
              (Text "Rechtswert", Number 453000)],
        None, [WrongShape 2]) /\
  List.filter is_block_warning [WrongShape 2]
  = shape_warning 0 (read_sheet location_without_values)
    ++ id_warning (read_sheet location_without_values)
    ++ shape_warning 1 (read_sheet location_without_values)
    ++ shape_warning 2 (read_sheet location_without_values).
Proof.
  split; [reflexivity|].
  refine (proj1 (warnings_of_the_blocks example_float example_str example_dateparse
                   (read_sheet location_without_values) "q" false _ _ _ eq_refl)).
Defined.

Lemma visit_before_data
    (py_float py_float' : string -> option float) (py_str : cell -> string)
    (dateparse dateparse' : string -> option datetime)
    (df : DataFrame nat) (variable variable' : string) (skip_data skip_data' : bool)
    (l : list (nat * nat)) (i : nat) (st : DE4.locals) :
  i < 3 ->
  visit (DE4.loop_body py_float py_str dateparse df variable skip_data) l i st
  = visit (DE4.loop_body py_float' py_str dateparse' df variable' skip_data') l i st.
Proof.
  intros Hi. unfold visit. destruct (nth_error l i) as [b|]; [|reflexivity].
  unfold DE4.loop_body. cbn [fst snd].
  destruct i as [|[|[|i]]]; [reflexivity..|lia].
Qed.

Lemma visit_data_skipped
    (py_float : string -> option float) (py_str : cell -> string)
    (dateparse : string -> option datetime)
    (df : DataFrame nat) (variable : string) (l : list (nat * nat)) (st : DE4.locals) :
  visit (DE4.loop_body py_float py_str dateparse df variable true) l 3 st = Ok st.
Proof.
  unfold visit. destruct (nth_error l 3) as [b|]; reflexivity.
Qed.

(** X2: the metadata and the warnings depend neither on the variable nor on
    [skip_data], nor on how texts are read as numbers and dates: when the
    call that reads the data returns, the call with [skip_data] returns the
    same metadata and the same warnings, and no series. *)
Theorem skipping_data_keeps_metadata
    (py_float py_float' : string -> option float) (py_str : cell -> string)
    (dateparse dateparse' : string -> option datetime)
    (df : DataFrame nat) (variable variable' : string)
    (meta : option dict) (dat : option Table) (w : list warning) :
  DE4.parse_dirty_dataframe py_float py_str dateparse df variable false
  = Ok (meta, dat, w) ->
  DE4.parse_dirty_dataframe py_float' py_str dateparse' df variable' true
  = Ok (meta, None, w).
Proof.
  unfold DE4.parse_dirty_dataframe. intros H.
  apply bind_returns in H as (st & Hst & H). rewrite loop_unroll in Hst.
  apply bind_returns in Hst as (s0 & H0 & Hst).
  apply bind_returns in Hst as (s1 & H1 & Hst).
  apply bind_returns in Hst as (s2 & H2 & H3).
  rewrite loop_unroll.
  rewrite (visit_before_data py_float' py_float py_str dateparse' dateparse df
             variable' variable true false _ 0 DE4.init) by lia.
  rewrite H0, bind_Ok.
  rewrite (visit_before_data py_float' py_float py_str dateparse' dateparse df
             variable' variable true false _ 1 s0) by lia.
  rewrite H1, bind_Ok.
  rewrite (visit_before_data py_float' py_float py_str dateparse' dateparse df
             variable' variable true false _ 2 s1) by lia.
  rewrite H2, bind_Ok, visit_data_skipped, bind_Ok.
  apply visit0 in H0 as (_ & L0 & C0 & D0 & _ & _).
  apply visit1 in H1 as (_ & _ & C1 & D1 & _ & _); [|exact L0].
  apply visit2 in H2 as (_ & _ & _ & D2 & _ & _); [|now rewrite C1].
  apply visit3 in H3 as (B3 & L3 & C3 & _ & W3 & _); [|now rewrite D2, D1].
  rewrite B3, L3, C3 in H. injection H as <- _ <-.
  now rewrite D2, D1, D0, W3.
Qed.

Lemma skipping_data_keeps_metadata_witness :
  DE4.parse_dirty_dataframe example_float example_str example_dateparse
    (read_sheet (station_sheet (Text geprueft) (Text "x"))) "q" false
  = Ok (Some station_meta,
        Some [("date", [VDate (mkDate 2020 1 1)]); ("q", [VFloat 1.23]);
              ("flag", [VBool false])],
        []) /\
  DE4.parse_dirty_dataframe (fun _ => None) example_str (fun _ => None)
    (read_sheet (station_sheet (Text geprueft) (Text "x"))) "w" true
  = Ok (Some station_meta, None, []).
Proof.
  split; [reflexivity|].
  refine (skipping_data_keeps_metadata example_float (fun _ => None) example_str
            example_dateparse (fun _ => None)
            (read_sheet (station_sheet (Text geprueft) (Text "x"))) "q" "w"
            _ _ _ eq_refl).
Defined.

(** X3: the loop reads the first four blocks only. Two frames with the same
    first four blocks give the same result, whatever follows the fourth
    block. *)
Theorem later_blocks_are_ignored
    (py_float : string -> option float) (py_str : cell -> string)
    (dateparse : string -> option datetime)
    (df df' : DataFrame nat) (variable : string) (skip_data : bool) :
  firstn 4 (DE4.blocks df) = firstn 4 (DE4.blocks df') ->
  DE4.parse_dirty_dataframe py_float py_str dateparse df variable skip_data
  = DE4.parse_dirty_dataframe py_float py_str dateparse df' variable skip_data.
Proof.
  intros H. unfold DE4.parse_dirty_dataframe. f_equal. rewrite !loop_unroll.
  assert (V : forall i st, i < 4 ->
            visit (DE4.loop_body py_float py_str dateparse df variable skip_data)
                  (DE4.block_bounds df) i st
            = visit (DE4.loop_body py_float py_str dateparse df' variable skip_data)
                    (DE4.block_bounds df') i st).
  { intros i st Hi.
    assert (E : nth_error (DE4.blocks df) i = nth_error (DE4.blocks df') i).
    { apply (f_equal (fun l => nth_error l i)) in H.
      rewrite !nth_error_firstn in H.
      now replace (i <? 4) with true in H by (symmetry; apply Nat.ltb_lt; lia). }
    unfold DE4.blocks in E. rewrite !nth_error_map in E. unfold visit.
    destruct (nth_error (DE4.block_bounds df) i) as [[lo up]|],
             (nth_error (DE4.block_bounds df') i) as [[lo' up']|];
      try discriminate; [|reflexivity].
    cbn [option_map fst snd] in E.
    pose proof (f_equal (fun o => match o with Some x => x | None => df end) E) as E'.
    cbv beta iota in E'. unfold DE4.loop_body. cbn [fst snd]. now rewrite E'. }
  rewrite (V 0) by lia. destruct (visit _ _ 0 _) as [s0|]; [|reflexivity].
  rewrite !bind_Ok, (V 1) by lia. destruct (visit _ _ 1 _) as [s1|]; [|reflexivity].
  rewrite !bind_Ok, (V 2) by lia. destruct (visit _ _ 2 _) as [s2|]; [|reflexivity].
  rewrite !bind_Ok. apply V. lia.
Qed.

Lemma later_blocks_are_ignored_witness :
  firstn 4 (DE4.blocks (read_sheet (station_sheet (Text geprueft) (Text "x"))))
  = firstn 4 (DE4.blocks (read_sheet station_sheet_with_note)) /\
  List.length (DE4.blocks (read_sheet station_sheet_with_note)) = 5 /\
  DE4.parse_dirty_dataframe example_float example_str example_dateparse
    (read_sheet (station_sheet (Text geprueft) (Text "x"))) "q" false
  = DE4.parse_dirty_dataframe example_float example_str example_dateparse
      (read_sheet station_sheet_with_note) "q" false.
Proof.
  split; [reflexivity|]. split; [reflexivity|].
  refine (later_blocks_are_ignored example_float example_str example_dateparse
            (read_sheet (station_sheet (Text geprueft) (Text "x")))
            (read_sheet station_sheet_with_note) "q" false eq_refl).
Defined.

(** ** Brandenburg: the blocks on which the parser raises *)

Lemma keyvalue_raises (b : DataFrame nat) (w : nat) :
  regular w b -> keyed b = false -> DE4.keyvalue_records b = Raise KeyError.
Proof.
  intros [Hc _] Hk. unfold DE4.keyvalue_records, set_index0_T.
  unfold dropna_rows, dropna_cols. cbn [columns rows].
  assert (E : position 0 (select (kept_columns (iloc_cols_upto 2 b))
                                 (columns (iloc_cols_upto 2 b)) 0) = None).
  { unfold kept_columns. unfold iloc_cols_upto at 2 3. cbn [columns]. rewrite Hc.
    destruct w as [|[|w]]; cbn [seq firstn List.length List.filter]; [reflexivity| |].
    - rewrite column_at_0_upto. fold (keyed b). rewrite Hk. reflexivity.
    - rewrite column_at_0_upto. fold (keyed b). rewrite Hk.
      destruct (existsb _ (column_at 1 _)); reflexivity. }
  rewrite E. reflexivity.
Qed.

Lemma kept_columns_none (b : DataFrame nat) :
  has_cell b = false -> kept_columns b = [].
Proof.
  intros H. unfold kept_columns.
  assert (P : forall j, existsb (fun c => negb (isnull c)) (column_at j b) = false).
  { intros j. apply not_true_iff_false. intros E.
    apply existsb_exists in E as (c & Hc & Hn).
    unfold column_at in Hc. apply in_map_iff in Hc as (r & <- & Hr).
    apply not_true_iff_false in H. apply H. unfold has_cell.
    apply existsb_exists. exists r. split; [exact Hr|].
    destruct (nth_in_or_default j (snd r) NaN) as [Hin|Hd].
    - apply existsb_exists. eauto.
    - rewrite Hd in Hn. discriminate. }
  induction (seq 0 (List.length (columns b))) as [|j js IH]; simpl; [reflexivity|].
  now rewrite P.
Qed.

Lemma coordinates_raises (b : DataFrame nat) :
  has_cell b = false -> DE4.coordinates_records b = Raise IndexError.
Proof.
  intros H. unfold DE4.coordinates_records, iloc_set00.
  unfold dropna_rows, dropna_cols. cbn [columns rows].
  rewrite (kept_columns_none b H). reflexivity.
Qed.

Section Raising.

Variable py_float : string -> option float.
Variable py_str : cell -> string.
Variable dateparse : string -> option datetime.
Variable df : DataFrame nat.
Variable w : nat.
Variable variable : string.
Variable skip_data : bool.
Hypothesis df_regular : regular w df.

Abbreviation body := (DE4.loop_body py_float py_str dateparse df variable skip_data).
Abbreviation bounds := (DE4.block_bounds df).

Lemma keyvalue_turn_raises (i : nat) (st : DE4.locals) :
  i < 2 -> block_ok keyed i df = false -> visit body bounds i st = Raise KeyError.
Proof.
  intros Hi Hk. unfold visit, block_ok, DE4.blocks in *. rewrite nth_error_map in Hk.
  destruct (nth_error bounds i) as [[lo up]|] eqn:E; [|discriminate].
  cbn [option_map fst snd] in Hk.
  pose proof (keyvalue_raises _ w
                (block_regular w df _ i df_regular (block_of_bounds df i lo up E)) Hk) as Hr.
  unfold DE4.loop_body, DE4.metadata_branch. cbn [fst snd].
  destruct i as [|[|i]]; [| |lia]; cbn [Nat.eqb andb orb]; now rewrite Hr.
Qed.

Lemma coordinates_turn_raises (st : DE4.locals) :
  block_ok has_cell 2 df = false -> visit body bounds 2 st = Raise IndexError.
Proof.
  intros Hk. unfold visit, block_ok, DE4.blocks in *. rewrite nth_error_map in Hk.
  destruct (nth_error bounds 2) as [[lo up]|] eqn:E; [|discriminate].
  cbn [option_map fst snd] in Hk.
  unfold DE4.loop_body, DE4.metadata_branch. cbn [fst snd Nat.eqb andb orb].
  now rewrite (coordinates_raises _ Hk).
Qed.

Lemma loop_raises :
  (block_ok keyed 0 df = false ->
   for_each body (enumerate bounds) DE4.init = Raise KeyError) /\
  (block_ok keyed 0 df = true -> block_ok keyed 1 df = false ->
   for_each body (enumerate bounds) DE4.init = Raise KeyError) /\
  (block_ok keyed 0 df = true -> block_ok keyed 1 df = true ->
   block_ok has_cell 2 df = false ->
   for_each body (enumerate bounds) DE4.init = Raise IndexError).
Proof.
  rewrite loop_unroll. split; [|split].
  - intros H0. now rewrite (keyvalue_turn_raises 0 DE4.init) by (lia || assumption).
  - intros H0 H1.
    destruct (keyvalue_turn_returns py_float py_str dateparse df w variable skip_data
                df_regular 0 DE4.init (Nat.lt_0_succ 1) H0) as [s0 ->].
    rewrite bind_Ok. now rewrite (keyvalue_turn_raises 1 s0) by (lia || assumption).
  - intros H0 H1 H2.
    destruct (keyvalue_turn_returns py_float py_str dateparse df w variable skip_data
                df_regular 0 DE4.init (Nat.lt_0_succ 1) H0) as [s0 ->].
    rewrite bind_Ok.
    destruct (keyvalue_turn_returns py_float py_str dateparse df w variable skip_data
                df_regular 1 s0 (Nat.lt_succ_diag_r 1) H1) as [s1 ->].
    rewrite bind_Ok. now rewrite (coordinates_turn_raises s1 H2).
Qed.

End Raising.

(** X4: which sheets make the parser raise in the blocks of the metadata.
    A first or second block without a cell in column 0 raises [KeyError]
    (nothing is left under the label 0 for [set_index]), in particular the
    sheet without rows and a sheet that begins with an empty row; a third
    block without a cell raises [IndexError]. With [skip_data] these are the
    only failures: the call returns exactly on the sheets whose blocks 0 and
    1 have a cell in column 0 and whose block 2 has a cell. *)
Theorem metadata_blocks_that_raise
    (py_float : string -> option float) (py_str : cell -> string)
    (dateparse : string -> option datetime)
    (g : CellGrid) (variable : string) :
  (forall skip_data : bool,
      block_ok keyed 0 (read_sheet g) = false ->
      DE4.parse_dirty_dataframe py_float py_str dateparse (read_sheet g) variable skip_data
      = Raise KeyError) /\
  (forall skip_data : bool,
      block_ok keyed 0 (read_sheet g) = true ->
      block_ok keyed 1 (read_sheet g) = false ->
      DE4.parse_dirty_dataframe py_float py_str dateparse (read_sheet g) variable skip_data
      = Raise KeyError) /\
  (forall skip_data : bool,
      block_ok keyed 0 (read_sheet g) = true ->
      block_ok keyed 1 (read_sheet g) = true ->
      block_ok has_cell 2 (read_sheet g) = false ->
      DE4.parse_dirty_dataframe py_float py_str dateparse (read_sheet g) variable skip_data
      = Raise IndexError) /\
  (returns (DE4.parse_dirty_dataframe py_float py_str dateparse (read_sheet g) variable true)
   <-> block_ok keyed 0 (read_sheet g) && block_ok keyed 1 (read_sheet g)
       && block_ok has_cell 2 (read_sheet g) = true) /\
  (match g with
   | [] => True
   | r :: _ => forallb isnull r = true
   end ->
   block_ok keyed 0 (read_sheet g) = false).
Proof.
  pose proof (fun s => loop_raises py_float py_str dateparse (read_sheet g) (width g)
                         variable s (read_sheet_regular g)) as R.
  assert (P : forall s e,
             for_each (DE4.loop_body py_float py_str dateparse (read_sheet g) variable s)
                      (enumerate (DE4.block_bounds (read_sheet g))) DE4.init = Raise e ->
             DE4.parse_dirty_dataframe py_float py_str dateparse (read_sheet g) variable s
             = Raise e).
  { intros s e H. unfold DE4.parse_dirty_dataframe. now rewrite H. }
  split; [|split; [|split; [|split]]].
  - intros s H0. apply P. now apply (proj1 (R s)).
  - intros s H0 H1. apply P. now apply (proj1 (proj2 (R s))).
  - intros s H0 H1 H2. apply P. now apply (proj2 (proj2 (R s))).
  - destruct (R true) as (R0 & R1 & R2). split.
    + intros [x Hx].
      destruct (block_ok keyed 0 (read_sheet g)) eqn:H0;
        [|rewrite (P true KeyError (R0 eq_refl)) in Hx; discriminate].
      destruct (block_ok keyed 1 (read_sheet g)) eqn:H1;
        [|rewrite (P true KeyError (R1 eq_refl eq_refl)) in Hx; discriminate].
      destruct (block_ok has_cell 2 (read_sheet g)) eqn:H2;
        [|rewrite (P true IndexError (R2 eq_refl eq_refl eq_refl)) in Hx; discriminate].
      reflexivity.
    + intros H.
      destruct (loop_returns py_float py_str dateparse (read_sheet g) (width g) variable
                  true (read_sheet_regular g)) as [st Hst].
      { unfold well_shaped. now rewrite H. }
      unfold DE4.parse_dirty_dataframe. rewrite Hst, bind_Ok. eexists. reflexivity.
  - clear R P. intros H. unfold block_ok, DE4.blocks, DE4.block_bounds.
    destruct g as [|r g]; [reflexivity|].
    assert (E : exists ns, null_rows (read_sheet (r :: g)) = 0 :: ns).
    { unfold null_rows, read_sheet. cbn [rows List.length seq map combine List.filter snd].
      replace (forallb isnull (pad (width (r :: g)) r)) with true; [cbn [map fst]; eauto|].
      symmetry. unfold pad. rewrite forallb_app, H. cbn [andb].
      generalize (width (r :: g) - List.length r). intros n.
      induction n as [|n IH]; [reflexivity|].
      cbn [repeat forallb]. now rewrite isnull_NaN. }
    destruct E as [ns ->]. reflexivity.
Qed.

(** ** Brandenburg: the records of a block *)

Lemma dict_get_fold (e : list (cell * cell)) :
  forall (d : dict) (k : cell),
    dict_get (dict_update d e) k
    = fold_left (fun acc kv => if key_eqb (fst kv) k then Some (snd kv) else acc)
                e (dict_get d k).
Proof.
  unfold dict_update. induction e as [|[k1 v1] e IH]; intros d k; simpl; [reflexivity|].
  now rewrite IH, dict_get_set.
Qed.

Lemma last_value_some (e : list (cell * cell)) (k : cell) :
  forall acc : option cell,
    is_Some acc ->
    is_Some (fold_left (fun acc kv => if key_eqb (fst kv) k then Some (snd kv) else acc)
                       e acc).
Proof.
  induction e as [|[k1 v1] e IH]; intros acc H; simpl; [exact H|].
  apply IH. destruct (key_eqb k1 k); eauto.
Qed.

Lemma key_eqb_refl (k : cell) : key_eqb k k = true.
Proof. now apply key_eqb_class. Qed.

(** X5: a record of [to_dict(orient='records')] holds every label once, and
    gives a label the cell of its last column of that label: when the key
    column of a block repeats a key, the value of its last row stays. *)
Theorem record_keeps_last_value (t : DataFrame cell) (d : dict) :
  In d (to_dict_records t) ->
  unique_keys d /\
  exists r, In r (rows t) /\
            forall k : cell, dict_get d k = last_value (combine (columns t) (snd r)) k.
Proof.
  unfold to_dict_records. intros H. apply in_map_iff in H as (r & <- & Hr).
  split; [apply unique_keys_zip|]. exists r. split; [exact Hr|].
  intros k. unfold dict_zip. now rewrite dict_get_fold.
Qed.

Lemma record_keeps_last_value_witness :
  In [(Text "a", Number 2)] (to_dict_records repeated_label) /\
  unique_keys [(Text "a", Number 2)].
Proof.
  split; [left; reflexivity|].
  refine (proj1 (record_keeps_last_value repeated_label [(Text "a", Number 2)] _)).
  left. reflexivity.
Defined.

Lemma dropna_cells (b : DataFrame nat) (r : nat * list cell) :
  In r (rows (dropna_rows (dropna_cols b))) ->
  List.length (snd r) = List.length (kept_columns b).
Proof.
  unfold dropna_rows, dropna_cols. cbn [rows columns]. intros H.
  apply filter_In in H as [H _]. apply in_map_iff in H as (r0 & <- & _).
  apply length_select.
Qed.

Lemma coordinates_record_has_crs (b : DataFrame nat) (d : dict) (recs : list dict) :
  DE4.coordinates_records b = Ok (d :: recs) -> is_Some (dict_get d (Text "CRS")).
Proof.
  unfold DE4.coordinates_records. cbv zeta.
  pose proof (dropna_cells b) as Hlen.
  set (y := dropna_rows (dropna_cols b)) in *.
  unfold iloc_set00.
  destruct (columns y) as [|l ls]; [discriminate|].
  destruct (rows y) as [|[i [|c0 cells]] rs] eqn:E; try discriminate.
  rewrite bind_Ok. unfold iloc_row0 at 1. cbn [rows snd]. rewrite bind_Ok.
  unfold drop_first, set_columns. cbn [rows columns fst]. rewrite bind_Ok.
  unfold to_dict_records. cbn [rows columns].
  intros H. injection H as H.
  assert (Hin : In d (d :: recs)) by (now left). rewrite <- H in Hin.
  rewrite Nat.eqb_refl in Hin. cbn [negb] in Hin.
  apply in_map_iff in Hin as (r & <- & Hr). apply filter_In in Hr as [Hr Hne].
  assert (Hl : List.length (snd r) = List.length (c0 :: cells)).
  { rewrite (Hlen r (or_intror Hr)). symmetry. apply (Hlen (i, c0 :: cells)). now left. }
  destruct (snd r) as [|c cs]; [discriminate|].
  unfold dict_zip. rewrite dict_get_fold. cbn [combine fold_left fst snd].
  apply last_value_some. rewrite key_eqb_refl. eauto.
Qed.

(** X6: the first header cell of the coordinates block is replaced by
    ['CRS'] whatever it holds, so that every record of the block has the key
    ['CRS']; and since the coordinates are merged last, the returned
    metadata give that key the value of the coordinates block whenever the
    block yields a record. *)
Theorem coordinates_bring_crs
    (py_float : string -> option float) (py_str : cell -> string)
    (dateparse : string -> option datetime)
    (df : DataFrame nat) (variable : string) (skip_data : bool)
    (meta : option dict) (dat : option Table) (w : list warning) :
  DE4.parse_dirty_dataframe py_float py_str dateparse df variable skip_data
  = Ok (meta, dat, w) ->
  recovered 2 df <> [] ->
  exists (m : dict) (v : cell),
    meta = Some m /\ dict_get m (Text "CRS") = Some v /\
    dict_get (recovered 2 df) (Text "CRS") = Some v.
Proof.
  unfold DE4.parse_dirty_dataframe. intros H Hne.
  apply bind_returns in H as (st & Hst & H).
  apply final_state in Hst as (B & L & C & _).
  rewrite B, L, C in H. injection H as <- _ _.
  assert (Hc : is_Some (dict_get (recovered 2 df) (Text "CRS"))).
  { unfold recovered in *. destruct (nth_error (DE4.blocks df) 2) as [b|]; [|contradiction].
    cbn [Nat.ltb Nat.leb] in *.
    destruct (DE4.coordinates_records b) as [[|d recs]|e] eqn:E; try contradiction.
    now apply (coordinates_record_has_crs b d recs). }
  destruct Hc as [v Hv].
  destruct (dict_update _ (recovered 2 df)) as [|kv m] eqn:E.
  - apply dict_update_nil in E as [_ E]. contradiction.
  - exists (kv :: m), v. split; [reflexivity|]. split; [|exact Hv].
    rewrite <- E, dict_get_update by apply unique_keys_recovered. now rewrite Hv.
Qed.

Lemma coordinates_bring_crs_witness :
  DE4.parse_dirty_dataframe example_float example_str example_dateparse
    (read_sheet (station_sheet (Text geprueft) (Text "x"))) "q" false
  = Ok (Some station_meta,
        Some [("date", [VDate (mkDate 2020 1 1)]); ("q", [VFloat 1.23]);
              ("flag", [VBool false])],
        []) /\
  recovered 2 (read_sheet (station_sheet (Text geprueft) (Text "x"))) <> [] /\
  exists (m : dict) (v : cell),
    Some station_meta = Some m /\ dict_get m (Text "CRS") = Some v /\
    dict_get (recovered 2 (read_sheet (station_sheet (Text geprueft) (Text "x"))))
             (Text "CRS") = Some v.
Proof.
  split; [reflexivity|]. split; [vm_compute; discriminate|].
  refine (coordinates_bring_crs example_float example_str example_dateparse
            (read_sheet (station_sheet (Text geprueft) (Text "x"))) "q" false
            _ _ _ eq_refl _).
  vm_compute. discriminate.
Defined.

(** ** The flags: letter case and white space *)

Lemma lower_char_idem (c : ascii) : lower_char (lower_char c) = lower_char c.
Proof. destruct c as [[] [] [] [] [] [] [] []]; reflexivity. Qed.

Lemma isspace_lower_char (c : ascii) : isspace (lower_char c) = isspace c.
Proof. destruct c as [[] [] [] [] [] [] [] []]; reflexivity. Qed.

Lemma lower_idem (s : string) : lower (lower s) = lower s.
Proof.
  induction s as [|c s IH]; simpl; [reflexivity|]. now rewrite lower_char_idem, IH.
Qed.

Lemma lstrip_lower (s : string) : lstrip (lower s) = lower (lstrip s).
Proof.
  induction s as [|c s IH]; simpl; [reflexivity|].
  rewrite isspace_lower_char. now destruct (isspace c).
Qed.

Lemma rstrip_lower (s : string) : rstrip (lower s) = lower (rstrip s).
Proof.
  induction s as [|c s IH]; simpl; [reflexivity|].
  rewrite IH, isspace_lower_char.
  destruct (rstrip s) as [|c' r]; simpl; [now destruct (isspace c)|reflexivity].
Qed.

Lemma strip_lower (s : string) : strip (lower s) = lower (strip s).
Proof. unfold strip. now rewrite lstrip_lower, rstrip_lower. Qed.

Lemma rstrip_blank (s : string) : blank s = true -> rstrip s = EmptyString.
Proof.
  induction s as [|c s IH]; simpl; [reflexivity|].
  intros H. apply andb_true_iff in H as [Hc Hs]. now rewrite (IH Hs), Hc.
Qed.

Lemma lstrip_blank (s : string) : blank s = true -> lstrip s = EmptyString.
Proof.
  induction s as [|c s IH]; simpl; [reflexivity|].
  intros H. apply andb_true_iff in H as [Hc Hs]. now rewrite Hc, (IH Hs).
Qed.

Lemma append_nil (s : string) : EmptyString +:+ s = s.
Proof. reflexivity. Qed.

Lemma append_cons (c : ascii) (s t : string) : String c s +:+ t = String c (s +:+ t).
Proof. reflexivity. Qed.

Lemma rstrip_app_blank (s post : string) :
  blank post = true -> rstrip (s +:+ post) = rstrip s.
Proof.
  intros H. induction s as [|c s IH].
  - rewrite append_nil. now apply rstrip_blank.
  - rewrite append_cons. cbn [rstrip]. now rewrite IH.
Qed.

Lemma lstrip_blank_app (pre s : string) :
  blank pre = true -> lstrip (pre +:+ s) = lstrip s.
Proof.
  induction pre as [|c pre IH]; [reflexivity|].
  cbn [blank]. intros H. apply andb_true_iff in H as [Hc Hs].
  rewrite append_cons. cbn [lstrip]. now rewrite Hc, (IH Hs).
Qed.

Lemma strip_margin (pre s post : string) :
  blank pre = true -> blank post = true -> strip (pre +:+ s +:+ post) = strip s.
Proof.
  intros Hpre Hpost. unfold strip. rewrite (lstrip_blank_app pre _ Hpre).
  induction s as [|c s IH].
  - rewrite append_nil. now rewrite (lstrip_blank post Hpost).
  - rewrite append_cons. cbn [lstrip]. destruct (isspace c); [exact IH|].
    rewrite <- append_cons. now apply rstrip_app_blank.
Qed.

(** X7: the flag of Brandenburg does not depend on the letter case of the
    cell nor on white space around it, and the flag of Schleswig-Holstein
    does not depend on the letter case; but Schleswig-Holstein does not strip
    the cell, so that one blank after the marker gives [False] there. *)
Theorem flags_ignore_case
    (s pre post : string) :
  DE4.flag_of (Text (lower s)) = DE4.flag_of (Text s) /\
  (blank pre = true -> blank post = true ->
   DE4.flag_of (Text (pre +:+ s +:+ post)) = DE4.flag_of (Text s)) /\
  DEF.flag_of (Text (lower s)) = DEF.flag_of (Text s) /\
  DE4.flag_of (Text (geprueft +:+ " ")) = Ok (VBool true) /\
  DEF.flag_of (Text (qualitaetsgesichert +:+ " ")) = Ok (VBool false).
Proof.
  split; [|split; [|split; [|split]]]; try reflexivity.
  - unfold DE4.flag_of. now rewrite strip_lower, lower_idem.
  - intros Hpre Hpost. unfold DE4.flag_of. now rewrite strip_margin.
  - unfold DEF.flag_of. now rewrite lower_idem.
Qed.

(** ** Brandenburg: the shape of a series *)

Lemma mapM_length {A B : Type} (f : A -> result B) (l : list A) :
  forall l' : list B, mapM f l = Ok l' -> List.length l' = List.length l.
Proof.
  induction l as [|x l IH]; intros l'; simpl.
  - intros H. now injection H as <-.
  - destruct (f x) as [y|e]; [|discriminate]. rewrite bind_Ok.
    destruct (mapM f l) as [ys|e]; [|discriminate]. rewrite bind_Ok.
    intros H. injection H as <-. simpl. now rewrite (IH ys eq_refl).
Qed.

Lemma mapM_forallb {A B : Type} (f : A -> result B) (P : B -> bool) (l : list A) :
  (forall x y, f x = Ok y -> P y = true) ->
  forall l' : list B, mapM f l = Ok l' -> forallb P l' = true.
Proof.
  intros HP. induction l as [|x l IH]; intros l'; simpl.
  - intros H. now injection H as <-.
  - destruct (f x) as [y|e] eqn:E; [|discriminate]. rewrite bind_Ok.
    destruct (mapM f l) as [ys|e]; [|discriminate]. rewrite bind_Ok.
    intros H. injection H as <-. simpl. now rewrite (HP x y E), (IH ys eq_refl).
Qed.

Lemma rectangular_set (n : nat) (t : Table) (k : string) (v : list value) :
  rectangular n t -> List.length v = n -> rectangular n (table_set t k v).
Proof.
  intros Ht Hv. induction Ht as [|[k' v'] t Hk Ht IH]; simpl.
  - repeat constructor. exact Hv.
  - destruct (k' =? k)%string; constructor; auto.
Qed.

Lemma NoDup_labels_filter (P : nat * list cell -> bool) (l : list (nat * list cell)) :
  List.NoDup (map fst l) -> List.NoDup (map fst (List.filter P l)).
Proof.
  induction l as [|r l IH]; simpl; [auto|].
  intros H. apply List.NoDup_cons_iff in H as [Hr Hl].
  destruct (P r); simpl; [|auto]. apply List.NoDup_cons; [|auto].
  intros Hin. apply Hr. apply in_map_iff in Hin as (r' & E & Hin).
  apply filter_In in Hin as [Hin _]. apply in_map_iff. eauto.
Qed.

Lemma drop_label_fresh (k : nat) (l : list (nat * list cell)) :
  ~ In k (map fst l) -> List.filter (fun r' => negb (fst r' =? k)) l = l.
Proof.
  induction l as [|r l IH]; simpl; [reflexivity|].
  intros H. destruct (fst r =? k) eqn:E.
  - apply Nat.eqb_eq in E. exfalso. apply H. now left.
  - simpl. rewrite IH; [reflexivity|]. intros Hin. apply H. now right.
Qed.

(** X8: a series of the data block is rectangular: its columns have one
    record for every row under the header row, dates in [date], floats in
    the column of the variable and booleans in [flag]. There are fewer
    records than rows with a cell, and one less when no index label
    repeats. *)
Theorem series_is_rectangular
    (py_float : string -> option float) (dateparse : string -> option datetime)
    (variable : string) (b : DataFrame nat) (t : Table) :
  DE4.data_block py_float dateparse variable b = Ok t ->
  exists dates vals flags : list value,
    t = table_of_dict [("date", dates); (lower variable, vals); ("flag", flags)] /\
    forallb is_date_value dates = true /\
    forallb is_float_value vals = true /\
    forallb is_bool_value flags = true /\
    rectangular (List.length flags) t /\
    List.length dates = List.length flags /\
    List.length vals = List.length flags /\
    List.length flags < List.length (rows (dropna_rows b)) /\
    (List.NoDup (map fst (rows b)) ->
     S (List.length flags) = List.length (rows (dropna_rows b))).
Proof.
  unfold DE4.data_block. cbv zeta.
  unfold iloc_row0, drop_first, set_columns. cbn [rows columns].
  assert (R : rows (dropna_cols (dropna_rows b))
              = map (fun r => (fst r, select (kept_columns (dropna_rows b)) (snd r) NaN))
                    (rows (dropna_rows b))) by reflexivity.
  destruct (rows (dropna_cols (dropna_rows b))) as [|r rs] eqn:E; [discriminate|].
  rewrite !bind_Ok. cbn [rows columns]. intros H.
  apply bind_returns in H as (c0 & H0 & H).
  apply bind_returns in H as (dates & Hd & H).
  apply bind_returns in H as (c1 & H1 & H).
  apply bind_returns in H as (vals & Hv & H).
  apply bind_returns in H as (c3 & H3 & H).
  apply bind_returns in H as (flags & Hf & H).
  injection H as <-.
  unfold iloc_col in H0, H1, H3. cbn [columns] in H0, H1, H3.
  destruct (0 <? _); [|discriminate]. injection H0 as <-.
  destruct (1 <? _); [|discriminate]. injection H1 as <-.
  destruct (3 <? _); [|discriminate]. injection H3 as <-.
  pose proof (mapM_length _ _ _ Hd) as Ld.
  pose proof (mapM_length _ _ _ Hv) as Lv.
  pose proof (mapM_length _ _ _ Hf) as Lf.
  unfold column_at in Ld, Lv, Lf. cbn [rows] in Ld, Lv, Lf.
  rewrite length_map in Ld, Lv, Lf.
  rewrite Nat.eqb_refl in Ld, Lv, Lf. cbn [negb] in Ld, Lv, Lf.
  exists dates, (VFloat <$> vals), flags.
  split; [reflexivity|].
  split; [revert Hd; apply mapM_forallb; intros [x|s|d] y; simpl;
          [discriminate|intros [= <-]; now destruct (dateparse s)|now intros [= <-]]|].
  split; [clear; induction vals; simpl; auto|].
  split; [revert Hf; apply mapM_forallb; intros [x|s|d] y; simpl;
          [discriminate|now intros [= <-]|discriminate]|].
  split.
  { unfold table_of_dict. cbn [fold_left fst snd].
    repeat apply rectangular_set; try constructor; try congruence.
    rewrite length_fmap. congruence. }
  split; [congruence|]. split; [rewrite length_fmap; congruence|].
  assert (L : List.length (r :: rs) = List.length (rows (dropna_rows b))).
  { rewrite R. now rewrite length_map. }
  split.
  - rewrite Lf, <- L. cbn [length].
    pose proof (filter_length_le (fun r' : nat * list cell => negb (fst r' =? fst r)) rs).
    lia.
  - intros Hn. rewrite Lf, <- L.
    assert (Hn' : List.NoDup (map fst (r :: rs))).
    { rewrite R, map_map. cbn [fst].
      unfold dropna_rows. cbn [rows]. now apply NoDup_labels_filter. }
    cbn [length].
    apply List.NoDup_cons_iff in Hn' as [Hr _]. now rewrite drop_label_fresh.
Qed.

Lemma series_is_rectangular_witness :
  DE4.data_block example_float example_dateparse "q" station_data_block
  = Ok [("date", [VDate (mkDate 2020 1 1)]); ("q", [VFloat 1.23]); ("flag", [VBool false])] /\
  exists dates vals flags : list value,
    [("date", [VDate (mkDate 2020 1 1)]); ("q", [VFloat 1.23]); ("flag", [VBool false])]
    = table_of_dict [("date", dates); (lower "q", vals); ("flag", flags)] /\
    forallb is_date_value dates = true /\
    forallb is_float_value vals = true /\
    forallb is_bool_value flags = true /\
    rectangular (List.length flags)
      [("date", [VDate (mkDate 2020 1 1)]); ("q", [VFloat 1.23]); ("flag", [VBool false])] /\
    List.length dates = List.length flags /\
    List.length vals = List.length flags /\
    List.length flags < List.length (rows (dropna_rows station_data_block)) /\
    (List.NoDup (map fst (rows station_data_block)) ->
     S (List.length flags) = List.length (rows (dropna_rows station_data_block))).
Proof.
  split; [reflexivity|].
  exact (series_is_rectangular example_float example_dateparse "q" station_data_block
           _ eq_refl).
Defined.

(** ** Brandenburg: the stations that are collected and saved *)

Lemma station_has_metadata
    (py_float : string -> option float) (py_str : cell -> string)
    (dateparse : string -> option datetime)
    (vdf : string * DataFrame nat) (m : dict) (d : option Table) :
  station_of py_float py_str dateparse vdf = Some (m, d) ->
  m <> [] /\ (is_Some d -> is_Some (dict_get m (Text "ID"))).
Proof.
  unfold station_of.
  destruct (DE4.parse_dirty_dataframe _ _ _ _ _ _) as [[[[m'|] d'] w]|e] eqn:E;
    try discriminate.
  intros H. injection H as -> ->.
  unfold DE4.parse_dirty_dataframe in E.
  apply bind_returns in E as (st & Hst & E).
  apply final_state in Hst as (B & L & C & _ & _ & D).
  rewrite B, L, C in E. injection E as E Ed _.
  destruct (List.length _ =? 0) eqn:El; [discriminate|]. injection E as <-.
  split.
  - intros Hm. rewrite Hm in El. discriminate.
  - intros Hd. rewrite <- Ed in Hd. apply D in Hd as (_ & [v Hv] & _).
    rewrite !dict_get_update by apply unique_keys_recovered.
    destruct (dict_get (recovered 2 (snd vdf)) (Text "ID")); [eauto|].
    destruct (dict_get (recovered 1 (snd vdf)) (Text "ID")); [eauto|].
    rewrite Hv. eauto.
Qed.

Lemma omap_length_le {A B : Type} (f : A -> option B) (l : list A) :
  List.length (omap f l) <= List.length l.
Proof.
  induction l as [|x l IH]; [reflexivity|].
  change (omap f (x :: l))
    with (match f x with Some y => y :: omap f l | None => omap f l end).
  destruct (f x); simpl; lia.
Qed.

Section Collect.

Variable py_float : string -> option float.
Variable py_str : cell -> string.
Variable dateparse : string -> option datetime.

Abbreviation parse := (DE4.parse_dirty_dataframe py_float py_str dateparse).
Abbreviation station := (station_of py_float py_str dateparse).
Abbreviation sheet_loop := (DE4_cells.collect_sheet py_float py_str dateparse).

Lemma collect_sheet_returns (v : string) (st st' : DE4_cells.collected) (df : DataFrame nat) :
  sheet_loop v st df = Ok st' ->
  returns (parse df v false) /\
  DE4_cells.metadata st'
  = DE4_cells.metadata st ++ map fst (omap station [(v, df)]) /\
  DE4_cells.data st'
  = DE4_cells.data st ++ map snd (omap station [(v, df)]).
Proof.
  unfold DE4_cells.collect_sheet.
  assert (S : omap station [(v, df)]
              = match station (v, df) with Some y => [y] | None => [] end)
    by reflexivity.
  rewrite S. unfold station_of. cbn [fst snd].
  destruct (parse df v false) as [[[[m|] d] w]|e]; rewrite ?bind_Ok, ?bind_Raise;
    cbn [fst snd]; intros H; [| |discriminate]; injection H as <-;
    (split; [eexists; reflexivity|]); cbn [map fst snd DE4_cells.metadata DE4_cells.data];
    rewrite ?app_nil_r; auto.
Qed.

Lemma collect_sheets_returns (v : string) (sheets : list (DataFrame nat)) :
  forall st st' : DE4_cells.collected,
    for_each (sheet_loop v) sheets st = Ok st' ->
    Forall (fun df => returns (parse df v false)) sheets /\
    DE4_cells.metadata st'
    = DE4_cells.metadata st ++ map fst (omap station (map (pair v) sheets)) /\
    DE4_cells.data st'
    = DE4_cells.data st ++ map snd (omap station (map (pair v) sheets)).
Proof.
  induction sheets as [|df sheets IH]; intros st st'; cbn [for_each].
  - intros H. injection H as <-. cbn [map omap]. rewrite !app_nil_r. auto.
  - intros H. apply bind_returns in H as (st1 & H1 & H).
    apply collect_sheet_returns in H1 as (R1 & M1 & D1).
    apply IH in H as (R & M & D). split; [now constructor|].
    rewrite M, D, M1, D1. change (map (pair v) (df :: sheets))
      with ([(v, df)] ++ map (pair v) sheets).
    rewrite omap_app, !map_app, !app_assoc. auto.
Qed.

Lemma collect_sheets_total (v : string) (sheets : list (DataFrame nat)) :
  Forall (fun df => returns (parse df v false)) sheets ->
  forall st : DE4_cells.collected, returns (for_each (sheet_loop v) sheets st).
Proof.
  induction 1 as [|df sheets [[[m d] w] Hdf] _ IH]; intros st; cbn [for_each].
  - eexists. reflexivity.
  - assert (H1 : returns (sheet_loop v st df)).
    { unfold DE4_cells.collect_sheet. rewrite Hdf, bind_Ok. cbn [fst snd].
      destruct m; eexists; reflexivity. }
    destruct H1 as [st1 ->]. rewrite bind_Ok. apply IH.
Qed.

End Collect.

(** X9: when the collecting cell ends, the lists [metadata] and [data] hold
    the stations of the sheets for which the parser returns metadata, in the
    order of the workbooks and their sheets, the series parsed with the
    variable of the workbook. The two lists have the same length, no
    metadata is empty, and a station that has a series has the key ['ID'] in
    its metadata. *)
Theorem stations_collected
    (py_float : string -> option float) (py_str : cell -> string)
    (dateparse : string -> option datetime)
    (q1 q2 w1 w2 : DE4_cells.workbook) (c : DE4_cells.collected) :
  DE4_cells.collect py_float py_str dateparse q1 q2 w1 w2 = Ok c ->
  DE4_cells.metadata c
  = map fst (omap (station_of py_float py_str dateparse) (tagged_sheets q1 q2 w1 w2)) /\
  DE4_cells.data c
  = map snd (omap (station_of py_float py_str dateparse) (tagged_sheets q1 q2 w1 w2)) /\
  List.length (DE4_cells.metadata c) = List.length (DE4_cells.data c) /\
  List.length (DE4_cells.metadata c)
  <= List.length q1 + List.length q2 + List.length w1 + List.length w2 /\
  Forall (fun m => m <> []) (DE4_cells.metadata c) /\
  (forall (m : dict) (t : Table),
      In (m, Some t) (combine (DE4_cells.metadata c) (DE4_cells.data c)) ->
      is_Some (dict_get m (Text "ID"))).
Proof.
  unfold DE4_cells.collect. cbn [combine for_each fst snd]. intros H.
  apply bind_returns in H as (s1 & H1 & H).
  apply bind_returns in H as (s2 & H2 & H).
  apply bind_returns in H as (s3 & H3 & H).
  apply bind_returns in H as (s4 & H4 & H). injection H as <-.
  apply collect_sheets_returns in H1 as (_ & M1 & D1).
  apply collect_sheets_returns in H2 as (_ & M2 & D2).
  apply collect_sheets_returns in H3 as (_ & M3 & D3).
  apply collect_sheets_returns in H4 as (_ & M4 & D4).
  cbn [DE4_cells.metadata DE4_cells.data app] in M1, D1.
  assert (M : DE4_cells.metadata s4
              = map fst (omap (station_of py_float py_str dateparse)
                              (tagged_sheets q1 q2 w1 w2))).
  { rewrite M4, M3, M2, M1. unfold tagged_sheets.
    now rewrite !omap_app, !map_app, <- !app_assoc. }
  assert (D : DE4_cells.data s4
              = map snd (omap (station_of py_float py_str dateparse)
                              (tagged_sheets q1 q2 w1 w2))).
  { rewrite D4, D3, D2, D1. unfold tagged_sheets.
    now rewrite !omap_app, !map_app, <- !app_assoc. }
  split; [exact M|]. split; [exact D|]. rewrite M, D.
  split; [now rewrite !length_map|].
  split.
  { rewrite length_map.
    pose proof (omap_length_le (station_of py_float py_str dateparse)
                  (tagged_sheets q1 q2 w1 w2)) as L.
    unfold tagged_sheets in L at 2. rewrite !length_app, !length_map in L. lia. }
  split.
  - apply Forall_map, Forall_forall. intros [m d] Hin.
    apply (proj1 (list_elem_of_omap _ _ _)) in Hin as (vdf & _ & Hs).
    now apply station_has_metadata in Hs.
  - intros m t Hin.
    assert (Hin' : In (m, Some t)
                      (omap (station_of py_float py_str dateparse)
                            (tagged_sheets q1 q2 w1 w2))).
    { revert Hin. generalize (omap (station_of py_float py_str dateparse)
                                   (tagged_sheets q1 q2 w1 w2)).
      intros l. induction l as [|[m' d'] l IH]; simpl; [auto|].
      intros [E|Hin]; [left; congruence|right; auto]. }
    apply (proj2 (list_elem_of_In _ _)) in Hin'.
    apply (proj1 (list_elem_of_omap _ _ _)) in Hin' as (vdf & _ & Hs).
    apply station_has_metadata in Hs as [_ Hs]. apply Hs. eauto.
Qed.

Lemma stations_collected_witness :
  DE4_cells.collect example_float example_str example_dateparse
    [read_sheet (station_sheet (Text geprueft) (Text "x"))]
    [read_sheet key_without_value]
    [read_sheet location_without_values] []
  = Ok (DE4_cells.mkCollected
          [station_meta;
           [(Text "ID", Number 4711); (Text "CRS", Text "ETRS89");
            (Text "Rechtswert", Number 453000)]]
          [Some [("date", [VDate (mkDate 2020 1 1)]); ("q", [VFloat 1.23]);
                 ("flag", [VBool false])];
           None]) /\
  List.length [station_meta;
               [(Text "ID", Number 4711); (Text "CRS", Text "ETRS89");
                (Text "Rechtswert", Number 453000)]]
  = List.length [Some [("date", [VDate (mkDate 2020 1 1)]); ("q", [VFloat 1.23]);
                       ("flag", [VBool false])];
                 @None Table].
Proof.
  split; [reflexivity|].
  refine (proj1 (proj2 (proj2
    (stations_collected example_float example_str example_dateparse
       [read_sheet (station_sheet (Text geprueft) (Text "x"))]
       [read_sheet key_without_value]
       [read_sheet location_without_values] [] _ eq_refl)))).
Defined.

(** X10: the collecting cell ends without an exception exactly when the
    parser returns on every sheet of the four workbooks, each read with the
    variable of its workbook. *)
Theorem collecting_ends
    (py_float : string -> option float) (py_str : cell -> string)
    (dateparse : string -> option datetime)
    (q1 q2 w1 w2 : DE4_cells.workbook) :
  returns (DE4_cells.collect py_float py_str dateparse q1 q2 w1 w2)
  <-> Forall (fun vdf => returns (DE4.parse_dirty_dataframe py_float py_str dateparse
                                    (snd vdf) (fst vdf) false))
             (tagged_sheets q1 q2 w1 w2).
Proof.
  unfold DE4_cells.collect, tagged_sheets. cbn [combine for_each fst snd].
  rewrite !Forall_app, !Forall_map. cbn [fst snd]. split.
  - intros [c H].
    apply bind_returns in H as (s1 & H1 & H).
    apply bind_returns in H as (s2 & H2 & H).
    apply bind_returns in H as (s3 & H3 & H).
    apply bind_returns in H as (s4 & H4 & H).
    apply collect_sheets_returns in H1 as (R1 & _).
    apply collect_sheets_returns in H2 as (R2 & _).
    apply collect_sheets_returns in H3 as (R3 & _).
    apply collect_sheets_returns in H4 as (R4 & _). auto.
  - intros (R1 & R2 & R3 & R4).
    destruct (collect_sheets_total py_float py_str dateparse "q" q1 R1
                (DE4_cells.mkCollected [] [])) as [s1 ->]. rewrite bind_Ok.
    destruct (collect_sheets_total py_float py_str dateparse "q" q2 R2 s1) as [s2 ->].
    rewrite bind_Ok.
    destruct (collect_sheets_total py_float py_str dateparse "w" w1 R3 s2) as [s3 ->].
    rewrite bind_Ok.
    destruct (collect_sheets_total py_float py_str dateparse "w" w2 R4 s3) as [s4 ->].
    rewrite bind_Ok. eexists. reflexivity.
Qed.

Lemma save_loop (l : list (dict * option Table)) :
  forall saved : list (option Table * cell),
    (DE4_cells.all_have_id (map fst l) = false ->
     for_each DE4_cells.save_station l saved = Raise KeyError) /\
    (DE4_cells.all_have_id (map fst l) = true ->
     exists calls : list (option Table * cell),
       for_each DE4_cells.save_station l saved = Ok (saved ++ calls) /\
       map fst calls = map snd l /\
       Forall2 (fun m c => dict_get m (Text "Messstellennummer") = Some (snd c))
               (map fst l) calls).
Proof.
  induction l as [|[m d] l IH]; intros saved; cbn [map fst snd for_each].
  - split; [discriminate|]. intros _. exists []. rewrite app_nil_r.
    repeat split. constructor.
  - unfold DE4_cells.all_have_id. cbn [forallb].
    assert (B : DE4_cells.save_station saved (m, d)
                = match dict_get m (Text "Messstellennummer") with
                  | Some i => Ok (saved ++ [(d, i)])
                  | None => Raise KeyError
                  end) by reflexivity.
    rewrite B. clear B.
    destruct (dict_get m (Text "Messstellennummer")) as [i|] eqn:E; cbn [andb].
    + rewrite bind_Ok. destruct (IH (saved ++ [(d, i)])) as [IH1 IH2]. split; [exact IH1|].
      intros H. destruct (IH2 H) as (calls & -> & Hf & Hs).
      exists ((d, i) :: calls). rewrite <- app_assoc. split; [reflexivity|].
      split; [simpl; now rewrite Hf|]. constructor; [exact E|exact Hs].
    + rewrite bind_Raise. split; [reflexivity|discriminate].
Qed.

(** X11: the cell that saves reads the provider id of a station from the
    key ['Messstellennummer'] of its metadata. For metadata and series of
    the same number it ends exactly when the check that precedes it holds:
    it then saves every series once, in order, under the station number of
    its metadata, a missing series as well; and when the check fails it
    raises [KeyError]. *)
Theorem saving_needs_station_numbers (ms : list dict) (ds : list (option Table)) :
  List.length ms = List.length ds ->
  (returns (DE4_cells.save_all ms ds) <-> DE4_cells.all_have_id ms = true) /\
  (DE4_cells.all_have_id ms = false -> DE4_cells.save_all ms ds = Raise KeyError) /\
  (forall calls : list (option Table * cell),
      DE4_cells.save_all ms ds = Ok calls ->
      map fst calls = ds /\
      Forall2 (fun m c => dict_get m (Text "Messstellennummer") = Some (snd c)) ms calls).
Proof.
  intros L.
  assert (Hmd : map fst (combine ms ds) = ms /\ map snd (combine ms ds) = ds).
  { revert ds L. induction ms as [|m ms IH]; intros [|d ds] L; simpl in *;
      try discriminate; [auto|].
    destruct (IH ds) as [-> ->]; [lia|auto]. }
  destruct Hmd as [Hm Hd].
  change (DE4_cells.save_all ms ds) with (for_each DE4_cells.save_station (combine ms ds) []).
  destruct (save_loop (combine ms ds) []) as [H1 H2]. rewrite Hm, Hd in *.
  destruct (DE4_cells.all_have_id ms).
  - destruct (H2 eq_refl) as (calls & E & Hf & Hs). cbn [app] in E. rewrite E.
    split; [split; [reflexivity|intros _; eexists; reflexivity]|].
    split; [discriminate|]. intros calls' H. injection H as <-. auto.
  - rewrite (H1 eq_refl). split; [split; [intros [c Hc]; discriminate|discriminate]|].
    split; [reflexivity|discriminate].
Qed.

Lemma saving_needs_station_numbers_witness :
  List.length [station_meta] = List.length [@None Table] /\
  DE4_cells.all_have_id [station_meta] = false /\
  DE4_cells.save_all [station_meta] [None] = Raise KeyError.
Proof.
  split; [reflexivity|]. split; [reflexivity|].
  refine (proj1 (proj2 (saving_needs_station_numbers [station_meta] [None] eq_refl)) eq_refl).
Defined.

(** ** Bayern: what [get_file_from_zip] opens *)

Lemma mapping_keys (names : list string) :
  forall (m : gmap string string) (k f : string),
    fold_left (fun m f => <[DE2.id_only f := f]> m) names m !! k = Some f ->
    m !! k = Some f \/ (In f names /\ DE2.id_only f = k).
Proof.
  induction names as [|n names IH]; intros m k f; simpl; [auto|].
  intros H. apply IH in H as [H|[H1 H2]]; [|auto].
  rewrite lookup_insert in H. case_decide; [|auto].
  injection H as <-. auto.
Qed.

Lemma mapping_defined (names : list string) :
  forall (m : gmap string string) (k : string),
    is_Some (m !! k) \/ (exists f, In f names /\ DE2.id_only f = k) ->
    is_Some (fold_left (fun m f => <[DE2.id_only f := f]> m) names m !! k).
Proof.
  induction names as [|n names IH]; intros m k; simpl.
  - intros [H|(f & [] & _)]. exact H.
  - intros H. apply IH. destruct (decide (DE2.id_only n = k)) as [E|E].
    + left. rewrite lookup_insert. rewrite decide_True by exact E. eauto.
    + destruct H as [H|(f & [->|Hf] & Hk)]; [|contradiction|eauto].
      left. rewrite lookup_insert. now rewrite decide_False by exact E.
Qed.

Lemma zip_open_In (z : DE2.ZipFile) (f c : string) :
  DE2.zip_open z f = Some c -> In (f, c) z.
Proof.
  induction z as [|[n c'] z IH]; simpl; [discriminate|].
  destruct (DE2.zip_open z f) as [c1|].
  - intros H. right. apply IH. exact H.
  - destruct (String.eqb n f) eqn:E; [|discriminate].
    apply String.eqb_eq in E as ->. intros H. injection H as <-. now left.
Qed.

(** The name [get_file_from_zip] looks for among the members. *)
Lemma resolved_name (nr : pyid) (z : DE2.ZipFile) :
  let name := str_of_id nr in
  let fname :=
    if bool_decide (name ∈ DE2.dict_values (DE2.get_filename_mapping z)) then name
    else match DE2.get_filename_mapping z !! name with
         | Some f => f
         | None => name
         end in
  (In fname (DE2.filenames z) /\ (fname = name \/ DE2.id_only fname = name)) \/
  (fname = name /\ forall f, In f (DE2.filenames z) -> f <> name /\ DE2.id_only f <> name).
Proof.
  cbv zeta. case_bool_decide as Hv.
  - left. split; [now apply values_in_filenames|now left].
  - destruct (DE2.get_filename_mapping z !! str_of_id nr) as [f|] eqn:Hk.
    + left. apply mapping_keys in Hk as [Hk|[Hin Hid]]; [now rewrite lookup_empty in Hk|].
      auto.
    + destruct (in_dec string_dec (str_of_id nr) (DE2.filenames z)) as [Hin|Hin];
        [left; auto|].
      right. split; [reflexivity|]. intros f Hf. split; [congruence|].
      intros Hid.
      assert (S : is_Some (DE2.get_filename_mapping z !! str_of_id nr)).
      { apply mapping_defined. right. eauto. }
      rewrite Hk in S. now destruct S.
Qed.

(** X12: [get_file_from_zip] opens a file exactly when the text of the
    identifier is the name of a member or the short id of a member: the
    content it returns is that of such a member. Otherwise the parameter
    [not_exists] alone decides between [FileNotFoundError] and [None]. The
    call raises no other exception, and with a policy other than ['raise']
    it raises none. *)
Theorem get_file_outcomes (nr : pyid) (z : DE2.ZipFile) (p : option string) :
  ((exists f, In f (DE2.filenames z) /\
              (f = str_of_id nr \/ DE2.id_only f = str_of_id nr)) ->
   exists f content,
     In (f, content) z /\ (f = str_of_id nr \/ DE2.id_only f = str_of_id nr) /\
     DE2.get_file_from_zip nr z p = Ok (Some content)) /\
  ((forall f, In f (DE2.filenames z) ->
              f <> str_of_id nr /\ DE2.id_only f <> str_of_id nr) ->
   DE2.get_file_from_zip nr z p
   = if String.eqb (default DE2.not_exists_default p) "raise"
     then Raise FileNotFoundError else Ok None) /\
  (forall e, DE2.get_file_from_zip nr z p = Raise e ->
             e = FileNotFoundError /\ default DE2.not_exists_default p = "raise") /\
  (forall content, DE2.get_file_from_zip nr z p = Ok (Some content) ->
                   exists f, In (f, content) z /\
                             (f = str_of_id nr \/ DE2.id_only f = str_of_id nr)).
Proof.
  pose proof (resolved_name nr z) as R. cbv zeta in R.
  assert (Found : forall fname,
             (if bool_decide (str_of_id nr ∈ DE2.dict_values (DE2.get_filename_mapping z))
              then str_of_id nr
              else match DE2.get_filename_mapping z !! str_of_id nr with
                   | Some f => f
                   | None => str_of_id nr
                   end) = fname ->
             In fname (DE2.filenames z) ->
             exists content, In (fname, content) z /\
                             DE2.get_file_from_zip nr z p = Ok (Some content)).
  { intros fname E Hin. destruct (get_file_found nr z p fname Hin E) as (c & Hc & Hg).
    exists c. split; [now apply zip_open_In|exact Hg]. }
  assert (Missing :
            (forall f, In f (DE2.filenames z) ->
                       f <> str_of_id nr /\ DE2.id_only f <> str_of_id nr) ->
            DE2.get_file_from_zip nr z p
            = if String.eqb (default DE2.not_exists_default p) "raise"
              then Raise FileNotFoundError else Ok None).
  { intros Hno. destruct R as [[Hin Hor]|[E _]].
    - exfalso. destruct (Hno _ Hin) as [H1 H2]. destruct Hor; contradiction.
    - unfold DE2.get_file_from_zip. cbv zeta. rewrite E.
      rewrite bool_decide_eq_false_2; [reflexivity|].
      intros H. apply list_elem_of_In in H. now apply Hno in H as [H _]. }
  split; [|split; [exact Missing|split]].
  - intros (f & Hf & Hn). destruct R as [[Hin Hor]|[_ Hno]].
    + destruct (Found _ eq_refl Hin) as (c & Hc & Hg). eauto.
    + exfalso. destruct (Hno f Hf) as [H1 H2]. destruct Hn; contradiction.
  - intros e He. destruct R as [[Hin Hor]|[_ Hno]].
    + destruct (Found _ eq_refl Hin) as (c & Hc & Hg). congruence.
    + rewrite (Missing Hno) in He.
      destruct (String.eqb _ "raise") eqn:Ep; [|discriminate].
      injection He as <-. now apply String.eqb_eq in Ep.
  - intros c Hc. destruct R as [[Hin Hor]|[_ Hno]].
    + destruct (Found _ eq_refl Hin) as (c' & Hc' & Hg).
      rewrite Hg in Hc. injection Hc as <-. eauto.
    + rewrite (Missing Hno) in Hc. destruct (String.eqb _ "raise"); discriminate.
Qed.

(** ** Bayern: archives whose members have distinct short ids *)

Lemma split_hd_free (sep : ascii) (s : string) :
  contains_char sep (hd EmptyString (split sep s)) = false.
Proof.
  induction s as [|c s IH]; [reflexivity|]. cbn [split].
  destruct (Ascii.eqb c sep) eqn:E; [reflexivity|].
  destruct (split sep s) as [|w ws]; cbn [hd contains_char] in *;
    rewrite Ascii.eqb_sym, E; [reflexivity|exact IH].
Qed.

Lemma split_last_free (sep : ascii) (s : string) :
  contains_char sep (List.last (split sep s) EmptyString) = false.
Proof.
  induction s as [|c s IH]; [reflexivity|]. cbn [split].
  destruct (Ascii.eqb c sep) eqn:E.
  - destruct (split sep s) as [|w ws] eqn:Es; [reflexivity|exact IH].
  - destruct (split sep s) as [|w ws] eqn:Es.
    + cbn [List.last contains_char]. now rewrite Ascii.eqb_sym, E.
    + destruct ws as [|w' ws']; [|exact IH].
      cbn [List.last contains_char] in *. now rewrite Ascii.eqb_sym, E, IH.
Qed.

Lemma split_hd_keeps (c sep : ascii) (s : string) :
  contains_char c s = false -> contains_char c (hd EmptyString (split sep s)) = false.
Proof.
  induction s as [|d s IH]; [reflexivity|]. cbn [split contains_char].
  intros H. apply orb_false_iff in H as [H1 H2].
  destruct (Ascii.eqb d sep); [reflexivity|].
  destruct (split sep s) as [|w ws]; cbn [hd contains_char] in *;
    rewrite H1; [reflexivity|now apply IH].
Qed.

Lemma split_free (sep : ascii) (s : string) :
  contains_char sep s = false -> split sep s = [s].
Proof.
  induction s as [|c s IH]; [reflexivity|]. cbn [split contains_char].
  intros H. apply orb_false_iff in H as [H1 H2].
  rewrite Ascii.eqb_sym, H1, (IH H2). reflexivity.
Qed.

Lemma id_only_free (f : string) :
  contains_char "." (DE2.id_only f) = false /\ contains_char "/" (DE2.id_only f) = false.
Proof.
  unfold DE2.id_only, DE2.basename. split; [apply split_hd_free|].
  apply split_hd_keeps, split_last_free.
Qed.

Lemma id_only_idem (f : string) : DE2.id_only (DE2.id_only f) = DE2.id_only f.
Proof.
  destruct (id_only_free f) as [H1 H2]. revert H1 H2.
  generalize (DE2.id_only f). intros i H1 H2.
  unfold DE2.id_only, DE2.basename. rewrite (split_free _ _ H2). cbn [List.last].
  now rewrite (split_free _ _ H1).
Qed.

Lemma NoDup_map_eq {A B : Type} (g : A -> B) (l : list A) (a b : A) :
  List.NoDup (map g l) -> In a l -> In b l -> g a = g b -> a = b.
Proof.
  induction l as [|x l IH]; simpl; [contradiction|].
  intros H. apply List.NoDup_cons_iff in H as [Hx Hl].
  intros [->|Ha] [->|Hb] E; auto.
  - exfalso. apply Hx. rewrite E. now apply in_map.
  - exfalso. apply Hx. rewrite <- E. now apply in_map.
Qed.

Lemma mapping_of_member (z : DE2.ZipFile) (f : string) :
  List.NoDup (map DE2.id_only (DE2.filenames z)) ->
  In f (DE2.filenames z) ->
  DE2.get_filename_mapping z !! DE2.id_only f = Some f.
Proof.
  intros Hn Hf.
  destruct (mapping_defined (DE2.filenames z) ∅ (DE2.id_only f)) as [g Hg]; [right; eauto|].
  fold (DE2.get_filename_mapping z) in Hg. rewrite Hg. f_equal.
  apply mapping_keys in Hg as [Hg|[Hin Hid]]; [now rewrite lookup_empty in Hg|].
  exact (NoDup_map_eq DE2.id_only _ g f Hn Hin Hf Hid).
Qed.

Lemma member_content (z : DE2.ZipFile) (f c c' : string) :
  List.NoDup (DE2.filenames z) -> In (f, c) z -> In (f, c') z -> c = c'.
Proof.
  intros Hn H1 H2.
  pose proof (NoDup_map_eq fst z (f, c) (f, c') Hn H1 H2 eq_refl) as E. congruence.
Qed.

(** X13: in an archive whose members have pairwise distinct short ids, the
    index maps the short id of every member to that member, and
    [get_file_from_zip] returns the content of a member both for its file
    name and for its short id. *)
Theorem distinct_ids_round_trip (z : DE2.ZipFile) (p : option string) (f c : string) :
  List.NoDup (map DE2.id_only (DE2.filenames z)) ->
  In (f, c) z ->
  DE2.get_filename_mapping z !! DE2.id_only f = Some f /\
  DE2.get_file_from_zip (StrId f) z p = Ok (Some c) /\
  DE2.get_file_from_zip (StrId (DE2.id_only f)) z p = Ok (Some c).
Proof.
  intros Hn Hin.
  assert (Hf : In f (DE2.filenames z)) by (apply in_map_iff; exists (f, c); auto).
  assert (Hnames : List.NoDup (DE2.filenames z)) by (now apply NoDup_map_inv in Hn).
  pose proof (mapping_of_member z f Hn Hf) as Hm.
  assert (Opens : forall nr, 
             (if bool_decide (str_of_id nr ∈ DE2.dict_values (DE2.get_filename_mapping z))
              then str_of_id nr
              else match DE2.get_filename_mapping z !! str_of_id nr with
                   | Some f' => f'
                   | None => str_of_id nr
                   end) = f ->
             DE2.get_file_from_zip nr z p = Ok (Some c)).
  { intros nr E. destruct (get_file_found nr z p f Hf E) as (c' & Hc & ->).
    apply zip_open_In in Hc. now rewrite (member_content z f c c' Hnames Hin Hc). }
  split; [exact Hm|]. split.
  - apply Opens. cbn [str_of_id]. rewrite bool_decide_eq_true_2; [reflexivity|].
    unfold DE2.dict_values. apply list_elem_of_fmap. exists (DE2.id_only f, f).
    split; [reflexivity|]. now apply elem_of_map_to_list.
  - apply Opens. cbn [str_of_id]. case_bool_decide as Hv; [|now rewrite Hm].
    apply values_in_filenames in Hv.
    apply (NoDup_map_eq DE2.id_only _ _ _ Hn Hv Hf). apply id_only_idem.
Qed.

Lemma distinct_ids_round_trip_witness :
  List.NoDup (map DE2.id_only (DE2.filenames example_zip)) /\
  In ("Abfluss/16005701.txt", "b") example_zip /\
  DE2.get_file_from_zip (StrId (DE2.id_only "Abfluss/16005701.txt")) example_zip None
  = Ok (Some "b").
Proof.
  assert (Hn : List.NoDup (map DE2.id_only (DE2.filenames example_zip))).
  { vm_compute. constructor; [intros [H|[]]; discriminate H|].
    constructor; [intros []|constructor]. }
  split; [exact Hn|]. split; [right; left; reflexivity|].
  refine (proj2 (proj2 (distinct_ids_round_trip example_zip None
                          "Abfluss/16005701.txt" "b" Hn _))).
  right. left. reflexivity.
Defined.

(** ** Bayern: identifier resolution, by the members of the archive *)

Lemma split_not_nil (sep : ascii) (s : string) : split sep s <> [].
Proof.
  destruct s as [|c s]; cbn [split]; [discriminate|].
  destruct (Ascii.eqb c sep); [discriminate|]. destruct (split sep s); discriminate.
Qed.

Lemma split_app (sep : ascii) (a b : string) :
  split sep (a +:+ String sep b) = split sep a ++ split sep b.
Proof.
  induction a as [|c a IH].
  - rewrite append_nil. cbn [split]. now rewrite Ascii.eqb_refl.
  - rewrite append_cons. cbn [split]. rewrite IH.
    destruct (Ascii.eqb c sep); [reflexivity|].
    pose proof (split_not_nil sep a) as Hn.
    destruct (split sep a) as [|w ws]; [contradiction|reflexivity].
Qed.

Lemma contains_char_app (c : ascii) (a b : string) :
  contains_char c (a +:+ b) = contains_char c a || contains_char c b.
Proof.
  induction a as [|d a IH]; [now rewrite append_nil|].
  rewrite append_cons. cbn [contains_char]. now rewrite IH, orb_assoc.
Qed.

Lemma last_app_not_nil {A : Type} (l l' : list A) (d : A) :
  l' <> [] -> List.last (l ++ l') d = List.last l' d.
Proof.
  intros H. induction l as [|x l IH]; [reflexivity|].
  cbn [app List.last]. rewrite IH.
  destruct (l ++ l') as [|y t] eqn:E; [|reflexivity].
  apply app_eq_nil in E as [_ E]. contradiction.
Qed.

Lemma basename_of_path (dir rest : string) :
  contains_char "/" rest = false -> DE2.basename (dir +:+ String "/" rest) = rest.
Proof.
  intros H. unfold DE2.basename.
  rewrite split_app, last_app_not_nil by apply split_not_nil.
  now rewrite (split_free _ _ H).
Qed.

Lemma basename_free (s : string) : contains_char "/" s = false -> DE2.basename s = s.
Proof. intros H. unfold DE2.basename. now rewrite (split_free _ _ H). Qed.

Lemma hd_split_ext (k ext : string) :
  contains_char "." k = false ->
  hd EmptyString (split "." (k +:+ String "." ext)) = k.
Proof. intros H. now rewrite split_app, (split_free _ _ H). Qed.

(** The short id of a file name: the name without its folders and without
    what follows the first dot. *)
Lemma id_only_of_name (dir k ext : string) :
  contains_char "/" k = false -> contains_char "." k = false ->
  contains_char "/" ext = false ->
  DE2.id_only k = k /\
  DE2.id_only (k +:+ "." +:+ ext) = k /\
  DE2.id_only (dir +:+ "/" +:+ k) = k /\
  DE2.id_only (dir +:+ "/" +:+ k +:+ "." +:+ ext) = k.
Proof.
  intros Hs Hd He.
  assert (Hr : contains_char "/" (k +:+ String "." ext) = false).
  { rewrite contains_char_app, Hs. cbn [contains_char orb]. exact He. }
  change (k +:+ "." +:+ ext) with (k +:+ String "." ext).
  change (dir +:+ "/" +:+ k) with (dir +:+ String "/" k).
  change (dir +:+ "/" +:+ k +:+ String "." ext)
    with (dir +:+ String "/" (k +:+ String "." ext)).
  unfold DE2.id_only.
  rewrite (basename_free _ Hs), (basename_free _ Hr),
    (basename_of_path dir _ Hs), (basename_of_path dir _ Hr).
  rewrite (split_free _ _ Hd), (hd_split_ext k ext Hd). auto.
Qed.

Lemma member_found (nr : pyid) (z : DE2.ZipFile) (p : option string) (f : string) :
  In f (DE2.filenames z) ->
  f = str_of_id nr \/ DE2.id_only f = str_of_id nr ->
  exists f' content,
    In (f', content) z /\
    (f' = str_of_id nr \/ DE2.id_only f' = str_of_id nr) /\
    DE2.get_file_from_zip nr z p = Ok (Some content).
Proof.
  intros Hf Hn. destruct (resolved_name nr z) as [[Hin Hor]|[_ Hno]].
  - destruct (get_file_found nr z p _ Hin eq_refl) as (c & Hc & Hg).
    apply zip_open_In in Hc. eauto.
  - exfalso. destruct (Hno f Hf) as [H1 H2]. destruct Hn; contradiction.
Qed.

Lemma member_missing (nr : pyid) (z : DE2.ZipFile) (p : option string) :
  (forall f, In f (DE2.filenames z) ->
             f <> str_of_id nr /\ DE2.id_only f <> str_of_id nr) ->
  DE2.get_file_from_zip nr z p
  = if String.eqb (default DE2.not_exists_default p) "raise"
    then Raise FileNotFoundError else Ok None.
Proof.
  intros Hno. destruct (resolved_name nr z) as [[Hin Hor]|[E _]].
  - exfalso. destruct (Hno _ Hin) as [H1 H2]. destruct Hor; contradiction.
  - unfold DE2.get_file_from_zip. cbv zeta. rewrite E.
    rewrite bool_decide_eq_false_2; [reflexivity|].
    intros H. apply list_elem_of_In in H. now apply Hno in H as [H _].
Qed.

Lemma member_opened (nr : pyid) (z : DE2.ZipFile) (p : option string) (f c : string) :
  List.NoDup (map DE2.id_only (DE2.filenames z)) ->
  In (f, c) z ->
  f = str_of_id nr \/ DE2.id_only f = str_of_id nr ->
  DE2.get_file_from_zip nr z p = Ok (Some c).
Proof.
  intros Hn Hin Hor.
  assert (Hf : In f (DE2.filenames z)) by (apply in_map_iff; exists (f, c); auto).
  assert (Hnames : List.NoDup (DE2.filenames z)) by (now apply NoDup_map_inv in Hn).
  destruct (member_found nr z p f Hf Hor) as (f' & c' & Hin' & Hor' & ->).
  assert (Hf' : In f' (DE2.filenames z)) by (apply in_map_iff; exists (f', c'); auto).
  assert (E : f' = f).
  { apply (NoDup_map_eq DE2.id_only _ _ _ Hn Hf' Hf).
    destruct Hor as [Hor|Hor], Hor' as [Hor'|Hor'].
    - now rewrite Hor, Hor'.
    - rewrite Hor. rewrite <- Hor'. symmetry. apply id_only_idem.
    - rewrite Hor'. rewrite <- Hor. apply id_only_idem.
    - congruence. }
  subst f'. now rewrite (member_content z f c c' Hnames Hin Hin').
Qed.

(** C9: [get_file_from_zip] turns the identifier into its text first, so an
    integer and its decimal text resolve alike. The index is keyed by the
    short id of a member, its file name without the folders and without what
    follows the first dot, so that a name is indexed with or without an
    extension. A text that is the name or the short id of a member opens
    such a member and returns its content; a text that is a value of the
    index opens the member of that name, and otherwise a text that is a key
    opens the member the index gives; where the short ids of the members are
    pairwise distinct the content is that of the very member. When the text
    is neither the name nor the short id of a member, the parameter
    [not_exists] decides: left out it is ['raise'], which raises
    [FileNotFoundError]; any other policy returns [None], and
    [extract_file] then returns the empty table with the columns [date], the
    variable and [flag]. *)
Theorem identifier_resolution
    (py_float : string -> option float) (py_str : cell -> string)
    (strptime : string -> option datetime)
    (read_csv : DE2.csv_call -> string -> result (DataFrame nat))
    (z : DE2.ZipFile) (variable : string) :
  (forall (n : Z) (p : option string),
      DE2.get_file_from_zip (IntId n) z p = DE2.get_file_from_zip (StrId (pretty n)) z p) /\
  (forall dir k ext : string,
      contains_char "/" k = false -> contains_char "." k = false ->
      contains_char "/" ext = false ->
      DE2.id_only k = k /\
      DE2.id_only (k +:+ "." +:+ ext) = k /\
      DE2.id_only (dir +:+ "/" +:+ k) = k /\
      DE2.id_only (dir +:+ "/" +:+ k +:+ "." +:+ ext) = k) /\
  (forall (nr : pyid) (p : option string) (f : string),
      In f (DE2.filenames z) ->
      f = str_of_id nr \/ DE2.id_only f = str_of_id nr ->
      exists f' content,
        In (f', content) z /\
        (f' = str_of_id nr \/ DE2.id_only f' = str_of_id nr) /\
        DE2.get_file_from_zip nr z p = Ok (Some content)) /\
  (forall (nr : pyid) (p : option string) (f c : string),
      List.NoDup (map DE2.id_only (DE2.filenames z)) ->
      In (f, c) z ->
      f = str_of_id nr \/ DE2.id_only f = str_of_id nr ->
      DE2.get_file_from_zip nr z p = Ok (Some c)) /\
  (forall (nr : pyid) (p : option string),
      str_of_id nr ∈ DE2.dict_values (DE2.get_filename_mapping z) ->
      exists content,
        DE2.zip_open z (str_of_id nr) = Some content /\
        DE2.get_file_from_zip nr z p = Ok (Some content)) /\
  (forall (nr : pyid) (p : option string) (f : string),
      str_of_id nr ∉ DE2.dict_values (DE2.get_filename_mapping z) ->
      DE2.get_filename_mapping z !! str_of_id nr = Some f ->
      exists content,
        DE2.zip_open z f = Some content /\
        DE2.get_file_from_zip nr z p = Ok (Some content)) /\
  (forall nr : pyid,
      (forall f, In f (DE2.filenames z) ->
                 f <> str_of_id nr /\ DE2.id_only f <> str_of_id nr) ->
      DE2.get_file_from_zip nr z None = Raise FileNotFoundError /\
      DE2.get_file_from_zip nr z (Some "raise") = Raise FileNotFoundError /\
      forall policy : string,
        policy <> "raise" ->
        DE2.get_file_from_zip nr z (Some policy) = Ok None /\
        DE2.extract_file py_float py_str strptime read_csv nr variable z (Some policy)
        = Ok (empty_table ["date"; lower variable; "flag"], [])).
Proof.
  split; [reflexivity|]. split; [exact id_only_of_name|].
  split; [intros nr p f; apply member_found|].
  split; [intros nr p f c; apply member_opened|].
  split; [|split].
  - intros nr p H. apply (get_file_found nr z p).
    + now apply values_in_filenames.
    + now rewrite bool_decide_eq_true_2.
  - intros nr p f Hv Hk. apply (get_file_found nr z p).
    + now apply mapping_in_filenames in Hk.
    + now rewrite bool_decide_eq_false_2, Hk.
  - intros nr Hno.
    split; [now rewrite (member_missing nr z None Hno)|].
    split; [now rewrite (member_missing nr z (Some "raise") Hno)|].
    intros policy Hp.
    assert (E' : DE2.get_file_from_zip nr z (Some policy) = Ok None).
    { rewrite (member_missing nr z (Some policy) Hno).
      change (default DE2.not_exists_default (Some policy)) with policy.
      now apply String.eqb_neq in Hp as ->. }
    split; [exact E'|]. unfold DE2.extract_file. now rewrite E'.
Qed.

Lemma identifier_resolution_witness :
  In ("Abfluss/14106504.txt", "a") example_zip /\
  DE2.id_only "Abfluss/14106504.txt" = str_of_id (IntId 14106504) /\
  DE2.get_file_from_zip (IntId 14106504) example_zip None = Ok (Some "a").
Proof.
  split; [left; reflexivity|]. split; [reflexivity|].
  refine (proj1 (proj2 (proj2 (proj2
            (identifier_resolution example_float example_str example_strptime
               example_read_csv example_zip "q"))))
          (IntId 14106504) None "Abfluss/14106504.txt" "a" _ _ _).
  - vm_compute. constructor; [intros [H|[]]; discriminate H|].
    constructor; [intros []|constructor].
  - left. reflexivity.
  - right. reflexivity.
Defined.

(** ** Bayern: the table of [extract_file] *)

Lemma table_get_set_other (t : Table) (k k' : string) (v : list value) :
  k <> k' -> table_get (table_set t k v) k' = table_get t k'.
Proof.
  intros H. induction t as [|[k1 v1] t IH]; simpl.
  - apply String.eqb_neq in H. now rewrite H.
  - destruct (k1 =? k)%string eqn:E; simpl; [|now rewrite IH].
    apply String.eqb_eq in E as ->. apply String.eqb_neq in H. now rewrite H.
Qed.

Lemma fmap_const_repeat {A B : Type} (b : B) (l : list A) :
  (fun _ => b) <$> l = repeat b (List.length l).
Proof. induction l as [|x l IH]; simpl; [reflexivity|]. now f_equal. Qed.

Lemma read_raw_warnings (py_float : string -> option float)
    (read_csv : DE2.csv_call -> string -> result (DataFrame nat))
    (nr : pyid) (content : string) (raw : DataFrame DE2.label) (ws : list warning) :
  DE2.read_raw py_float read_csv nr content = Ok (raw, ws) -> List.length ws <= 1.
Proof.
  unfold DE2.read_raw. destruct (read_csv DE2.Strict content) as [raw0|e].
  - intros H. injection H as _ <-. simpl. lia.
  - destruct e; try discriminate.
    destruct (mapM _ _) as [flags|e]; rewrite ?bind_Ok, ?bind_Raise; [|discriminate].
    cbv zeta. destruct (read_csv DE2.Buffered _); intros H; injection H as _ <-; simpl; lia.
Qed.

Lemma rename_columns_rows {L : Type} (names : list string) (df : DataFrame L)
    (df' : DataFrame DE2.label) :
  DE2.rename_columns names df = Ok df' ->
  rows df' = rows df /\ List.length (columns df) = List.length names.
Proof.
  unfold DE2.rename_columns. destruct (_ =? _) eqn:E; [|discriminate].
  intros H. injection H as <-. apply Nat.eqb_eq in E. auto.
Qed.

Lemma mapM_Forall2 {A B : Type} (f : A -> result B) (l : list A) :
  forall l' : list B, mapM f l = Ok l' -> Forall2 (fun x y => f x = Ok y) l l'.
Proof.
  induction l as [|x l IH]; intros l'; simpl.
  - intros H. injection H as <-. constructor.
  - destruct (f x) as [y|e] eqn:E; [|discriminate]. rewrite bind_Ok.
    destruct (mapM f l) as [ys|e]; [|discriminate]. rewrite bind_Ok.
    intros H. injection H as <-. constructor; [exact E|now apply IH].
Qed.

(** X14: a table of [extract_file] is the table without records when the
    station has no file, and is otherwise built from the frame that was read:
    it has one record for every row of that frame, its column [flag] holds
    [None] only, the column of the variable holds the cells of column 1 as
    they were read, and the column [date] holds, for every cell of column 0,
    the date that [strptime] reads from the first eight characters of its
    text. The warnings are those of the read, followed by the warning of the
    three columns exactly when the frame has three columns; it has three
    columns or four. *)
Theorem extracted_table_shape
    (py_float : string -> option float) (py_str : cell -> string)
    (strptime : string -> option datetime)
    (read_csv : DE2.csv_call -> string -> result (DataFrame nat))
    (nr : pyid) (variable : string) (z : DE2.ZipFile) (p : option string)
    (t : Table) (w : list warning) :
  DE2.extract_file py_float py_str strptime read_csv nr variable z p = Ok (t, w) ->
  (DE2.get_file_from_zip nr z p = Ok None /\
   t = empty_table ["date"; lower variable; "flag"] /\ w = []) \/
  exists (content : string) (raw : DataFrame DE2.label) (ws : list warning)
         (dates : list value),
    DE2.get_file_from_zip nr z p = Ok (Some content) /\
    DE2.read_raw py_float read_csv nr content = Ok (raw, ws) /\
    List.length ws <= 1 /\
    (List.length (columns raw) = 3 /\ w = ws ++ [ThreeColumns (str_of_id nr)] \/
     List.length (columns raw) = 4 /\ w = ws) /\
    Forall2 (fun c d => exists dt, strptime (prefix 8 (py_str c)) = Some dt /\
                                   d = VDateTime dt)
            (column_at 0 raw) dates /\
    t = table_of_dict [("date", dates); (lower variable, VCell <$> column_at 1 raw);
                       ("flag", repeat VNone (List.length (rows raw)))] /\
    rectangular (List.length (rows raw)) t /\
    table_get t "flag" = Some (repeat VNone (List.length (rows raw))) /\
    (lower variable <> "flag" ->
     table_get t (lower variable) = Some (VCell <$> column_at 1 raw)) /\
    (lower variable <> "date" -> table_get t "date" = Some dates) /\
    (lower variable <> "date" -> lower variable <> "flag" ->
     column_names t = ["date"; lower variable; "flag"]).
Proof.
  unfold DE2.extract_file. intros H.
  apply bind_returns in H as ([content|] & Hg & H);
    [|injection H as <- <-; left; auto].
  right.
  apply bind_returns in H as ([raw ws] & Hr & H). cbn [fst snd] in H.
  apply bind_returns in H as ([raw' w'] & Hn & H). cbn [fst snd] in H.
  apply bind_returns in H as (dates & Hd & H). injection H as <- <-.
  assert (Hrows : rows raw' = rows raw /\
                  (List.length (columns raw) = 3 /\ w' = ws ++ [ThreeColumns (str_of_id nr)] \/
                   List.length (columns raw) = 4 /\ w' = ws)).
  { destruct (List.length (columns raw) =? 3) eqn:E3;
      apply bind_returns in Hn as (r & Hren & Hn); injection Hn as <- <-;
      apply rename_columns_rows in Hren as [Hrows Hlen]; split; auto. }
  destruct Hrows as [Hrows Hcols].
  assert (C : forall j, column_at j raw' = column_at j raw)
    by (intros j; unfold column_at; now rewrite Hrows).
  rewrite !C in *. clear C.
  pose proof (mapM_length _ _ _ Hd) as Ld.
  unfold column_at in Ld. rewrite length_map in Ld.
  rewrite fmap_const_repeat.
  replace (List.length (column_at 2 raw)) with (List.length (rows raw))
    by (unfold column_at; now rewrite length_map).
  exists content, raw, ws, dates.
  split; [exact Hg|]. split; [exact Hr|].
  split; [exact (read_raw_warnings _ _ _ _ _ _ Hr)|]. split; [exact Hcols|].
  split.
  { apply mapM_Forall2 in Hd. eapply Forall2_impl; [exact Hd|]. intros c d.
    unfold DE2.timestamp_date. destruct (strptime _) as [dt|]; [|discriminate].
    intros [= <-]. eauto. }
  split; [reflexivity|].
  unfold table_of_dict. cbn [fold_left fst snd].
  split; [|split; [|split; [|split]]].
  - repeat apply rectangular_set; try constructor; try exact Ld.
    + unfold column_at. now rewrite length_fmap, length_map.
    + apply repeat_length.
  - apply table_get_set.
  - intros Hv. rewrite table_get_set_other by (apply not_eq_sym; exact Hv).
    apply table_get_set.
  - intros Hv. rewrite table_get_set_other by discriminate.
    rewrite table_get_set_other by exact Hv. reflexivity.
  - intros H1 H2. cbn [table_set].
    apply not_eq_sym in H1. apply String.eqb_neq in H1, H2. rewrite H1.
    cbn [table_set]. rewrite H2.
    replace ("date" =? "flag")%string with false by reflexivity. reflexivity.
Qed.

Lemma extracted_table_shape_witness :
  DE2.extract_file example_float example_str example_strptime example_read_csv
    (IntId 1) "W" [("W/1.txt", negative_level)] None
  = Ok ([("date", [VDateTime new_year_2020]); ("w", [VCell (Text "5")]); ("flag", [VNone])],
        [FaultyRows "1" [9]]) /\
  ((DE2.get_file_from_zip (IntId 1) [("W/1.txt", negative_level)] None = Ok None /\
    [("date", [VDateTime new_year_2020]); ("w", [VCell (Text "5")]); ("flag", [VNone])]
    = empty_table ["date"; lower "W"; "flag"] /\
    [FaultyRows "1" [9]] = []) \/
   exists (content : string) (raw : DataFrame DE2.label) (ws : list warning)
          (dates : list value),
     DE2.get_file_from_zip (IntId 1) [("W/1.txt", negative_level)] None = Ok (Some content) /\
     DE2.read_raw example_float example_read_csv (IntId 1) content = Ok (raw, ws) /\
     List.length ws <= 1 /\
     (List.length (columns raw) = 3 /\ [FaultyRows "1" [9]] = ws ++ [ThreeColumns "1"] \/
      List.length (columns raw) = 4 /\ [FaultyRows "1" [9]] = ws) /\
     Forall2 (fun c d => exists dt, example_strptime (prefix 8 (example_str c)) = Some dt /\
                                    d = VDateTime dt)
             (column_at 0 raw) dates /\
     [("date", [VDateTime new_year_2020]); ("w", [VCell (Text "5")]); ("flag", [VNone])]
     = table_of_dict [("date", dates); (lower "W", VCell <$> column_at 1 raw);
                      ("flag", repeat VNone (List.length (rows raw)))]).
Proof.
  split; [reflexivity|].
  destruct (extracted_table_shape example_float example_str example_strptime
              example_read_csv (IntId 1) "W" [("W/1.txt", negative_level)] None
              _ _ eq_refl)
    as [H|(content & raw & ws & dates & H1 & H2 & H3 & H4 & H5 & H6 & _)].
  - left. exact H.
  - right. exists content, raw, ws, dates. auto 10.
Defined.

Section Columns.

Variable py_float : string -> option float.
Variable py_str : cell -> string.
Variable strptime : string -> option datetime.
Variable read_csv : DE2.csv_call -> string -> result (DataFrame nat).

Lemma read_raw_strict (nr : pyid) (content : string) (raw : DataFrame nat) :
  read_csv DE2.Strict content = Ok raw ->
  DE2.read_raw py_float read_csv nr content = Ok (DE2.relabel DE2.Pos raw, []).
Proof. unfold DE2.read_raw. now intros ->. Qed.

End Columns.

(** X15: when the strict parse of the file succeeds, the number of columns
    decides: three columns give the one warning that [releaselevel] is
    assumed to be missing, four columns give no warning, and any other
    number raises [ValueError] when the columns are named. With three or
    four columns the call returns exactly when [strptime] reads the first
    eight characters of every timestamp. *)
Theorem strict_parse_column_count
    (py_float : string -> option float) (py_str : cell -> string)
    (strptime : string -> option datetime)
    (read_csv : DE2.csv_call -> string -> result (DataFrame nat))
    (nr : pyid) (variable : string) (z : DE2.ZipFile) (p : option string)
    (content : string) (raw : DataFrame nat) :
  DE2.get_file_from_zip nr z p = Ok (Some content) ->
  read_csv DE2.Strict content = Ok raw ->
  (List.length (columns raw) = 3 ->
   forall t w, DE2.extract_file py_float py_str strptime read_csv nr variable z p = Ok (t, w) ->
               w = [ThreeColumns (str_of_id nr)]) /\
  (List.length (columns raw) = 4 ->
   forall t w, DE2.extract_file py_float py_str strptime read_csv nr variable z p = Ok (t, w) ->
               w = []) /\
  (List.length (columns raw) <> 3 -> List.length (columns raw) <> 4 ->
   DE2.extract_file py_float py_str strptime read_csv nr variable z p = Raise ValueError) /\
  (List.length (columns raw) = 3 \/ List.length (columns raw) = 4 ->
   (returns (DE2.extract_file py_float py_str strptime read_csv nr variable z p)
    <-> returns (mapM (DE2.timestamp_date py_str strptime) (column_at 0 raw)))).
Proof.
  intros Hf Hs.
  rewrite (extract_file_after py_float py_str strptime read_csv nr variable z p content
             _ _ Hf (read_raw_strict py_float read_csv nr content raw Hs)).
  unfold DE2.relabel, DE2.rename_columns. cbn [columns rows List.length app].
  rewrite length_map.
  split; [|split; [|split]].
  - intros ->. cbn [Nat.eqb]. rewrite !bind_Ok. cbn [fst snd].
    intros t w H. apply bind_returns in H as (dates & _ & H). now injection H as _ <-.
  - intros ->. cbn [Nat.eqb]. rewrite !bind_Ok. cbn [fst snd].
    intros t w H. apply bind_returns in H as (dates & _ & H). now injection H as _ <-.
  - intros H3 H4. apply Nat.eqb_neq in H3 as ->.
    replace (4 =? List.length (columns raw)) with false
      by (symmetry; apply Nat.eqb_neq; congruence).
    reflexivity.
  - intros [-> | ->]; cbn [Nat.eqb]; rewrite !bind_Ok; cbn [fst snd];
      unfold column_at; cbn [rows];
      (split; intros [x Hx];
       [apply bind_returns in Hx as (dates & Hd & _); eexists; exact Hd
       |rewrite Hx, bind_Ok; eexists; reflexivity]).
Qed.

Lemma strict_parse_column_count_witness :
  DE2.get_file_from_zip (IntId 1) [("W/1.txt", five_fields)] None = Ok (Some five_fields) /\
  example_read_csv DE2.Strict five_fields
  = Ok (mkFrame [0; 1; 2; 3; 4]
          [(0, [Text "20200101000000"; Text "5"; Text "x"; Text "r"; Text "y"])]) /\
  DE2.extract_file example_float example_str example_strptime example_read_csv
    (IntId 1) "W" [("W/1.txt", five_fields)] None
  = Raise ValueError.
Proof.
  split; [reflexivity|]. split; [reflexivity|].
  refine (proj1 (proj2 (proj2 (strict_parse_column_count
            example_float example_str example_strptime example_read_csv
            (IntId 1) "W" [("W/1.txt", five_fields)] None five_fields
            (mkFrame [0; 1; 2; 3; 4]
               [(0, [Text "20200101000000"; Text "5"; Text "x"; Text "r"; Text "y"])])
            eq_refl eq_refl))) _ _); cbn [columns List.length]; discriminate.
Defined.

(** ** Bayern: the lines of the fallback *)

Lemma positions_increasing (l : list bool) :
  forall k : nat,
    increasing (map (fun ib => fst ib + 8)
                    (List.filter (fun ib : nat * bool => snd ib)
                                 (combine (seq k (List.length l)) l))) /\
    Forall (fun p => k + 8 <= p)
           (map (fun ib => fst ib + 8)
                (List.filter (fun ib : nat * bool => snd ib)
                             (combine (seq k (List.length l)) l))).
Proof.
  induction l as [|b l IH]; intros k; cbn [List.length seq combine List.filter map].
  - split; constructor.
  - destruct (IH (S k)) as [I1 I2]. destruct b; cbn [snd fst map].
    + split.
      * cbn [increasing]. split; [|exact I1].
        destruct (map _ _) as [|q qs]; [exact I|]. inversion I2; subst. lia.
      * constructor; [lia|]. eapply Forall_impl; [exact I2|]. intros p Hp. simpl in Hp. lia.
    + split; [exact I1|]. eapply Forall_impl; [exact I2|]. intros p Hp. simpl in Hp. lia.
Qed.

Lemma lines_kept_or_named (py_float : string -> option float) (l : list string) :
  forall k : nat,
    List.length (List.filter (fun row => negb (negative py_float row)) l)
    + List.length (List.filter (fun ib : nat * bool => snd ib)
                               (combine (seq k (List.length l)) (map (negative py_float) l)))
    = List.length l.
Proof.
  induction l as [|row l IH]; intros k; cbn [List.length seq combine List.filter map];
    [reflexivity|].
  specialize (IH (S k)). destruct (negative py_float row); cbn [negb snd List.length]; lia.
Qed.

(** X16: in the fallback every data line is either handed to the second
    parse or named in the warning: the number of lines kept and the number
    of positions in the warning add up to the number of data lines, and the
    positions grow strictly. Whenever the fallback returns, it brings exactly
    one warning: the positions, also when there are none, or the failure of
    the second parse, which comes with a frame of four columns and no row. *)
Theorem fallback_accounts_for_lines
    (py_float : string -> option float)
    (read_csv : DE2.csv_call -> string -> result (DataFrame nat))
    (nr : pyid) (content : string) (raw : DataFrame DE2.label) (ws : list warning) :
  read_csv DE2.Strict content = Raise ParserError ->
  DE2.read_raw py_float read_csv nr content = Ok (raw, ws) ->
  exists flags : list bool,
    mapM (DE2.faulty py_float) (skipn 8 (splitlines content)) = Ok flags /\
    List.length (DE2.keep_rows (skipn 8 (splitlines content)) flags)
    + List.length (DE2.faulty_positions flags)
    = List.length (skipn 8 (splitlines content)) /\
    increasing (DE2.faulty_positions flags) /\
    ((exists raw', read_csv DE2.Buffered
                     (join newline (DE2.keep_rows (skipn 8 (splitlines content)) flags))
                   = Ok raw' /\
                   raw = DE2.relabel DE2.Pos raw' /\
                   ws = [FaultyRows (str_of_id nr) (DE2.faulty_positions flags)]) \/
     (exists e, read_csv DE2.Buffered
                  (join newline (DE2.keep_rows (skipn 8 (splitlines content)) flags))
                = Raise e /\
                raw = mkFrame [DE2.Name "x1"; DE2.Name "x2"; DE2.Name "x3"; DE2.Name "x4"] [] /\
                ws = [FailedAltogether (str_of_id nr) e])).
Proof.
  intros Hs. unfold DE2.read_raw. rewrite Hs.
  destruct (mapM (DE2.faulty py_float) (skipn 8 (splitlines content))) as [flags|e] eqn:Hm;
    rewrite ?bind_Ok, ?bind_Raise; [|discriminate].
  cbv zeta. fold newline. intros H. exists flags. split; [reflexivity|].
  pose proof (mapM_faulty py_float _ flags Hm) as Hflags.
  split; [|split].
  - rewrite Hflags, keep_rows_filter. unfold DE2.faulty_positions, enumerate.
    rewrite length_map, length_map. apply lines_kept_or_named.
  - unfold DE2.faulty_positions, enumerate. apply positions_increasing.
  - destruct (read_csv DE2.Buffered _) as [raw'|e]; injection H as <- <-; eauto.
Qed.

Lemma fallback_accounts_for_lines_witness :
  example_read_csv DE2.Strict negative_level = Raise ParserError /\
  DE2.read_raw example_float example_read_csv (IntId 1) negative_level
  = Ok (mkFrame [DE2.Pos 0; DE2.Pos 1; DE2.Pos 2; DE2.Pos 3]
          [(0, [Text "20200101000000"; Text "5"; Text "x"; Text "r"])],
        [FaultyRows "1" [9]]) /\
  exists flags : list bool,
    mapM (DE2.faulty example_float) (skipn 8 (splitlines negative_level)) = Ok flags /\
    List.length (DE2.keep_rows (skipn 8 (splitlines negative_level)) flags)
    + List.length (DE2.faulty_positions flags)
    = List.length (skipn 8 (splitlines negative_level)).
Proof.
  split; [reflexivity|]. split; [reflexivity|].
  destruct (fallback_accounts_for_lines example_float example_read_csv (IntId 1)
              negative_level _ _ eq_refl eq_refl) as (flags & H1 & H2 & _).
  exists flags. split; [exact H1|exact H2].
Defined.

Lemma mapM_raises_first {A B : Type} (f : A -> result B) (l : list A) :
  forall (i : nat) (x : A) (e : exn),
    nth_error l i = Some x -> f x = Raise e ->
    (forall j y, j < i -> nth_error l j = Some y -> returns (f y)) ->
    mapM f l = Raise e.
Proof.
  induction l as [|a l IH]; intros i x e Hi Hx Hbefore.
  - now destruct i.
  - destruct i as [|i]; simpl in Hi.
    + injection Hi as ->. simpl. now rewrite Hx.
    + destruct (Hbefore 0 a) as [b Hb]; [lia|reflexivity|].
      simpl. rewrite Hb, bind_Ok.
      rewrite (IH i x e Hi Hx); [reflexivity|].
      intros j y Hj Hy. apply (Hbefore (S j) y); [lia|exact Hy].
Qed.

(** X17: the fallback reads the second field of every data line before it
    parses again. A line without a blank has no second field and raises
    [IndexError]; a second field that [float] rejects raises [ValueError];
    [faulty] raises nothing else. The exception of the first such line
    leaves [extract_file], and no table is returned. *)
Theorem fallback_raises_at_first_bad_line
    (py_float : string -> option float) (py_str : cell -> string)
    (strptime : string -> option datetime)
    (read_csv : DE2.csv_call -> string -> result (DataFrame nat)) :
  (forall row : string,
      contains_char " " row = false -> DE2.faulty py_float row = Raise IndexError) /\
  (forall (row : string) (e : exn),
      DE2.faulty py_float row = Raise e ->
      (e = IndexError /\ nth_error (split " " row) 1 = None) \/
      (e = ValueError /\ exists field, nth_error (split " " row) 1 = Some field /\
                                       py_float field = None)) /\
  (forall (nr : pyid) (variable : string) (z : DE2.ZipFile) (p : option string)
          (content : string) (i : nat) (row : string) (e : exn),
      DE2.get_file_from_zip nr z p = Ok (Some content) ->
      read_csv DE2.Strict content = Raise ParserError ->
      nth_error (skipn 8 (splitlines content)) i = Some row ->
      DE2.faulty py_float row = Raise e ->
      (forall j row', j < i -> nth_error (skipn 8 (splitlines content)) j = Some row' ->
                      returns (DE2.faulty py_float row')) ->
      DE2.extract_file py_float py_str strptime read_csv nr variable z p = Raise e).
Proof.
  split; [|split].
  - intros row H. unfold DE2.faulty. now rewrite (split_free _ _ H).
  - intros row e. unfold DE2.faulty.
    destruct (nth_error (split " " row) 1) as [field|].
    + destruct (py_float field) eqn:E; [discriminate|].
      intros H. injection H as <-. right. eauto.
    + intros H. injection H as <-. now left.
  - intros nr variable z p content i row e Hf Hs Hi He Hbefore.
    unfold DE2.extract_file. rewrite Hf, bind_Ok.
    unfold DE2.read_raw. rewrite Hs.
    now rewrite (mapM_raises_first _ _ i row e Hi He Hbefore).
Qed.

Lemma fallback_raises_at_first_bad_line_witness :
  example_read_csv DE2.Strict line_without_blank = Raise ParserError /\
  nth_error (skipn 8 (splitlines line_without_blank)) 2 = Some "EOF" /\
  DE2.extract_file example_float example_str example_strptime example_read_csv
    (IntId 1) "W" [("W/1.txt", line_without_blank)] None
  = Raise IndexError.
Proof.
  split; [reflexivity|]. split; [reflexivity|].
  refine (proj2 (proj2 (fallback_raises_at_first_bad_line
            example_float example_str example_strptime example_read_csv))
          (IntId 1) "W" [("W/1.txt", line_without_blank)] None line_without_blank
          2 "EOF" IndexError eq_refl eq_refl eq_refl eq_refl _).
  intros [|[|j]] row' Hj Hrow; [| |lia]; injection Hrow as <-; eexists; reflexivity.
Defined.

(** ** Bayern: the scan of [read_meta] *)

Section Scan.

Variable zip_at : string -> result DE2.ZipFile.
Variable base_path : string.

Lemma scan_station_once (ex : DE2_cells.extras) (nr : pyid) :
  DE2_cells.scan_station zip_at base_path ex nr
  = (tup ← station_header zip_at base_path nr;
     Ok (DE2_cells.append_at 1 (DE2_cells.append_at 0 ex (fst tup) (snd tup))
                             (fst tup) (snd tup))).
Proof.
  unfold DE2_cells.scan_station, station_header, enumerate.
  cbn [List.length seq combine for_each fst snd].
  destruct (DE2_cells.get_file_from_zip zip_at nr _ _) as [f|e]; [|reflexivity].
  unfold mbind, result_bind. cbv beta iota.
  destruct (DE2_cells.header_lines f) as [tup|e]; reflexivity.
Qed.

Lemma scan_stations_once (stations : list pyid) :
  forall ex : DE2_cells.extras,
    for_each (DE2_cells.scan_station zip_at base_path) stations ex
    = (tups ← mapM (station_header zip_at base_path) stations;
       Ok ((fst (fst ex) ++ map fst tups, snd (fst ex) ++ map snd tups),
           (fst (snd ex) ++ map fst tups, snd (snd ex) ++ map snd tups))).
Proof.
  induction stations as [|nr stations IH]; intros [[a b] [c d]]; cbn [for_each mapM].
  - cbn [fst snd]. rewrite bind_Ok. cbn [map]. now rewrite !app_nil_r.
  - rewrite scan_station_once.
    destruct (station_header zip_at base_path nr) as [[t u]|e]; [|reflexivity].
    rewrite !bind_Ok. rewrite IH.
    destruct (mapM (station_header zip_at base_path) stations) as [tups|e]; [|reflexivity].
    rewrite !bind_Ok. cbn [DE2_cells.append_at fst snd map].
    now rewrite <- !app_assoc.
Qed.

End Scan.

(** X18: the scan of [read_meta] asks the archive of the discharges for the
    file of every station in both turns of its inner loop, so that the
    columns [timezone_w] and [unit_w] get the lists of [timezone_q] and
    [unit_q]: [read_meta] with the scan is [read_meta] with one pass over
    the stations, in what it returns and in what it raises. Without the scan
    it is [read_excel] alone. *)
Theorem read_meta_scans_discharges_only
    (Frame : Type) (read_excel : string -> result Frame)
    (set_column : Frame -> string -> list (option string) -> result Frame)
    (zip_at : string -> result DE2.ZipFile) (Stationsnummer : list pyid)
    (base_path : string) :
  DE2_cells.read_meta Frame read_excel set_column zip_at Stationsnummer base_path true
  = read_meta_once read_excel set_column zip_at Stationsnummer base_path /\
  DE2_cells.read_meta Frame read_excel set_column zip_at Stationsnummer base_path false
  = read_excel (DEF.path_join2 base_path "Stammdaten_Bayern.xlsx") /\
  (forall ex : DE2_cells.extras,
      for_each (DE2_cells.scan_station zip_at base_path) Stationsnummer (([], []), ([], []))
      = Ok ex ->
      snd ex = fst ex /\
      List.length (fst (fst ex)) = List.length Stationsnummer /\
      List.length (snd (fst ex)) = List.length Stationsnummer).
Proof.
  split; [|split].
  - unfold DE2_cells.read_meta, read_meta_once. cbv zeta.
    destruct (read_excel _) as [meta|e]; [|reflexivity]. rewrite !bind_Ok. cbn [negb].
    rewrite scan_stations_once.
    destruct (mapM (station_header zip_at base_path) Stationsnummer) as [tups|e];
      reflexivity.
  - unfold DE2_cells.read_meta. cbv zeta.
    destruct (read_excel _) as [meta|e]; reflexivity.
  - intros ex. rewrite scan_stations_once.
    destruct (mapM (station_header zip_at base_path) Stationsnummer) as [tups|e] eqn:E;
      [|discriminate].
    rewrite bind_Ok. intros H. injection H as <-. cbn [fst snd app].
    apply mapM_length in E. now rewrite !length_map.
Qed.

Lemma get_file_lenient (nr : pyid) (z : DE2.ZipFile) (policy : string) :
  policy <> "raise" -> returns (DE2.get_file_from_zip nr z (Some policy)).
Proof.
  intros Hp. unfold DE2.get_file_from_zip. cbv zeta.
  change (default DE2.not_exists_default (Some policy)) with policy.
  case_bool_decide as Hin.
  - apply list_elem_of_In in Hin. destruct (zip_open_member z _ Hin) as [c ->].
    eexists. reflexivity.
  - apply String.eqb_neq in Hp as ->. eexists. reflexivity.
Qed.

Lemma header_lines_of_file (content : string) :
  DE2_cells.header_lines (Some content)
  = match nth_error (splitlines content) 5, nth_error (splitlines content) 6 with
    | Some a, Some b => Ok (Some a, Some b)
    | _, _ => Raise IndexError
    end.
Proof.
  unfold DE2_cells.header_lines, DE2_cells.index. cbv zeta.
  rewrite !nth_error_firstn, !nth_error_skipn. cbn [Nat.ltb Nat.leb Nat.add].
  destruct (nth_error (splitlines content) 5) as [a|]; [|reflexivity].
  rewrite bind_Ok. destruct (nth_error (splitlines content) 6) as [b|]; reflexivity.
Qed.

(** X19: the scan reads the lines 5 and 6 of a file, so it needs seven
    lines: with seven lines or more the two lines are the time zone and the
    unit of the station, a station without a file gets [None] twice, and a
    file with fewer lines raises [IndexError]. When the archive opens, the
    lookup itself raises nothing, and [read_meta] raises [IndexError] at the
    first station with a short file. *)
Theorem scan_needs_seven_lines
    (Frame : Type) (read_excel : string -> result Frame)
    (set_column : Frame -> string -> list (option string) -> result Frame)
    (zip_at : string -> result DE2.ZipFile) (Stationsnummer : list pyid)
    (base_path : string) :
  DE2_cells.header_lines None = Ok (None, None) /\
  (forall content : string,
      7 <= List.length (splitlines content) ->
      exists a b, nth_error (splitlines content) 5 = Some a /\
                  nth_error (splitlines content) 6 = Some b /\
                  DE2_cells.header_lines (Some content) = Ok (Some a, Some b)) /\
  (forall content : string,
      List.length (splitlines content) < 7 ->
      DE2_cells.header_lines (Some content) = Raise IndexError) /\
  (forall (z : DE2.ZipFile) (nr : pyid),
      zip_at (DEF.path_join2 base_path DE2_cells.abfluesse_zip) = Ok z ->
      returns (DE2_cells.get_file_from_zip zip_at nr
                 (DEF.path_join2 base_path DE2_cells.abfluesse_zip) (Some "return_none"))) /\
  (forall (meta : Frame) (z : DE2.ZipFile) (i : nat) (nr : pyid) (content : string),
      read_excel (DEF.path_join2 base_path "Stammdaten_Bayern.xlsx") = Ok meta ->
      zip_at (DEF.path_join2 base_path DE2_cells.abfluesse_zip) = Ok z ->
      nth_error Stationsnummer i = Some nr ->
      DE2.get_file_from_zip nr z (Some "return_none") = Ok (Some content) ->
      List.length (splitlines content) < 7 ->
      (forall j nr', j < i -> nth_error Stationsnummer j = Some nr' ->
                     returns (station_header zip_at base_path nr')) ->
      DE2_cells.read_meta Frame read_excel set_column zip_at Stationsnummer base_path true
      = Raise IndexError).
Proof.
  split; [reflexivity|]. split; [|split; [|split]].
  - intros content H. rewrite header_lines_of_file.
    destruct (nth_error (splitlines content) 5) as [a|] eqn:E5;
      [|apply nth_error_None in E5; lia].
    destruct (nth_error (splitlines content) 6) as [b|] eqn:E6;
      [|apply nth_error_None in E6; lia].
    eauto.
  - intros content H. rewrite header_lines_of_file.
    destruct (nth_error (splitlines content) 5) as [a|]; [|reflexivity].
    destruct (nth_error (splitlines content) 6) as [b|] eqn:E6; [|reflexivity].
    assert (6 < List.length (splitlines content))
      by (apply nth_error_Some; rewrite E6; discriminate).
    lia.
  - intros z nr Hz. unfold DE2_cells.get_file_from_zip. rewrite Hz, bind_Ok.
    apply get_file_lenient. discriminate.
  - intros meta z i nr content Hmeta Hz Hi Hf Hshort Hbefore.
    unfold DE2_cells.read_meta. cbv zeta. rewrite Hmeta, bind_Ok. cbn [negb].
    rewrite scan_stations_once.
    rewrite (mapM_raises_first _ _ i nr IndexError Hi); [reflexivity| |exact Hbefore].
    unfold station_header, DE2_cells.get_file_from_zip. rewrite Hz, bind_Ok, Hf, bind_Ok.
    rewrite header_lines_of_file.
    destruct (nth_error (splitlines content) 5) as [a|]; [|reflexivity].
    destruct (nth_error (splitlines content) 6) as [b|] eqn:E6; [|reflexivity].
    assert (6 < List.length (splitlines content))
      by (apply nth_error_Some; rewrite E6; discriminate).
    lia.
Qed.

Lemma scan_needs_seven_lines_witness :
  DE2.get_file_from_zip (IntId 1) [("Q/1.txt", join newline ["a"; "b"])] (Some "return_none")
  = Ok (Some (join newline ["a"; "b"])) /\
  List.length (splitlines (join newline ["a"; "b"])) < 7 /\
  DE2_cells.read_meta _ (fun _ => Ok []) example_set_column short_file_zip [IntId 1] "in" true
  = Raise IndexError.
Proof.
  split; [reflexivity|]. split; [vm_compute; lia|].
  refine (proj2 (proj2 (proj2 (proj2
            (scan_needs_seven_lines _ (fun _ => Ok []) example_set_column short_file_zip
               [IntId 1] "in"))))
          [] [("Q/1.txt", join newline ["a"; "b"])] 0 (IntId 1) (join newline ["a"; "b"])
          eq_refl eq_refl eq_refl eq_refl _ _).
  - vm_compute. lia.
  - intros j nr' Hj. lia.
Defined.

(** ** Bayern: the loop that saves *)

Section Saving.

Variable py_float : string -> option float.
Variable py_str : cell -> string.
Variable strptime : string -> option datetime.
Variable read_csv : DE2.csv_call -> string -> result (DataFrame nat).
Variable zip_at : string -> result DE2.ZipFile.
Variable input_path : string.

Abbreviation station_pair :=
  (DE2_cells.extract_station py_float py_str strptime read_csv zip_at input_path).
Abbreviation save_loop_de2 :=
  (DE2_cells.save_stations py_float py_str strptime read_csv zip_at input_path).

Lemma save_stations_prefix (ids : list pyid) :
  forall (saved saved' : list (Table * pyid)) (printed : option pyid),
    save_loop_de2 ids saved = (saved', printed) ->
    exists (k : nat) (pairs : list (Table * Table)),
      k <= List.length ids /\
      mapM station_pair (firstn k ids) = Ok pairs /\
      saved' = saved ++ flat_map (fun ip => [(fst (snd ip), fst ip); (snd (snd ip), fst ip)])
                                 (combine (firstn k ids) pairs) /\
      match printed with
      | None => k = List.length ids
      | Some id => nth_error ids k = Some id /\ raises (station_pair id)
      end.
Proof.
  induction ids as [|id ids IH]; intros saved saved' printed; cbn [DE2_cells.save_stations].
  - intros H. injection H as <- <-. exists 0, []. cbn. rewrite app_nil_r. auto.
  - destruct (station_pair id) as [[q w]|e] eqn:E.
    + intros H. apply IH in H as (k & pairs & Hk & Hm & -> & Hp).
      exists (S k), ((q, w) :: pairs). cbn [firstn mapM List.length].
      rewrite E, bind_Ok, Hm, bind_Ok. split; [lia|]. split; [reflexivity|].
      split; [cbn [combine flat_map fst snd]; now rewrite <- app_assoc|].
      destruct printed; [exact Hp|now f_equal].
    + intros H. injection H as <- <-. exists 0, []. cbn [firstn mapM combine flat_map].
      rewrite app_nil_r. split; [lia|]. split; [reflexivity|]. split; [reflexivity|].
      split; [reflexivity|]. exists e. exact E.
Qed.

End Saving.

(** X20: the loop that saves extracts both series of a station before it
    saves either. It saves the series of a first run of stations, each
    station twice in a row, the discharge before the water level; it stops
    at the first station for which one of the two extractions raises, prints
    that station, and saves nothing of it and of the stations behind it. *)
Theorem stations_saved_in_pairs
    (py_float : string -> option float) (py_str : cell -> string)
    (strptime : string -> option datetime)
    (read_csv : DE2.csv_call -> string -> result (DataFrame nat))
    (zip_at : string -> result DE2.ZipFile) (input_path : string)
    (provider_ids : list pyid) :
  exists (k : nat) (pairs : list (Table * Table)),
    k <= List.length provider_ids /\
    mapM (DE2_cells.extract_station py_float py_str strptime read_csv zip_at input_path)
         (firstn k provider_ids) = Ok pairs /\
    fst (DE2_cells.save_stations py_float py_str strptime read_csv zip_at input_path
           provider_ids [])
    = flat_map (fun ip => [(fst (snd ip), fst ip); (snd (snd ip), fst ip)])
               (combine (firstn k provider_ids) pairs) /\
    List.length (fst (DE2_cells.save_stations py_float py_str strptime read_csv zip_at
                        input_path provider_ids [])) = 2 * k /\
    match snd (DE2_cells.save_stations py_float py_str strptime read_csv zip_at input_path
                 provider_ids []) with
    | None => k = List.length provider_ids
    | Some id =>
        nth_error provider_ids k = Some id /\
        raises (DE2_cells.extract_station py_float py_str strptime read_csv zip_at
                  input_path id)
    end.
Proof.
  destruct (DE2_cells.save_stations py_float py_str strptime read_csv zip_at input_path
              provider_ids []) as [saved printed] eqn:E.
  apply save_stations_prefix in E as (k & pairs & Hk & Hm & -> & Hp).
  exists k, pairs. cbn [fst snd app]. split; [exact Hk|]. split; [exact Hm|].
  split; [reflexivity|]. split; [|exact Hp].
  apply mapM_length in Hm. rewrite length_firstn in Hm.
  assert (L : List.length (combine (firstn k provider_ids) pairs) = k).
  { rewrite length_combine, length_firstn. lia. }
  revert L. generalize (combine (firstn k provider_ids) pairs). clear.
  intros l. revert k. induction l as [|x l IH]; intros k L; simpl in *; [lia|].
  destruct k as [|k]; [discriminate|]. rewrite (IH k); lia.
Qed.

(** ** Schleswig-Holstein: [extract_file] and the loop that saves *)

Lemma remove_char_free (c : ascii) (s : string) :
  contains_char c s = false -> remove_char c s = s.
Proof.
  induction s as [|d s IH]; [reflexivity|]. cbn [contains_char remove_char].
  intros H. apply orb_false_iff in H as [H1 H2]. now rewrite H1, (IH H2).
Qed.

Lemma contains_remove_char (c : ascii) (s : string) :
  contains_char c (remove_char c s) = false.
Proof.
  induction s as [|d s IH]; [reflexivity|]. cbn [remove_char].
  destruct (Ascii.eqb c d) eqn:E; [exact IH|]. cbn [contains_char]. now rewrite E, IH.
Qed.

Lemma station_path_dots (s : string) (base_path : string) :
  station_path (StrId s) base_path
  = DEF.path_join base_path ["Q"; remove_char "." s +:+ ".csv"].
Proof.
  unfold station_path. cbn [str_of_id]. cbv zeta.
  destruct (contains_char "." s) eqn:E; [reflexivity|]. now rewrite remove_char_free.
Qed.

Lemma extract_file_path (py_float : string -> option float) (path_exists : string -> bool)
    (read_csv : string -> result (DataFrame string)) (nr : pyid) (base_path : string) :
  DEF.extract_file py_float path_exists read_csv nr base_path
  = if negb (path_exists (station_path nr base_path))
    then Ok (empty_table ["date"; "q"; "flag"])
    else
      df ← read_csv (station_path nr base_path);
      df ← DEF.rename_columns ["date"; "q"; "flag"] df;
      q ← mapM (astype_float py_float) (column_at 1 df);
      if forallb PrimFloat.is_nan q then Ok (empty_table ["date"; "q"; "flag"])
      else
        flag ← mapM DEF.flag_of (column_at 2 df);
        Ok [("date", VCell <$> column_at 0 df); ("q", VFloat <$> q); ("flag", flag)].
Proof. reflexivity. Qed.

(** X21: the dots of an identifier play no part in the file that is read:
    the file is [Q/<id without dots>.csv] under the base path, and two
    identifiers that differ in their dots only give the same result. *)
Theorem dots_are_dropped
    (py_float : string -> option float) (path_exists : string -> bool)
    (read_csv : string -> result (DataFrame string)) (base_path : string) :
  (forall s : string,
      station_path (StrId s) base_path
      = DEF.path_join2 (DEF.path_join2 base_path "Q") (remove_char "." s +:+ ".csv")) /\
  (forall s : string,
      DEF.extract_file py_float path_exists read_csv (StrId s) base_path
      = DEF.extract_file py_float path_exists read_csv (StrId (remove_char "." s)) base_path) /\
  (forall s s' : string,
      remove_char "." s = remove_char "." s' ->
      DEF.extract_file py_float path_exists read_csv (StrId s) base_path
      = DEF.extract_file py_float path_exists read_csv (StrId s') base_path).
Proof.
  split; [|split].
  - intros s. now rewrite station_path_dots.
  - intros s. rewrite !extract_file_path, !station_path_dots.
    now rewrite (remove_char_free _ _ (contains_remove_char "." s)).
  - intros s s' H. rewrite !extract_file_path, !station_path_dots. now rewrite H.
Qed.

(** X22: a table of [extract_file] is either the table without records, or
    it has the columns [date], [q] and [flag] with one record for every row
    of the file: the cells of column 0, floats of which one at least is not
    [nan], and booleans. *)
Theorem extracted_series_shape
    (py_float : string -> option float) (path_exists : string -> bool)
    (read_csv : string -> result (DataFrame string))
    (nr : pyid) (base_path : string) (t : Table) :
  DEF.extract_file py_float path_exists read_csv nr base_path = Ok t ->
  t = empty_table ["date"; "q"; "flag"] \/
  exists (df : DataFrame string) (q : list float) (flags : list value),
    read_csv (station_path nr base_path) = Ok df /\
    List.length (columns df) = 3 /\
    t = [("date", VCell <$> column_at 0 df); ("q", VFloat <$> q); ("flag", flags)] /\
    mapM (astype_float py_float) (column_at 1 df) = Ok q /\
    existsb (fun x => negb (PrimFloat.is_nan x)) q = true /\
    forallb is_bool_value flags = true /\
    rectangular (List.length (rows df)) t /\
    0 < List.length (rows df).
Proof.
  rewrite extract_file_path.
  destruct (path_exists _); cbn [negb]; [|intros H; injection H as <-; now left].
  intros H. apply bind_returns in H as (df & Hr & H).
  apply bind_returns in H as (df' & Hn & H).
  unfold DEF.rename_columns in Hn. destruct (_ =? _) eqn:Ec; [|discriminate].
  injection Hn as <-. apply Nat.eqb_eq in Ec. cbn [List.length] in Ec.
  change (column_at 0 (mkFrame ["date"; "q"; "flag"] (rows df))) with (column_at 0 df) in H.
  change (column_at 1 (mkFrame ["date"; "q"; "flag"] (rows df))) with (column_at 1 df) in H.
  change (column_at 2 (mkFrame ["date"; "q"; "flag"] (rows df))) with (column_at 2 df) in H.
  apply bind_returns in H as (q & Hq & H).
  destruct (forallb PrimFloat.is_nan q) eqn:En; [injection H as <-; now left|].
  apply bind_returns in H as (flags & Hf & H). injection H as <-.
  right. exists df, q, flags.
  pose proof (mapM_length _ _ _ Hq) as Lq. pose proof (mapM_length _ _ _ Hf) as Lf.
  unfold column_at in Lq, Lf. rewrite length_map in Lq, Lf.
  assert (Ex : existsb (fun x => negb (PrimFloat.is_nan x)) q = true).
  { clear -En. induction q as [|x q IH]; simpl in *; [discriminate|].
    destruct (PrimFloat.is_nan x); simpl in *; auto. }
  split; [exact Hr|]. split; [now symmetry|]. split; [reflexivity|].
  split; [exact Hq|]. split; [exact Ex|]. split.
  { revert Hf. apply mapM_forallb. intros [x|s|d] y; simpl; try discriminate.
    now intros [= <-]. }
  split.
  { repeat constructor; cbn [snd]; rewrite ?length_fmap; unfold column_at;
      rewrite ?length_map; auto. }
  destruct q; [discriminate|]. simpl in Lq. lia.
Qed.

Lemma extracted_series_shape_witness :
  DEF.extract_file example_float (fun _ => true) (fun _ => Ok checked_value)
    (IntId 114614) "/data"
  = Ok [("date", [VCell (DateTime new_year_2020)]); ("q", [VFloat 1.23]);
        ("flag", [VBool true])] /\
  ([("date", [VCell (DateTime new_year_2020)]); ("q", [VFloat 1.23]); ("flag", [VBool true])]
   = empty_table ["date"; "q"; "flag"] \/
   exists (df : DataFrame string) (q : list float) (flags : list value),
     Ok checked_value = Ok df /\
     List.length (columns df) = 3 /\
     [("date", [VCell (DateTime new_year_2020)]); ("q", [VFloat 1.23]); ("flag", [VBool true])]
     = [("date", VCell <$> column_at 0 df); ("q", VFloat <$> q); ("flag", flags)] /\
     mapM (astype_float example_float) (column_at 1 df) = Ok q /\
     existsb (fun x => negb (PrimFloat.is_nan x)) q = true /\
     forallb is_bool_value flags = true /\
     rectangular (List.length (rows df))
       [("date", [VCell (DateTime new_year_2020)]); ("q", [VFloat 1.23]);
        ("flag", [VBool true])] /\
     0 < List.length (rows df)).
Proof.
  split; [reflexivity|].
  exact (extracted_series_shape example_float (fun _ => true) (fun _ => Ok checked_value)
           (IntId 114614) "/data" _ eq_refl).
Defined.

(** X23: what a file that exists and is read makes of the call. A number
    of columns other than three raises [ValueError]. With three columns and
    a value that is not [nan], the call returns exactly when every cell of
    the flag column is a text; a flag cell that is empty, a number or a date
    raises [AttributeError]. *)
Theorem flags_must_be_texts
    (py_float : string -> option float) (path_exists : string -> bool)
    (read_csv : string -> result (DataFrame string))
    (nr : pyid) (base_path : string) (df : DataFrame string) :
  path_exists (station_path nr base_path) = true ->
  read_csv (station_path nr base_path) = Ok df ->
  (List.length (columns df) <> 3 ->
   DEF.extract_file py_float path_exists read_csv nr base_path = Raise ValueError) /\
  (forall q : list float,
      List.length (columns df) = 3 ->
      mapM (astype_float py_float) (column_at 1 df) = Ok q ->
      forallb PrimFloat.is_nan q = false ->
      (forallb is_text (column_at 2 df) = true ->
       returns (DEF.extract_file py_float path_exists read_csv nr base_path)) /\
      (forallb is_text (column_at 2 df) = false ->
       DEF.extract_file py_float path_exists read_csv nr base_path = Raise AttributeError)).
Proof.
  intros He Hr. rewrite extract_file_path, He, Hr. cbn [negb]. rewrite bind_Ok.
  unfold DEF.rename_columns. cbn [List.length]. split.
  - intros H. replace (3 =? List.length (columns df)) with false; [reflexivity|].
    symmetry. apply Nat.eqb_neq. congruence.
  - intros q Hc Hq Hn. rewrite Hc. cbn [Nat.eqb]. rewrite bind_Ok.
    change (column_at 1 (mkFrame ["date"; "q"; "flag"] (rows df))) with (column_at 1 df).
    change (column_at 2 (mkFrame ["date"; "q"; "flag"] (rows df))) with (column_at 2 df).
    rewrite Hq, bind_Ok, Hn. split.
    + intros Ht.
      assert (R : returns (mapM DEF.flag_of (column_at 2 df))).
      { apply mapM_returns. revert Ht. apply forallb_impl. now intros [x|s|d]. }
      destruct R as [flags ->]. rewrite bind_Ok. eexists. reflexivity.
    + intros Ht.
      assert (R : mapM DEF.flag_of (column_at 2 df) = Raise AttributeError).
      { revert Ht. generalize (column_at 2 df). intros l.
        induction l as [|c l IH]; simpl; [discriminate|].
        destruct c as [x|s|d]; simpl; try reflexivity.
        intros H. now rewrite (IH H). }
      now rewrite R.
Qed.

Lemma flags_must_be_texts_witness :
  (fun _ : string => true) (station_path (IntId 114614) "/data") = true /\
  forallb is_text (column_at 2 value_without_flag) = false /\
  DEF.extract_file example_float (fun _ => true) (fun _ => Ok value_without_flag)
    (IntId 114614) "/data"
  = Raise AttributeError.
Proof.
  split; [reflexivity|]. split; [reflexivity|].
  refine (proj2 (proj2 (flags_must_be_texts example_float (fun _ => true)
                          (fun _ => Ok value_without_flag) (IntId 114614) "/data"
                          value_without_flag eq_refl eq_refl)
                   [1.23%float] eq_refl eq_refl eq_refl) eq_refl).
Defined.

Section SavingDEF.

Variable py_float : string -> option float.
Variable path_exists : string -> bool.
Variable read_csv : string -> result (DataFrame string).
Variable input_path : string.

Abbreviation extract_def :=
  (fun nr => DEF.extract_file py_float path_exists read_csv nr input_path).
Abbreviation save_loop_def :=
  (DEF_cells.save_stations py_float path_exists read_csv input_path).

Lemma save_stations_def_prefix (ids : list pyid) :
  forall (saved saved' : list (Table * string)) (raised : option exn),
    save_loop_def ids saved = (saved', raised) ->
    exists (k : nat) (qs : list Table),
      k <= List.length ids /\
      mapM extract_def (firstn k ids) = Ok qs /\
      saved' = saved ++ flat_map (fun iq => [(snd iq, str_of_id (fst iq));
                                             (empty_table ["date"; "w"; "flag"],
                                              str_of_id (fst iq))])
                                 (combine (firstn k ids) qs) /\
      match raised with
      | None => k = List.length ids
      | Some e => exists id, nth_error ids k = Some id /\ extract_def id = Raise e
      end.
Proof.
  induction ids as [|id ids IH]; intros saved saved' raised; cbn [DEF_cells.save_stations].
  - intros H. injection H as <- <-. exists 0, []. cbn. rewrite app_nil_r. auto.
  - cbv zeta.
    change (DEF.extract_file py_float path_exists read_csv (StrId (str_of_id id)) input_path)
      with (extract_def id).
    destruct (extract_def id) as [q|e] eqn:E.
    + intros H. apply IH in H as (k & qs & Hk & Hm & -> & Hp).
      exists (S k), (q :: qs). cbn [firstn mapM List.length].
      rewrite E, bind_Ok, Hm, bind_Ok. split; [lia|]. split; [reflexivity|].
      split; [cbn [combine flat_map fst snd]; now rewrite <- app_assoc|].
      destruct raised; [exact Hp|now f_equal].
    + intros H. injection H as <- <-. exists 0, []. cbn [firstn mapM combine flat_map].
      rewrite app_nil_r. split; [lia|]. split; [reflexivity|]. split; [reflexivity|].
      exists id. split; [reflexivity|exact E].
Qed.

End SavingDEF.

(** X24: the loop that saves has no handler: the first station whose
    extraction raises ends it with that exception, and nothing is saved of
    that station and of the stations behind it. Every station before it is
    saved twice in a row under the text of its identifier, dots included:
    its series, and the table without records with the columns [date], [w]
    and [flag]. *)
Theorem stations_saved_until_exception
    (py_float : string -> option float) (path_exists : string -> bool)
    (read_csv : string -> result (DataFrame string))
    (input_path : string) (ids : list pyid) :
  exists (k : nat) (qs : list Table),
    k <= List.length ids /\
    mapM (fun nr => DEF.extract_file py_float path_exists read_csv nr input_path)
         (firstn k ids) = Ok qs /\
    fst (DEF_cells.save_stations py_float path_exists read_csv input_path ids [])
    = flat_map (fun iq => [(snd iq, str_of_id (fst iq));
                           (empty_table ["date"; "w"; "flag"], str_of_id (fst iq))])
               (combine (firstn k ids) qs) /\
    match snd (DEF_cells.save_stations py_float path_exists read_csv input_path ids []) with
    | None => k = List.length ids
    | Some e =>
        exists id, nth_error ids k = Some id /\
                   DEF.extract_file py_float path_exists read_csv id input_path = Raise e
    end.
Proof.
  destruct (DEF_cells.save_stations py_float path_exists read_csv input_path ids [])
    as [saved raised] eqn:E.
  apply save_stations_def_prefix in E as (k & qs & Hk & Hm & -> & Hp).
  exists k, qs. cbn [fst snd app]. auto.
Qed.

(** ** The name of the variable *)

Lemma for_each_ext {S A : Type} (body body' : S -> A -> result S) (l : list A) :
  (forall st x, body st x = body' st x) ->
  forall st : S, for_each body l st = for_each body' l st.
Proof.
  intros H. induction l as [|x l IH]; intros st; cbn [for_each]; [reflexivity|].
  rewrite H. destruct (body' st x) as [st'|e]; [|reflexivity]. rewrite !bind_Ok. apply IH.
Qed.

(** X25: the parsers use the name of the variable in lower case only, for
    the column of the values: a name and its lower case give the same
    result, in Brandenburg and in Bayern. *)
Theorem variable_case_is_ignored
    (py_float : string -> option float) (py_str : cell -> string)
    (dateparse strptime : string -> option datetime)
    (read_csv : DE2.csv_call -> string -> result (DataFrame nat))
    (variable : string) :
  (forall (df : DataFrame nat) (skip_data : bool),
      DE4.parse_dirty_dataframe py_float py_str dateparse df (lower variable) skip_data
      = DE4.parse_dirty_dataframe py_float py_str dateparse df variable skip_data) /\
  (forall (nr : pyid) (z : DE2.ZipFile) (p : option string),
      DE2.extract_file py_float py_str strptime read_csv nr (lower variable) z p
      = DE2.extract_file py_float py_str strptime read_csv nr variable z p).
Proof.
  split.
  - intros df skip_data. unfold DE4.parse_dirty_dataframe. f_equal.
    apply for_each_ext. intros st it. unfold DE4.loop_body, DE4.data_block.
    now rewrite lower_idem.
  - intros nr z p. unfold DE2.extract_file. now rewrite lower_idem.
Qed.
